(** * 3Dmapper: tile math, exact cropping, ground plane and building extrusion

    A shallow embedding of [app.py].  The numeric code is written once over
    an interface of Python's [float] ([PyFloat], [Libm]) and read at two
    instances:

    - [binary64]: IEEE 754 double precision, what CPython's [float] is.  The
      arithmetic operators, [int()] and the int/float conversions are exact
      models; the C library's transcendental functions have no instance.
    - [R]: the real numbers, the exact arithmetic that the floating-point
      code approximates; here [math.log], [math.tan], ... are the real
      functions.

    The pictures are sizes with a pixel function, after PIL's [Image.new],
    [paste] and [crop]; the tile server and the resampling filter are
    parameters of the mosaic and of the texture.

    Python exceptions are values of [result]. *)

From Stdlib Require Import ZArith NArith QArith Qreals List Bool String Ascii Lia.
From Stdlib Require Import Floats Uint63 DecimalString.
From Stdlib Require Import DecimalZ FinFun.
From Stdlib Require Import Reals Lra.
Import ListNotations.

Set Implicit Arguments.
Set Warnings "-register-all".
#[local] Set Warnings "-inexact-float".
Local Open Scope Z_scope.

(** ** Exceptions *)

Inductive exn : Type :=
| ZeroDivisionError
| ValueError
| OverflowError
| TypeError
| KeyError
| AttributeError
| LibraryError.

Inductive result (A : Type) : Type :=
| Ok (a : A)
| Raise (e : exn).

Arguments Ok {A} a.
Arguments Raise {A} e.

Definition bind {A B : Type} (m : result A) (k : A -> result B) : result B :=
  match m with
  | Ok a => k a
  | Raise e => Raise e
  end.

Notation "x <- m ;; k" := (bind m (fun x => k))
  (at level 61, m at next level, right associativity).
Notation "' p <- m ;; k" := (bind m (fun p => k))
  (at level 61, p pattern, m at next level, right associativity).

(** ** The interface of Python's float *)

Class PyFloat (F : Type) : Type := {
  fadd : F -> F -> F;
  fsub : F -> F -> F;
  fmul : F -> F -> F;
  fquot : F -> F -> F;            (* the quotient, for a divisor that is not 0 *)
  feqb : F -> F -> bool;          (* == *)
  fltb : F -> F -> bool;          (* <  *)
  flit : Q -> F;                  (* a decimal literal of the source text *)
  float_of_int : Z -> result F;   (* the conversion of an int operand *)
  int_true_div : Z -> Z -> result F;  (* int / int *)
  int_of_float : F -> result Z;   (* int(x): truncation toward zero *)
  math_pi : F
}.

(** The functions of the C library behind the [math] module. *)
Class Libm (F : Type) : Type := {
  math_log : F -> result F;
  math_tan : F -> result F;
  math_cos : F -> result F;
  math_atan : F -> result F;
  math_sinh : F -> result F
}.

Section Operators.
Context {F : Type} {PF : PyFloat F}.

(** [a / b] on floats. *)
Definition py_div (a b : F) : result F :=
  if feqb b (flit 0) then Raise ZeroDivisionError else Ok (fquot a b).

(** [a > b] is [b < a]. *)
Definition fgtb (a b : F) : bool := fltb b a.

(** [max(a, b)]: [b] replaces [a] only when [b > a]. *)
Definition py_max (a b : F) : F := if fgtb b a then b else a.

(** [math.radians] and [math.degrees]: a product with a constant. *)
Definition math_radians (x : F) : F := fmul x (fquot math_pi (flit 180)).
Definition math_degrees (x : F) : F := fmul x (fquot (flit 180) math_pi).
End Operators.

(** ** Instance: binary64 *)

Module B64.

(** An integer as the unrounded binary number m * 2^0. *)
Definition SF_of_Z (z : Z) : spec_float :=
  match z with
  | Z0 => S754_zero false
  | Zpos p => S754_finite false p 0
  | Zneg p => S754_finite true p 0
  end.

Definition is_infinity (x : spec_float) : bool :=
  match x with S754_infinity _ => true | _ => false end.

(** An integer below 2^53 in absolute value is a double; CPython converts
    such operands and divides them as doubles. *)
Definition fits (z : Z) : bool := Z.abs z <? 9007199254740992.

(** The double of an integer that fits. *)
Definition exact_of_Z (z : Z) : float :=
  match z with
  | Z0 => PrimFloat.zero
  | Zpos _ => PrimFloat.of_uint63 (Uint63.of_Z z)
  | Zneg p => PrimFloat.opp (PrimFloat.of_uint63 (Uint63.of_Z (Zpos p)))
  end.

(** The nearest double of any integer (ties to even), or an infinity. *)
Definition round_Z (z : Z) : spec_float := binary_normalize prec emax z 0 false.

(** The conversion of an int operand: [OverflowError] beyond the range of
    the doubles. *)
Definition of_Z (z : Z) : result float :=
  if fits z then Ok (exact_of_Z z)
  else
    let r := round_Z z in
    if is_infinity r then Raise OverflowError else Ok (SF2Prim r).

(** The nearest double of the quotient of two integers, or an infinity. *)
Definition round_quotient (a b : Z) : spec_float :=
  SFdiv prec emax (SF_of_Z a) (SF_of_Z b).

(** [a / b] on two ints. *)
Definition Zdiv (a b : Z) : result float :=
  if b =? 0 then Raise ZeroDivisionError
  else if fits a && fits b then Ok (PrimFloat.div (exact_of_Z a) (exact_of_Z b))
  else
    let r := round_quotient a b in
    if is_infinity r then Raise OverflowError else Ok (SF2Prim r).

(** A decimal literal is read as the nearest double. *)
Definition of_Q (q : Q) : float :=
  if fits (Qnum q) && fits (Zpos (Qden q))
  then PrimFloat.div (exact_of_Z (Qnum q)) (exact_of_Z (Zpos (Qden q)))
  else SF2Prim (round_quotient (Qnum q) (Zpos (Qden q))).

(** [int(f)]: the integer part of (-1)^s * m * 2^e. *)
Definition to_Z (f : float) : result Z :=
  match Prim2SF f with
  | S754_zero _ => Ok 0
  | S754_finite s m e =>
      let v := match e with
               | Zneg p => Z.shiftr (Zpos m) (Zpos p)
               | _ => Z.shiftl (Zpos m) e
               end in
      Ok (if s then - v else v)
  | S754_infinity _ => Raise OverflowError
  | S754_nan => Raise ValueError
  end.

(** [math.pi], the double 0x1.921fb54442d18p+1. *)
Definition pi : float := 0x1.921fb54442d18p+1%float.

(** The bits of two doubles agree. *)
Definition same_double (x y : float) : bool :=
  match Prim2SF x, Prim2SF y with
  | S754_zero s, S754_zero t => Bool.eqb s t
  | S754_infinity s, S754_infinity t => Bool.eqb s t
  | S754_nan, S754_nan => true
  | S754_finite s m e, S754_finite t n d => Bool.eqb s t && (m =? n)%positive && (e =? d)
  | _, _ => false
  end.

End B64.

#[export] Instance binary64 : PyFloat float := {
  fadd := PrimFloat.add;
  fsub := PrimFloat.sub;
  fmul := PrimFloat.mul;
  fquot := PrimFloat.div;
  feqb := PrimFloat.eqb;
  fltb := PrimFloat.ltb;
  flit := B64.of_Q;
  float_of_int := B64.of_Z;
  int_true_div := B64.Zdiv;
  int_of_float := B64.to_Z;
  math_pi := B64.pi
}.

(** ** Instance: the real numbers *)

Module Exact.

(** Equality and order of the real numbers, as booleans. *)
Definition eqb (a b : R) : bool := if Req_dec_T a b then true else false.
Definition ltb (a b : R) : bool := if Rlt_dec a b then true else false.

(** Truncation toward zero. *)
Definition trunc (r : R) : Z :=
  if Rle_dec 0 r then Int_part r else - Int_part (- r).

Definition Zdiv (a b : Z) : result R :=
  if b =? 0 then Raise ZeroDivisionError else Ok (IZR a / IZR b)%R.

(** [math.log] raises on an argument that is not positive. *)
Definition log (x : R) : result R :=
  if Rlt_dec 0 x then Ok (ln x) else Raise ValueError.

End Exact.

#[export] Instance exact : PyFloat R := {
  fadd := Rplus;
  fsub := Rminus;
  fmul := Rmult;
  fquot := Rdiv;
  feqb := Exact.eqb;
  fltb := Exact.ltb;
  flit := Q2R;
  float_of_int := fun z => Ok (IZR z);
  int_true_div := Exact.Zdiv;
  int_of_float := fun r => Ok (Exact.trunc r);
  math_pi := PI
}.

#[export] Instance exact_libm : Libm R := {
  math_log := Exact.log;
  math_tan := fun x => Ok (tan x);
  math_cos := fun x => Ok (cos x);
  math_atan := fun x => Ok (atan x);
  math_sinh := fun x => Ok (sinh x)
}.

(** ** Tile math (app.py, lines 37-64) *)

Section TileMath.
Context {F : Type} {PF : PyFloat F}.

(** [int((lon + 180) / 360 * (2 ** zoom))] *)
Definition long2tile (lon : F) (zoom : N) : result Z :=
  a <- py_div (fadd lon (flit 180)) (flit 360) ;;
  p <- float_of_int (2 ^ Z.of_N zoom) ;;
  int_of_float (fmul a p).

(** [x / (2 ** zoom) * 360.0 - 180.0] *)
Definition tile2long (x : Z) (zoom : N) : result F :=
  q <- int_true_div x (2 ^ Z.of_N zoom) ;;
  Ok (fsub (fmul q (flit 360)) (flit 180)).

Context {LM : Libm F}.

(** [int((1 - math.log(math.tan(lat_rad) + 1 / math.cos(lat_rad)) / math.pi)
    / 2 * (2 ** zoom))] *)
Definition lat2tile (lat : F) (zoom : N) : result Z :=
  let lat_rad := math_radians lat in
  t <- math_tan lat_rad ;;
  c <- math_cos lat_rad ;;
  s <- py_div (flit 1) c ;;
  l <- math_log (fadd t s) ;;
  q <- py_div l math_pi ;;
  h <- py_div (fsub (flit 1) q) (flit 2) ;;
  p <- float_of_int (2 ^ Z.of_N zoom) ;;
  int_of_float (fmul h p).

(** [n = math.pi - 2 * math.pi * y / (2 ** zoom)], then
    [math.degrees(math.atan(math.sinh(n)))] *)
Definition tile2lat (y : Z) (zoom : N) : result F :=
  yf <- float_of_int y ;;
  p <- float_of_int (2 ^ Z.of_N zoom) ;;
  d <- py_div (fmul (fmul (flit 2) math_pi) yf) p ;;
  let n := fsub math_pi d in
  s <- math_sinh n ;;
  a <- math_atan s ;;
  Ok (math_degrees a).

(** A bounding box is the tuple (west, south, east, north). *)
Definition bbox : Type := (F * F * F * F)%type.

(** The tile range (min_x, min_y, max_x, max_y); the rows come from north
    to south. *)
Definition get_tiles_for_bbox (b : bbox) (zoom : N) : result (Z * Z * Z * Z) :=
  let '(west, south, east, north) := b in
  min_x <- long2tile west zoom ;;
  max_x <- long2tile east zoom ;;
  min_y <- lat2tile north zoom ;;
  max_y <- lat2tile south zoom ;;
  Ok (min_x, min_y, max_x, max_y).

(** The zoom chosen by [get_perfect_map_texture] (lines 144-154). *)
Definition choose_zoom (user_bbox : bbox) : N :=
  let '(west, south, east, north) := user_bbox in
  let bbox_width := fsub east west in
  let bbox_height := fsub north south in
  let max_dimension := py_max bbox_width bbox_height in
  if fgtb max_dimension (flit (1 # 100)) then 14%N
  else if fgtb max_dimension (flit (5 # 1000)) then 15%N
  else 16%N.

(** The bounding box of the tile grid (lines 157-164). *)
Definition tiles_bbox_of (user_bbox : bbox) (zoom : N) : result bbox :=
  '(min_x, min_y, max_x, max_y) <- get_tiles_for_bbox user_bbox zoom ;;
  tiles_west <- tile2long min_x zoom ;;
  tiles_east <- tile2long (max_x + 1) zoom ;;
  tiles_north <- tile2lat min_y zoom ;;
  tiles_south <- tile2lat (max_y + 1) zoom ;;
  Ok (tiles_west, tiles_south, tiles_east, tiles_north).

End TileMath.

(** ** Exact cropper (lines 105-138)

    The stitched image enters only through its pixel size; the function
    returns the box it passes to [stitched_image.crop]. *)

Record image_size : Type := { width : Z; height : Z }.

Section Cropper.
Context {F : Type} {PF : PyFloat F}.

(** [int(ratio * n)] for a float [ratio] and an int [n]. *)
Definition scale_to_pixels (ratio : F) (n : Z) : result Z :=
  nf <- float_of_int n ;;
  int_of_float (fmul ratio nf).

Definition crop_image_to_exact_bbox
    (stitched_image : image_size) (user_bbox tiles_bbox : @bbox F)
    : result (Z * Z * Z * Z) :=
  let '(user_west, user_south, user_east, user_north) := user_bbox in
  let '(tiles_west, tiles_south, tiles_east, tiles_north) := tiles_bbox in
  let image_width := width stitched_image in
  let image_height := height stitched_image in
  x_ratio <- py_div (fsub user_west tiles_west) (fsub tiles_east tiles_west) ;;
  crop_left <- scale_to_pixels x_ratio image_width ;;
  x_ratio <- py_div (fsub user_east tiles_west) (fsub tiles_east tiles_west) ;;
  crop_right <- scale_to_pixels x_ratio image_width ;;
  y_ratio <- py_div (fsub tiles_north user_north) (fsub tiles_north tiles_south) ;;
  crop_top <- scale_to_pixels y_ratio image_height ;;
  y_ratio <- py_div (fsub tiles_north user_south) (fsub tiles_north tiles_south) ;;
  crop_bottom <- scale_to_pixels y_ratio image_height ;;
  let crop_left := Z.max 0 (Z.min crop_left (image_width - 1)) in
  let crop_right := Z.max (crop_left + 1) (Z.min crop_right image_width) in
  let crop_top := Z.max 0 (Z.min crop_top (image_height - 1)) in
  let crop_bottom := Z.max (crop_top + 1) (Z.min crop_bottom image_height) in
  Ok (crop_left, crop_top, crop_right, crop_bottom).

End Cropper.

(** ** Local projection (lines 177-189) *)

Section Projection.
Context {F : Type} {PF : PyFloat F} {LM : Libm F}.

Definition lat_lon_to_meters (lat lon origin_lat origin_lon : F) : result (F * F) :=
  let R := flit 6378137 in
  let lat_rad := math_radians lat in
  let lon_rad := math_radians lon in
  let origin_lat_rad := math_radians origin_lat in
  let origin_lon_rad := math_radians origin_lon in
  c <- math_cos origin_lat_rad ;;
  let x := fmul (fmul R (fsub lon_rad origin_lon_rad)) c in
  let y := fmul R (fsub lat_rad origin_lat_rad) in
  Ok (x, y).

End Projection.

(** ** The mesh document

    A line of the OBJ text, with the numbers it prints kept as numbers: the
    source formats coordinates with [:.3f] and joins the lines with newlines.
    A face corner is a vertex index with an optional texture index
    ([f 1/1 2/2 3/3] against [f 5 7 8 6]). *)

Inductive obj_line (F : Type) : Type :=
| Comment (text : string)
| BboxComment (b : F * F * F * F)
| OriginComment (lat lon : F)
| Blank
| MtlLib (name : string)
| V (x y z : F)
| VT (u v : F)
| UseMtl (name : string)
| Group (name : string)
| Face (corners : list (Z * option Z)).

Arguments Comment {F} text.
Arguments BboxComment {F} b.
Arguments OriginComment {F} lat lon.
Arguments Blank {F}.
Arguments MtlLib {F} name.
Arguments V {F} x y z.
Arguments VT {F} u v.
Arguments UseMtl {F} name.
Arguments Group {F} name.
Arguments Face {F} corners.

Section Document.
Context {F : Type}.

Definition vertices (doc : list (obj_line F)) : list (F * F * F) :=
  flat_map (fun l => match l with V x y z => [(x, y, z)] | _ => [] end) doc.

Definition uvs (doc : list (obj_line F)) : list (F * F) :=
  flat_map (fun l => match l with VT u v => [(u, v)] | _ => [] end) doc.

Definition faces (doc : list (obj_line F)) : list (list (Z * option Z)) :=
  flat_map (fun l => match l with Face c => [c] | _ => [] end) doc.

Definition vertex_lines (doc : list (obj_line F)) : Z :=
  Z.of_nat (List.length (vertices doc)).

Definition uv_lines (doc : list (obj_line F)) : Z :=
  Z.of_nat (List.length (uvs doc)).

(** Every corner of the face names a vertex among the first [nv] and, when
    it has one, a texture coordinate among the first [nt]. *)
Definition face_in_range (nv nt : Z) (corners : list (Z * option Z)) : Prop :=
  Forall (fun c => 1 <= fst c <= nv /\
                   match snd c with Some t => 1 <= t <= nt | None => True end)
         corners.

(** Every face of the document refers only to vertices and texture
    coordinates printed above it; [nv] and [nt] count the lines already
    passed. *)
Fixpoint indices_valid_from (nv nt : Z) (doc : list (obj_line F)) : Prop :=
  match doc with
  | [] => True
  | V _ _ _ :: rest => indices_valid_from (nv + 1) nt rest
  | VT _ _ :: rest => indices_valid_from nv (nt + 1) rest
  | Face c :: rest => face_in_range nv nt c /\ indices_valid_from nv nt rest
  | _ :: rest => indices_valid_from nv nt rest
  end.

Definition indices_valid (doc : list (obj_line F)) : Prop :=
  indices_valid_from 0 0 doc.

End Document.

(** ** Ground plane (lines 191-230) *)

Section Ground.
Context {F : Type} {PF : PyFloat F} {LM : Libm F}.

(** The origin shared by the ground and the buildings (lines 196-197 and
    386-387). *)
Definition origin_of (b : @bbox F) : result (F * F) :=
  let '(west, south, east, north) := b in
  origin_lat <- py_div (fadd south north) (flit 2) ;;
  origin_lon <- py_div (fadd west east) (flit 2) ;;
  Ok (origin_lat, origin_lon).

Definition create_perfect_ground_plane (b : @bbox F) (map_image_path : string)
    : result (list (obj_line F) * Z) :=
  let '(west, south, east, north) := b in
  '(origin_lat, origin_lon) <- origin_of b ;;
  '(sw_x, sw_y) <- lat_lon_to_meters south west origin_lat origin_lon ;;
  '(se_x, se_y) <- lat_lon_to_meters south east origin_lat origin_lon ;;
  '(nw_x, nw_y) <- lat_lon_to_meters north west origin_lat origin_lon ;;
  '(ne_x, ne_y) <- lat_lon_to_meters north east origin_lat origin_lon ;;
  let obj_lines := [
    Comment "Perfect Aligned Ground Plane";
    BboxComment b;
    OriginComment origin_lat origin_lon;
    Blank;
    Comment "Ground vertices";
    V sw_x sw_y (flit (-1 # 10));
    V se_x se_y (flit (-1 # 10));
    V ne_x ne_y (flit (-1 # 10));
    V nw_x nw_y (flit (-1 # 10));
    Blank;
    Comment "UV coordinates";
    VT (flit 0) (flit 0);
    VT (flit 1) (flit 0);
    VT (flit 1) (flit 1);
    VT (flit 0) (flit 1);
    Blank;
    UseMtl "ground_texture";
    Group "ground_plane";
    Comment "Two triangles forming the ground rectangle";
    Face [(1, Some 1); (2, Some 2); (3, Some 3)];
    Face [(1, Some 1); (3, Some 3); (4, Some 4)];
    Blank
  ] in
  Ok (obj_lines, 4).

End Ground.

(** ** Python values

    The footprint records come from [response.json()]: any JSON value can
    stand where the code expects a dict, a list or a number.  A dict is an
    association list whose keys are distinct. *)

Inductive pyval (F : Type) : Type :=
| PNone
| PBool (b : bool)
| PInt (z : Z)
| PFloat (f : F)
| PStr (s : string)
| PList (items : list (pyval F))
| PDict (entries : list (string * pyval F)).

Arguments PNone {F}.
Arguments PBool {F} b.
Arguments PInt {F} z.
Arguments PFloat {F} f.
Arguments PStr {F} s.
Arguments PList {F} items.
Arguments PDict {F} entries.

(** The builtins [float(s)] and [int(s)] on a string. *)
Class Builtins (F : Type) : Type := {
  float_of_str : string -> result F;
  int_of_str : string -> result Z
}.

Fixpoint mapM {A B : Type} (f : A -> result B) (l : list A) : result (list B) :=
  match l with
  | [] => Ok []
  | a :: rest => b <- f a ;; bs <- mapM f rest ;; Ok (b :: bs)
  end.

(** [s.replace(c, '')] for a one-character [c]. *)
Fixpoint str_remove (c : ascii) (s : string) : string :=
  match s with
  | EmptyString => EmptyString
  | String a rest =>
      if Ascii.eqb a c then str_remove c rest else String a (str_remove c rest)
  end.

Fixpoint chars (s : string) : list string :=
  match s with
  | EmptyString => []
  | String a rest => String a EmptyString :: chars rest
  end.

Section PyValues.
Context {F : Type} {PF : PyFloat F}.

Definition dict_lookup (k : string) (d : list (string * pyval F)) : option (pyval F) :=
  match find (fun e => String.eqb (fst e) k) d with
  | Some e => Some (snd e)
  | None => None
  end.

(** [o.get(k, default)] *)
Definition py_get (o : pyval F) (k : string) (default : pyval F) : result (pyval F) :=
  match o with
  | PDict d => Ok (match dict_lookup k d with Some v => v | None => default end)
  | _ => Raise AttributeError
  end.

(** [o[k]] for a string [k] *)
Definition py_getitem (o : pyval F) (k : string) : result (pyval F) :=
  match o with
  | PDict d => match dict_lookup k d with Some v => Ok v | None => Raise KeyError end
  | _ => Raise TypeError
  end.

(** [for node in o] *)
Definition py_iter (o : pyval F) : result (list (pyval F)) :=
  match o with
  | PList l => Ok l
  | PDict d => Ok (map (fun e => PStr (fst e)) d)
  | PStr s => Ok (map PStr (chars s))
  | _ => Raise TypeError
  end.

(** The truth value of [o]. *)
Definition py_truthy (o : pyval F) : bool :=
  match o with
  | PNone => false
  | PBool b => b
  | PInt z => negb (z =? 0)
  | PFloat f => negb (feqb f (flit 0))
  | PStr s => negb (String.eqb s "")
  | PList l => match l with [] => false | _ => true end
  | PDict d => match d with [] => false | _ => true end
  end.

(** [f == z] for a float and an int: the two numbers are compared
    exactly. *)
Definition feq_int (f : F) (z : Z) : bool :=
  match int_of_float f with
  | Ok t =>
      (t =? z) && match float_of_int t with Ok g => feqb g f | Raise _ => false end
  | Raise _ => false
  end.

Definition Z_of_bool (b : bool) : Z := if b then 1 else 0.

(** [a == b].  Two values read from different places of the JSON text
    are different objects, so a NaN is not equal to a NaN. *)
Fixpoint py_eq (a b : pyval F) {struct a} : bool :=
  match a, b with
  | PNone, PNone => true
  | PBool x, PBool y => Bool.eqb x y
  | PBool x, PInt y => Z_of_bool x =? y
  | PInt x, PBool y => x =? Z_of_bool y
  | PInt x, PInt y => x =? y
  | PBool x, PFloat y => feq_int y (Z_of_bool x)
  | PFloat x, PBool y => feq_int x (Z_of_bool y)
  | PInt x, PFloat y => feq_int y x
  | PFloat x, PInt y => feq_int x y
  | PFloat x, PFloat y => feqb x y
  | PStr s, PStr t => String.eqb s t
  | PList l, PList m =>
      (fix all2 (l : list (pyval F)) (m : list (pyval F)) : bool :=
         match l, m with
         | [], [] => true
         | x :: l', y :: m' => py_eq x y && all2 l' m'
         | _, _ => false
         end) l m
  | PDict d, PDict e =>
      (List.length d =? List.length e)%nat &&
      (fix all (d : list (string * pyval F)) : bool :=
         match d with
         | [] => true
         | (k, v) :: d' =>
             match dict_lookup k e with
             | Some w => py_eq v w
             | None => false
             end && all d'
         end) d
  | _, _ => false
  end.

(** [k in o] for a string [k] *)
Definition py_in (k : string) (o : pyval F) : result bool :=
  match o with
  | PDict d => Ok (match dict_lookup k d with Some _ => true | None => false end)
  | PList l => Ok (existsb (py_eq (PStr k)) l)
  | PStr s => Ok (match String.index 0 k s with Some _ => true | None => false end)
  | _ => Raise TypeError
  end.

(** The number that [math.radians] reads from its argument. *)
Definition py_float (o : pyval F) : result F :=
  match o with
  | PFloat f => Ok f
  | PInt z => float_of_int z
  | PBool b => float_of_int (Z_of_bool b)
  | _ => Raise TypeError
  end.

(** [o.replace(c, '')] *)
Definition py_remove (o : pyval F) (c : ascii) : result (pyval F) :=
  match o with
  | PStr s => Ok (PStr (str_remove c s))
  | _ => Raise AttributeError
  end.

Context {BI : Builtins F}.

(** [float(o)] *)
Definition py_to_float (o : pyval F) : result F :=
  match o with
  | PStr s => float_of_str s
  | _ => py_float o
  end.

(** [int(o)] *)
Definition py_to_int (o : pyval F) : result Z :=
  match o with
  | PStr s => int_of_str s
  | PInt z => Ok z
  | PBool b => Ok (Z_of_bool b)
  | PFloat f => int_of_float f
  | _ => Raise TypeError
  end.

End PyValues.

(** ** The geometry library (shapely)

    [Polygon(coords)], its [is_valid] and [area], [simplify(tolerance,
    preserve_topology=True)], and [geom_type] and
    [list(exterior.coords)] of the simplified geometry. *)

Class Shapely (F : Type) : Type := {
  geometry : Type;
  Polygon : list (F * F) -> result geometry;
  is_valid : geometry -> result bool;
  area : geometry -> result F;
  simplify : geometry -> F -> result geometry;
  geom_type : geometry -> string;
  exterior_coords : geometry -> result (list (F * F))
}.

(** ** Building geometry (lines 232-330) *)

(** [str(n)] for an int. *)
Definition str_of_int (n : Z) : string :=
  DecimalString.NilZero.string_of_int (Z.to_int n).

Section Buildings.
Context {F : Type} {PF : PyFloat F} {LM : Libm F} {BI : Builtins F} {SH : Shapely F}.

(** [obj_lines], [vertex_count] and [building_count] of the loop. *)
Record builder : Type := {
  obj_lines : list (obj_line F);
  vertex_count : Z;
  building_count : Z
}.

(** Lines 238-239: the two policy tables, with their defaults. *)
Definition simplification_tolerance (quality : string) : F :=
  if String.eqb quality "low" then flit 2
  else if String.eqb quality "medium" then flit 1
  else if String.eqb quality "high" then flit (3 # 10)
  else flit 1.

Definition min_area_threshold (quality : string) : F :=
  if String.eqb quality "low" then flit 25
  else if String.eqb quality "medium" then flit 10
  else if String.eqb quality "high" then flit 5
  else flit 10.

(** Line 242: the element has a true [building] tag and a [geometry]. *)
Definition is_building (element : pyval F) : result bool :=
  tags <- py_get element "tags" (PDict []) ;;
  b <- py_get tags "building" PNone ;;
  if py_truthy b then py_in "geometry" element else Ok false.

(** Line 245 *)
Definition node_coords (element : pyval F) : result (list (pyval F * pyval F)) :=
  g <- py_getitem element "geometry" ;;
  nodes <- py_iter g ;;
  mapM (fun node =>
          lon <- py_getitem node "lon" ;;
          lat <- py_getitem node "lat" ;;
          Ok (lon, lat)) nodes.

Definition tuple_eq (a b : pyval F * pyval F) : bool :=
  py_eq (fst a) (fst b) && py_eq (snd a) (snd b).

(** Lines 249-250: [if coords[0] == coords[-1]: coords = coords[:-1]] *)
Definition drop_closing (coords : list (pyval F * pyval F)) : list (pyval F * pyval F) :=
  match coords with
  | [] => coords
  | first :: _ =>
      if tuple_eq first (last coords first) then removelast coords else coords
  end.

(** Lines 242-252, the part of the loop body before the [try]:
    [None] is [continue]. *)
Definition footprint_coords (element : pyval F)
    : result (option (list (pyval F * pyval F))) :=
  b <- is_building element ;;
  if negb b then Ok None
  else
    coords <- node_coords element ;;
    if (List.length coords <? 4)%nat then Ok None
    else
      let coords := drop_closing coords in
      if (List.length coords <? 3)%nat then Ok None
      else Ok (Some coords).

(** Lines 256-259 *)
Definition project (coords : list (pyval F * pyval F)) (origin_lat origin_lon : F)
    : result (list (F * F)) :=
  mapM (fun '(lon, lat) =>
          latf <- py_float lat ;;
          lonf <- py_float lon ;;
          lat_lon_to_meters latf lonf origin_lat origin_lon) coords.

(** Lines 256-263: [None] is [continue]. *)
Definition checked_polygon (coords : list (pyval F * pyval F))
    (origin_lat origin_lon : F) (quality : string)
    : result (option (list (F * F) * geometry)) :=
  local_coords <- project coords origin_lat origin_lon ;;
  polygon <- Polygon local_coords ;;
  valid <- is_valid polygon ;;
  reject <- (if negb valid then Ok true
             else a <- area polygon ;; Ok (fltb a (min_area_threshold quality))) ;;
  if reject then Ok None else Ok (Some (local_coords, polygon)).

(** Lines 266-270 *)
Definition simplified_ring (local_coords : list (F * F)) (polygon : geometry)
    (quality : string) : result (list (F * F)) :=
  simplified <- simplify polygon (simplification_tolerance quality) ;;
  if String.eqb (geom_type simplified) "Polygon"
  then c <- exterior_coords simplified ;; Ok (removelast c)
  else Ok local_coords.

(** Lines 276-289.  An exception of the inner [try] leaves the job-wide
    height in place. *)
Definition catch (attempt : result F) (fallback : F) : F :=
  match attempt with
  | Ok h => h
  | Raise _ => fallback
  end.

Definition resolve_height (element : pyval F) (building_height : F) : result F :=
  tags <- py_get element "tags" (PDict []) ;;
  let height := building_height in
  has_height <- py_in "building:height" tags ;;
  if has_height then
    Ok (catch (v <- py_getitem tags "building:height" ;;
               v <- py_remove v "m" ;;
               v <- py_remove v " " ;;
               h <- py_to_float v ;;
               Ok (py_max h (flit 2)))
              height)
  else
    has_levels <- py_in "building:levels" tags ;;
    if has_levels then
      Ok (catch (v <- py_getitem tags "building:levels" ;;
                 levels <- py_to_int v ;;
                 lf <- float_of_int levels ;;
                 Ok (py_max (fmul lf (flit (35 # 10))) (flit 2)))
                height)
    else Ok height.

(** Lines 255-289, the body of the [try] before any line is appended:
    the simplified ring and the height, or [None] for [continue]. *)
Definition building_of (element : pyval F) (coords : list (pyval F * pyval F))
    (origin_lat origin_lon building_height : F) (quality : string)
    : result (option (list (F * F) * F)) :=
  checked <- checked_polygon coords origin_lat origin_lon quality ;;
  match checked with
  | None => Ok None
  | Some (local_coords, polygon) =>
      simplified_coords <- simplified_ring local_coords polygon quality ;;
      if (List.length simplified_coords <? 3)%nat then Ok None
      else
        height <- resolve_height element building_height ;;
        Ok (Some (simplified_coords, height))
  end.

(** Lines 295-302: one pass of the vertex loop. *)
Definition emit_vertex (height : F)
    (acc : list (obj_line F) * Z * list Z * list Z) (xy : F * F)
    : list (obj_line F) * Z * list Z * list Z :=
  let '(lines, count, base_vertices, top_vertices) := acc in
  let '(x, y) := xy in
  let lines := lines ++ [V x y (flit 0)] in
  let base_vertices := base_vertices ++ [count + 1] in
  let count := count + 1 in
  let lines := lines ++ [V x y height] in
  let top_vertices := top_vertices ++ [count + 1] in
  let count := count + 1 in
  (lines, count, base_vertices, top_vertices).

Definition plain_face (indices : list Z) : obj_line F :=
  Face (map (fun v => (v, None)) indices).

(** Lines 319-325: one wall. *)
Definition wall (n : nat) (base_vertices top_vertices : list Z) (i : nat) : obj_line F :=
  let next_i := ((i + 1) mod n)%nat in
  let v1 := nth i base_vertices 0 in
  let v2 := nth next_i base_vertices 0 in
  let v3 := nth next_i top_vertices 0 in
  let v4 := nth i top_vertices 0 in
  plain_face [v1; v2; v3; v4].

(** Lines 292-325.  Nothing here raises: the coordinates and the height
    are floats. *)
Definition emit_building (st : builder) (simplified_coords : list (F * F)) (height : F)
    : builder :=
  let '(lines, count, base_vertices, top_vertices) :=
    fold_left (emit_vertex height) simplified_coords
              (obj_lines st, vertex_count st, [], []) in
  let building_count := building_count st + 1 in
  let lines := lines ++ [Group ("building_" ++ str_of_int building_count)] in
  let lines := lines ++ [UseMtl "building_material"] in
  let n := List.length simplified_coords in
  let face_indices := map (fun i => nth i base_vertices 0) (rev (seq 0 n)) in
  let lines := lines ++ [plain_face face_indices] in
  let face_indices := map (fun i => nth i top_vertices 0) (seq 0 n) in
  let lines := lines ++ [plain_face face_indices] in
  let lines := lines ++ map (wall n base_vertices top_vertices) (seq 0 n) in
  {| obj_lines := lines; vertex_count := count; building_count := building_count |}.

(** The loop body.  The [except Exception: continue] of lines 327-328
    covers [building_of] and the emission. *)
Definition process_element (origin_lat origin_lon building_height : F) (quality : string)
    (st : builder) (element : pyval F) : result builder :=
  c <- footprint_coords element ;;
  match c with
  | None => Ok st
  | Some coords =>
      match building_of element coords origin_lat origin_lon building_height quality with
      | Ok (Some (simplified_coords, height)) =>
          Ok (emit_building st simplified_coords height)
      | Ok None => Ok st
      | Raise _ => Ok st
      end
  end.

Fixpoint process_elements (origin_lat origin_lon building_height : F) (quality : string)
    (elements : list (pyval F)) (st : builder) : result builder :=
  match elements with
  | [] => Ok st
  | element :: rest =>
      st' <- process_element origin_lat origin_lon building_height quality st element ;;
      process_elements origin_lat origin_lon building_height quality rest st'
  end.

Definition initial_builder : builder :=
  {| obj_lines := [Comment "Buildings positioned on perfect ground"];
     vertex_count := 4;
     building_count := 0 |}.

Definition create_building_geometry (elements : list (pyval F))
    (origin_lat origin_lon building_height : F) (quality : string)
    : result (list (obj_line F) * Z * Z) :=
  st <- process_elements origin_lat origin_lon building_height quality
                         elements initial_builder ;;
  Ok (obj_lines st, vertex_count st, building_count st).

(** Lines 386-406 of [export_obj]: the lines written to the OBJ file. *)
Definition mesh_document (b : @bbox F) (building_elements : list (pyval F))
    (building_height : F) (quality : string) : result (list (obj_line F)) :=
  '(origin_lat, origin_lon) <- origin_of b ;;
  let header := [
    Comment "Perfect Aligned 3D Map";
    BboxComment b;
    OriginComment origin_lat origin_lon;
    Blank;
    MtlLib "perfect_materials.mtl";
    Blank
  ] in
  '(ground_lines, ground_vertices) <- create_perfect_ground_plane b "perfect_map.png" ;;
  '(building_lines, total_vertices, building_count) <-
    create_building_geometry building_elements origin_lat origin_lon
                             building_height quality ;;
  Ok (header ++ ground_lines ++ building_lines).

End Buildings.

(** ** Images (PIL)

    An RGB image is its size and its pixels; only the pixels inside the
    size mean anything.  [Image.new] refuses a negative size, [paste]
    writes the pasted image with its upper left corner at the given
    position and leaves the rest of the canvas, [crop] refuses a box whose
    right or lower edge comes before the left or upper one and reads black
    outside the source. *)

Definition color : Type := (Z * Z * Z)%type.

Record image : Type := { dims : image_size; pixel : Z -> Z -> color }.

Module Image.

Definition new (w h : Z) (c : color) : result image :=
  if (w <? 0) || (h <? 0) then Raise ValueError
  else Ok {| dims := {| width := w; height := h |}; pixel := fun _ _ => c |}.

Definition inside (img : image) (x y : Z) : bool :=
  (0 <=? x) && (x <? width (dims img)) && (0 <=? y) && (y <? height (dims img)).

Definition paste (canvas im : image) (x y : Z) : image :=
  {| dims := dims canvas;
     pixel := fun px py =>
                if inside im (px - x) (py - y) then pixel im (px - x) (py - y)
                else pixel canvas px py |}.


End Image.

(** [range(start, stop)] *)
Definition py_range (start stop : Z) : list Z :=
  map (fun i => start + Z.of_nat i) (seq 0 (Z.to_nat (stop - start))).

(** A loop whose body can raise. *)
Fixpoint foldM {A B : Type} (f : A -> B -> result A) (l : list B) (a : A) : result A :=
  match l with
  | [] => Ok a
  | b :: rest => a' <- f a b ;; foldM f rest a'
  end.

(** ** Tile mosaic (lines 66-103) *)

Section Stitching.

(** The tile server with the decoder: [requests.get], [raise_for_status]
    and [Image.open] on the answer (lines 80-86) and the decoding that
    [paste] starts, for a URL; [Raise] stands for any exception of the [try]
    block.  A mosaic asks for every URL once. *)
Variable fetch_tile : string -> result image.

Definition tile_url (zoom : N) (tile_x tile_y : Z) : string :=
  "https://tile.openstreetmap.org/" ++ str_of_int (Z.of_N zoom) ++ "/"
  ++ str_of_int tile_x ++ "/" ++ str_of_int tile_y ++ ".png".

(** Lines 77-101, the body of the two loops: the tile, or a light gray
    square when anything fails (the message printed then is left out). *)
Definition place_tile (min_x min_y : Z) (zoom : N) (tile_size : Z)
    (stitched_image : image) (tile_x tile_y : Z) : result image :=
  match fetch_tile (tile_url zoom tile_x tile_y) with
  | Ok tile_image =>
      let pos_x := (tile_x - min_x) * tile_size in
      let pos_y := (tile_y - min_y) * tile_size in
      Ok (Image.paste stitched_image tile_image pos_x pos_y)
  | Raise _ =>
      tile_image <- Image.new tile_size tile_size (220, 220, 220) ;;
      let pos_x := (tile_x - min_x) * tile_size in
      let pos_y := (tile_y - min_y) * tile_size in
      Ok (Image.paste stitched_image tile_image pos_x pos_y)
  end.

Definition download_and_stitch_tiles (min_x min_y max_x max_y : Z) (zoom : N)
    (tile_size : Z) : result image :=
  let width := (max_x - min_x + 1) * tile_size in
  let height := (max_y - min_y + 1) * tile_size in
  stitched_image <- Image.new width height (240, 240, 240) ;;
  foldM (fun stitched_image tile_x =>
           foldM (fun stitched_image tile_y =>
                    place_tile min_x min_y zoom tile_size stitched_image tile_x tile_y)
                 (py_range min_y (max_y + 1)) stitched_image)
        (py_range min_x (max_x + 1)) stitched_image.

End Stitching.

(** ** Map texture (lines 140-175) *)

Section Texture.
Context {F : Type} {PF : PyFloat F} {LM : Libm F}.
Variable fetch_tile : string -> result image.

(** [img.resize((w, h), Image.LANCZOS)] *)
Variable resize : image -> Z -> Z -> result image.


End Texture.

(** ** Material file (lines 332-347) *)

(** The line feed. *)
Definition LF : string := String (ascii_of_nat 10) EmptyString.

Definition create_material_file (texture_filename : string) : string :=
  "# Perfect Aligned Materials" ++ LF
  ++ LF
  ++ "newmtl ground_texture" ++ LF
  ++ "Ka 1.0 1.0 1.0" ++ LF
  ++ "Kd 1.0 1.0 1.0" ++ LF
  ++ "Ks 0.0 0.0 0.0" ++ LF
  ++ "map_Kd " ++ texture_filename ++ LF
  ++ LF
  ++ "newmtl building_material" ++ LF
  ++ "Ka 0.7 0.7 0.7" ++ LF
  ++ "Kd 0.8 0.8 0.8" ++ LF
  ++ "Ks 0.2 0.2 0.2" ++ LF
  ++ "Ns 20.0" ++ LF.

(** ** The filter of the export (line 371 of [export_obj]) *)

Section Prefilter.
Context {F : Type} {PF : PyFloat F}.

(** [e.get('tags', {}).get('building')], as a truth value. *)
Definition has_building_tag (e : pyval F) : result bool :=
  tags <- py_get e "tags" (PDict []) ;;
  b <- py_get tags "building" PNone ;;
  Ok (py_truthy b).

(** [[e for e in elements if e.get('tags', {}).get('building')]] *)
Fixpoint building_elements (elements : list (pyval F)) : result (list (pyval F)) :=
  match elements with
  | [] => Ok []
  | e :: rest =>
      keep <- has_building_tag e ;;
      kept <- building_elements rest ;;
      Ok (if keep then e :: kept else kept)
  end.

End Prefilter.

(** ** Derived notions used by the statements *)



(** [outer] contains [inner], both (west, south, east, north) in exact
    arithmetic. *)
Definition contains (outer inner : @bbox R) : Prop :=
  let '(tiles_west, tiles_south, tiles_east, tiles_north) := outer in
  let '(west, south, east, north) := inner in
  (tiles_west <= west /\ tiles_south <= south /\
   east <= tiles_east /\ north <= tiles_north)%R.

(** The latitude of the upper edge of tile row 0, about 85.0511 degrees. *)
Definition mercator_limit : R := (atan (sinh PI) * (180 / PI))%R.

(** The closed forms of the tile math in exact arithmetic, at a real tile
    coordinate [t]. *)
Definition long_tile_real (lon : R) (zoom : N) : R :=
  ((lon + 180) / 360 * IZR (2 ^ Z.of_N zoom))%R.

Definition tile_long_real (t : R) (zoom : N) : R :=
  (t / IZR (2 ^ Z.of_N zoom) * 360 - 180)%R.

(** The Mercator ordinate of a latitude in radians, and the latitude in
    degrees of an ordinate. *)
Definition mercator (phi : R) : R := ln (tan phi + 1 / cos phi).

Definition gd_degrees (n : R) : R := (atan (sinh n) * (180 / PI))%R.

Definition lat_tile_real (lat : R) (zoom : N) : R :=
  ((1 - mercator (lat * (PI / 180)) / PI) / 2 * IZR (2 ^ Z.of_N zoom))%R.

Definition tile_lat_real (t : R) (zoom : N) : R :=
  gd_degrees (PI - 2 * PI * t / IZR (2 ^ Z.of_N zoom)).

(** The crop box is not empty and lies inside the image. *)
Definition crop_in_bounds (img : image_size) (box : Z * Z * Z * Z) : Prop :=
  let '(crop_left, crop_top, crop_right, crop_bottom) := box in
  0 <= crop_left < crop_right /\ crop_right <= width img /\
  0 <= crop_top < crop_bottom /\ crop_bottom <= height img.




(** The 1-based index of the [i]-th base and top vertex of a building whose
    vertices follow [count] earlier ones. *)
Definition base_index (count : Z) (i : nat) : Z := count + 2 * Z.of_nat i + 1.
Definition top_index (count : Z) (i : nat) : Z := count + 2 * Z.of_nat i + 2.

(** The buildings of a batch: the simplified ring and the height of every
    element that reaches the emission, in order.  An exception of the
    unguarded part of the loop body ends the batch. *)
Fixpoint accepted_buildings {F : Type} {PF : PyFloat F} {LM : Libm F}
    {BI : Builtins F} {SH : Shapely F}
    (origin_lat origin_lon building_height : F) (quality : string)
    (elements : list (pyval F)) : result (list (list (F * F) * F)) :=
  match elements with
  | [] => Ok []
  | element :: rest =>
      c <- footprint_coords element ;;
      bs <- accepted_buildings origin_lat origin_lon building_height quality rest ;;
      match c with
      | None => Ok bs
      | Some coords =>
          match building_of element coords origin_lat origin_lon
                            building_height quality with
          | Ok (Some b) => Ok (b :: bs)
          | Ok None => Ok bs
          | Raise _ => Ok bs
          end
      end
  end.

(** The vertex lines of one building: per ring vertex, the base vertex and
    then the top vertex. *)
Definition building_vertex_lines {F : Type} {PF : PyFloat F}
    (ring : list (F * F)) (height : F) : list (obj_line F) :=
  flat_map (fun xy => [V (fst xy) (snd xy) (flit 0); V (fst xy) (snd xy) height]) ring.

(** The faces of a building of [n] ring vertices that follows [count]
    earlier vertices: wall [i], and the bottom, the top and the walls. *)
Definition wall_indices (count : Z) (n i : nat) : list Z :=
  [base_index count i; base_index count ((i + 1) mod n);
   top_index count ((i + 1) mod n); top_index count i].

Definition building_faces (count : Z) (n : nat) : list (list Z) :=
  rev (map (base_index count) (seq 0 n))
  :: map (top_index count) (seq 0 n)
  :: map (wall_indices count n) (seq 0 n).

(** The lines [emit_building] appends for one building: its vertices, its
    group and material, its faces. *)
Definition building_lines {F : Type} {PF : PyFloat F}
    (count k : Z) (ring : list (F * F)) (height : F) : list (obj_line F) :=
  building_vertex_lines ring height
  ++ [Group ("building_" ++ str_of_int k); UseMtl "building_material"]
  ++ map (@plain_face F) (building_faces count (List.length ring)).

(** The emission of the accepted buildings, in order. *)
Definition emit_all {F : Type} {PF : PyFloat F} (st : @builder F)
    (bs : list (list (F * F) * F)) : builder :=
  fold_left (fun st b => emit_building st (fst b) (snd b)) bs st.

(** The number of ring vertices of the accepted buildings. *)
Definition ring_sizes {F : Type} (bs : list (list (F * F) * F)) : nat :=
  list_sum (map (fun b => List.length (fst b)) bs).


(** A record that carries only these tags. *)
Definition tagged {F : Type} (tags : list (string * pyval F)) : pyval F :=
  PDict [("tags"%string, PDict tags)].


(** Half the width and half the height of the ground, in metres, in exact
    arithmetic. *)
Definition half_width (west south east north : R) : R :=
  (6378137 * ((east - west) / 2 * (PI / 180)) * cos ((south + north) / 2 * (PI / 180)))%R.

Definition half_height (south north : R) : R :=
  (6378137 * ((north - south) / 2 * (PI / 180)))%R.

(** Twice the signed area of the triangle a, b, c: positive when the
    corners turn counter-clockwise seen from above. *)
Definition turn (a b c : R * R) : R :=
  ((fst b - fst a) * (snd c - snd a) - (fst c - fst a) * (snd b - snd a))%R.

(** The directed edges of a face: from each corner to the next one, and
    from the last corner back to the first. *)
Definition cyclic_edges (corners : list Z) : list (Z * Z) :=
  map (fun i => (nth i corners 0, nth ((i + 1) mod List.length corners) corners 0))
      (seq 0 (List.length corners)).

(** The corners of a face without their texture indices. *)
Definition corner_vertices (face : list (Z * option Z)) : list Z := map fst face.

(** The directed edges of all the faces. *)
Definition mesh_edges (fs : list (list (Z * option Z))) : list (Z * Z) :=
  flat_map (fun f => cyclic_edges (corner_vertices f)) fs.

(** The group names and the material names of a document, in order. *)
Definition groups {F : Type} (doc : list (obj_line F)) : list string :=
  flat_map (fun l => match l with Group name => [name] | _ => [] end) doc.

Definition materials {F : Type} (doc : list (obj_line F)) : list string :=
  flat_map (fun l => match l with UseMtl name => [name] | _ => [] end) doc.

(** The lines of a text: the pieces between its line feeds. *)
Fixpoint split_lines (s : string) : list string :=
  match s with
  | EmptyString => [EmptyString]
  | String c rest =>
      if Ascii.eqb c (ascii_of_nat 10) then EmptyString :: split_lines rest
      else match split_lines rest with
           | line :: lines => String c line :: lines
           | [] => [String c EmptyString]
           end
  end.

(** The text holds no line feed. *)
Fixpoint one_line (s : string) : bool :=
  match s with
  | EmptyString => true
  | String c rest => negb (Ascii.eqb c (ascii_of_nat 10)) && one_line rest
  end.

(** The cells of a mosaic: what is pasted for a tile (the tile, or the gray
    square when the download fails), the paste of a cell, and a pixel that
    the paste of a cell leaves alone. *)
Section MosaicCells.
Variable fetch_tile : string -> result image.
Variables (min_x min_y : Z) (zoom : N) (tile_size : Z).

Definition gray_tile : image :=
  {| dims := {| width := tile_size; height := tile_size |};
     pixel := fun _ _ => (220, 220, 220) |}.

Definition pasted (cell : Z * Z) : image :=
  match fetch_tile (tile_url zoom (fst cell) (snd cell)) with
  | Ok tile_image => tile_image
  | Raise _ => gray_tile
  end.

Definition paste_cell (img : image) (cell : Z * Z) : image :=
  Image.paste img (pasted cell)
              ((fst cell - min_x) * tile_size) ((snd cell - min_y) * tile_size).

Definition untouched (px py : Z) (cell : Z * Z) : Prop :=
  Image.inside (pasted cell)
               (px - (fst cell - min_x) * tile_size)
               (py - (snd cell - min_y) * tile_size) = false.

End MosaicCells.

(** ** Sample instances

    Concrete stand-ins for the external libraries, to run the generic code
    on data: a cosine by its Taylor polynomial (the mesh code calls no other
    C library function), decimal literals for [float(s)] and [int(s)], and
    a geometry library that accepts every ring, measures it by the shoelace
    formula and simplifies nothing. *)

Module Sample.

Local Open Scope float_scope.

(** 1 - x^2/2 + x^4/24 - x^6/720 *)
Definition taylor_cos (x : float) : float :=
  let x2 := x * x in
  1 - x2 / 2 + x2 * x2 / 24 - x2 * x2 * x2 / 720.

#[export] Instance libm : Libm float := {
  math_log := fun _ => Raise LibraryError;
  math_tan := fun _ => Raise LibraryError;
  math_cos := fun x => Ok (taylor_cos x);
  math_atan := fun _ => Raise LibraryError;
  math_sinh := fun _ => Raise LibraryError
}.

(** The value of a decimal digit. *)
Definition digit (a : ascii) : option Z :=
  let n := Z.of_N (N_of_ascii a) in
  if ((48 <=? n) && (n <=? 57))%Z then Some (n - 48)%Z else None.

(** The digits of [s] read after the value [acc]; [None] on any other
    character. *)
Fixpoint digits (s : string) (acc : Z) : option Z :=
  match s with
  | EmptyString => Some acc
  | String a rest =>
      match digit a with
      | Some d => digits rest (10 * acc + d)%Z
      | None => None
      end
  end.

(** An optional minus sign and digits. *)
Definition parse_int (s : string) : result Z :=
  match s with
  | EmptyString => Raise ValueError
  | String "-" rest =>
      match rest, digits rest 0 with
      | String _ _, Some n => Ok (- n)%Z
      | _, _ => Raise ValueError
      end
  | _ =>
      match digits s 0 with
      | Some n => Ok n
      | None => Raise ValueError
      end
  end.

(** The text before the first point, and the text after it. *)
Fixpoint split_point (s : string) : string * option string :=
  match s with
  | EmptyString => (EmptyString, None)
  | String "." rest => (EmptyString, Some rest)
  | String a rest =>
      let '(w, f) := split_point rest in (String a w, f)
  end.

(** An optional minus sign, digits and an optional point among them: the
    nearest double of the decimal number. *)
Definition parse_float (s : string) : result float :=
  let '(neg, body) := match s with
                      | String "-" rest => (true, rest)
                      | _ => (false, s)
                      end in
  let '(w, f) := split_point body in
  let f := match f with Some f => f | None => EmptyString end in
  match (w ++ f)%string, digits (w ++ f)%string 0 with
  | String _ _, Some m =>
      let q := Qmake (if neg then (- m)%Z else m)
                     (Z.to_pos (10 ^ Z.of_nat (String.length f))%Z) in
      Ok (flit q)
  | _, _ => Raise ValueError
  end.

#[export] Instance builtins : Builtins float := {
  float_of_str := parse_float;
  int_of_str := parse_int
}.

(** The sum of the cross products of consecutive vertices, closing the
    ring, and half its absolute value. *)
Fixpoint shoelace (first prev : float * float) (rest : list (float * float)) : float :=
  match rest with
  | [] => fst prev * snd first - fst first * snd prev
  | p :: rest' => fst prev * snd p - fst p * snd prev + shoelace first p rest'
  end.

Definition ring_area (ring : list (float * float)) : float :=
  match ring with
  | [] => 0
  | p :: rest => PrimFloat.abs (shoelace p p rest) / 2
  end.

#[export] Instance shapely : Shapely float := {
  geometry := list (float * float);
  Polygon := fun coords =>
    if (List.length coords <? 3)%nat then Raise ValueError else Ok coords;
  is_valid := fun _ => Ok true;
  area := fun g => Ok (ring_area g);
  simplify := fun g _ => Ok g;
  geom_type := fun _ => "Polygon"%string;
  exterior_coords := fun g => Ok (g ++ firstn 1 g)
}.

(** A footprint record. *)
Definition node (lon lat : float) : pyval float :=
  PDict [("lat"%string, PFloat lat); ("lon"%string, PFloat lon)].

Definition way (tags : list (string * pyval float)) (nodes : list (pyval float))
    : pyval float :=
  PDict [("type"%string, PStr "way");
         ("tags"%string, PDict (("building"%string, PStr "yes") :: tags));
         ("geometry"%string, PList nodes)].

(** The rectangle of the end-to-end example and a closed four-corner
    footprint inside it. *)
Definition berlin : @bbox float := (13.4050, 52.5200, 13.4060, 52.5210).

Definition square_nodes : list (pyval float) :=
  [node 13.4052 52.5202; node 13.4056 52.5202; node 13.4056 52.5206;
   node 13.4052 52.5206; node 13.4052 52.5202].

Definition square : pyval float :=
  way [("building:height"%string, PStr "9m")] square_nodes.


(** The origin of [berlin]. *)
Definition berlin_lat : float := 52.5205.
Definition berlin_lon : float := 13.4055.

(** The tiles of [berlin] at zoom 16 span these longitudes; the latitudes
    are rounded outward. *)
Definition berlin_tiles : @bbox float :=
  (13.40332031250, 52.5190, 13.40881347656250, 52.5230).

(** A closed triangle of about 600 square metres, and one of about
    0.4 square metres. *)
Definition triangle : pyval float :=
  way [] [node 13.4052 52.5202; node 13.4056 52.5202; node 13.4052 52.5206;
          node 13.4052 52.5202].

Definition tiny_triangle : pyval float :=
  way [] [node 13.4052 52.5202; node 13.40521 52.5202; node 13.4052 52.52021;
          node 13.4052 52.5202].


End Sample.

(** ** Sample tile server and resampler *)

Module SampleTiles.

(** A tile of one colour. *)
Definition sea : image :=
  {| dims := {| width := 256; height := 256 |}; pixel := fun _ _ => (170, 211, 223) |}.

(** A server that has one tile. *)
Definition server (url : string) : result image :=
  if String.eqb url "https://tile.openstreetmap.org/14/8192/8192.png"
  then Ok sea else Raise LibraryError.


End SampleTiles.

(** * Properties *)

Import Sample.


(** ** Exact arithmetic: the operators *)
Section ExactArithmetic.
Local Open Scope R_scope.

Lemma Q2R_Z (z : Z) : Q2R (z # 1) = IZR z.
Proof. unfold Q2R; simpl. field. Qed.

Lemma exact_div (a b : R) : b <> 0 -> py_div a b = Ok (a / b).
Proof.
  intros Hb. unfold py_div; simpl. unfold Exact.eqb.
  destruct (Req_dec_T b (Q2R 0)) as [E | _]; [| reflexivity].
  exfalso. apply Hb. rewrite E. unfold Q2R; simpl. lra.
Qed.

Lemma trunc_IZR (z : Z) : Exact.trunc (IZR z) = z.
Proof.
  unfold Exact.trunc. destruct (Rle_dec 0 (IZR z)).
  - symmetry. apply Int_part_spec. lra.
  - rewrite <- opp_IZR. rewrite <- (Int_part_spec (IZR (- z)) (- z)); [lia | lra].
Qed.

Lemma Int_part_bounds (r : R) : IZR (Int_part r) <= r < IZR (Int_part r) + 1.
Proof.
  destruct (base_Int_part r) as [H1 H2]. lra.
Qed.

Lemma trunc_le (r : R) : 0 <= r -> IZR (Exact.trunc r) <= r.
Proof.
  intros H. unfold Exact.trunc. destruct (Rle_dec 0 r); [| contradiction].
  apply Int_part_bounds.
Qed.

Lemma trunc_succ_gt (r : R) : r < IZR (Exact.trunc r) + 1.
Proof.
  unfold Exact.trunc. destruct (Rle_dec 0 r).
  - apply Int_part_bounds.
  - rewrite opp_IZR. pose proof (Int_part_bounds (- r)). lra.
Qed.

Lemma pow2_pos (zoom : N) : 0 < IZR (2 ^ Z.of_N zoom).
Proof. apply IZR_lt. apply Z.pow_pos_nonneg; lia. Qed.

Lemma long2tile_exact (lon : R) (zoom : N) :
  long2tile lon zoom = Ok (Exact.trunc ((lon + 180) / 360 * IZR (2 ^ Z.of_N zoom))).
Proof.
  unfold long2tile. rewrite exact_div.
  - simpl. rewrite !Q2R_Z. reflexivity.
  - simpl. rewrite Q2R_Z. lra.
Qed.

Lemma tile2long_exact (x : Z) (zoom : N) :
  tile2long x zoom = Ok (IZR x / IZR (2 ^ Z.of_N zoom) * 360 - 180).
Proof.
  unfold tile2long; simpl. unfold Exact.Zdiv.
  destruct (Z.eqb_spec (2 ^ Z.of_N zoom) 0) as [E | _].
  - pose proof (pow2_pos zoom) as H. rewrite E in H. lra.
  - simpl. rewrite !Q2R_Z. reflexivity.
Qed.
End ExactArithmetic.

(** ** Exact arithmetic: the Mercator functions *)

Section Mercator.
Local Open Scope R_scope.

Lemma tile2lat_exact (y : Z) (zoom : N) :
  tile2lat y zoom = Ok (tile_lat_real (IZR y) zoom).
Proof.
  unfold tile2lat; simpl. rewrite exact_div.
  - simpl. unfold math_degrees; simpl. rewrite !Q2R_Z. reflexivity.
  - pose proof (pow2_pos zoom). lra.
Qed.

Lemma exact_log (x : R) : 0 < x -> math_log x = Ok (ln x).
Proof.
  intros H. simpl. unfold Exact.log. destruct (Rlt_dec 0 x); [reflexivity | contradiction].
Qed.

Lemma lat2tile_exact (lat : R) (zoom : N) :
  cos (lat * (PI / 180)) <> 0 ->
  0 < tan (lat * (PI / 180)) + 1 / cos (lat * (PI / 180)) ->
  lat2tile lat zoom = Ok (Exact.trunc (lat_tile_real lat zoom)).
Proof.
  intros Hc Hu. unfold lat2tile, math_radians; simpl.
  rewrite !Q2R_Z. rewrite exact_div by exact Hc. simpl.
  change (Exact.log ?x) with (math_log x).
  rewrite exact_log by exact Hu. simpl.
  rewrite exact_div by apply PI_neq0. simpl.
  rewrite exact_div by lra. simpl.
  reflexivity.
Qed.







End Mercator.

Section InverseMercator.
Local Open Scope R_scope.

Lemma radians_in_range (lat : R) :
  -90 < lat < 90 -> - (PI / 2) < lat * (PI / 180) < PI / 2.
Proof. intros H. pose proof PI_RGT_0. split; nra. Qed.

Lemma sin_gt_minus_1 (phi : R) : 0 < cos phi -> -1 < sin phi.
Proof.
  intros Hc. pose proof (sin2_cos2 phi) as H. unfold Rsqr in H.
  destruct (Rlt_dec (-1) (sin phi)); [assumption | nra].
Qed.

Lemma sec_plus_tan_pos (phi : R) :
  - (PI / 2) < phi < PI / 2 -> 0 < tan phi + 1 / cos phi.
Proof.
  intros [H1 H2]. assert (Hc : 0 < cos phi) by (apply cos_gt_0; lra).
  pose proof (@sin_gt_minus_1 phi Hc) as Hs.
  unfold tan. replace (sin phi / cos phi + 1 / cos phi) with ((sin phi + 1) / cos phi) by (field; lra).
  apply Rdiv_lt_0_compat; lra.
Qed.

Lemma sinh_ln (u : R) : 0 < u -> sinh (ln u) = (u - 1 / u) / 2.
Proof.
  intros H. unfold sinh. rewrite exp_Ropp, exp_ln by assumption. field. lra.
Qed.

Lemma sinh_mercator (phi : R) :
  - (PI / 2) < phi < PI / 2 -> sinh (mercator phi) = tan phi.
Proof.
  intros H. unfold mercator. rewrite sinh_ln by (apply sec_plus_tan_pos; exact H).
  assert (Hc : 0 < cos phi) by (apply cos_gt_0; lra).
  pose proof (@sin_gt_minus_1 phi Hc) as Hs.
  pose proof (sin2_cos2 phi) as E. unfold Rsqr in E.
  unfold tan. field_simplify_eq; [| split; [lra | nra]].
  nra.
Qed.

Lemma tile_lat_of_lat_tile (lat : R) (zoom : N) :
  -90 < lat < 90 -> tile_lat_real (lat_tile_real lat zoom) zoom = lat.
Proof.
  intros H. pose proof (@radians_in_range lat H) as Hr.
  unfold tile_lat_real, lat_tile_real, gd_degrees.
  replace (PI - 2 * PI * ((1 - mercator (lat * (PI / 180)) / PI) / 2 * IZR (2 ^ Z.of_N zoom)) / IZR (2 ^ Z.of_N zoom))
    with (mercator (lat * (PI / 180)))
    by (pose proof (pow2_pos zoom); pose proof PI_neq0; field; split; lra).
  rewrite sinh_mercator by exact Hr.
  rewrite atan_tan by exact Hr.
  field. apply PI_neq0.
Qed.
End InverseMercator.

(** ** Mosaic coverage *)

Section MosaicCoverage.
Local Open Scope R_scope.

Lemma gd_degrees_monotone (a b : R) : a <= b -> gd_degrees a <= gd_degrees b.
Proof.
  intros [H | ->]; [| lra].
  unfold gd_degrees. apply Rmult_le_compat_r.
  - pose proof PI_RGT_0. apply Rlt_le. apply Rdiv_lt_0_compat; lra.
  - apply Rlt_le. apply atan_increasing. apply sinh_lt. exact H.
Qed.

Lemma tile_lat_decreasing (t1 t2 : R) (zoom : N) :
  t1 <= t2 -> tile_lat_real t2 zoom <= tile_lat_real t1 zoom.
Proof.
  intros H. unfold tile_lat_real. apply gd_degrees_monotone.
  pose proof (pow2_pos zoom) as Hp. pose proof PI_RGT_0 as Hpi.
  assert (2 * PI * t1 / IZR (2 ^ Z.of_N zoom) <= 2 * PI * t2 / IZR (2 ^ Z.of_N zoom)).
  { unfold Rdiv. apply Rmult_le_compat_r; [apply Rlt_le, Rinv_0_lt_compat; lra | nra]. }
  lra.
Qed.

Lemma tile_long_increasing (t1 t2 : R) (zoom : N) :
  t1 <= t2 -> tile_long_real t1 zoom <= tile_long_real t2 zoom.
Proof.
  intros H. unfold tile_long_real. pose proof (pow2_pos zoom) as Hp.
  assert (t1 / IZR (2 ^ Z.of_N zoom) <= t2 / IZR (2 ^ Z.of_N zoom)).
  { unfold Rdiv. apply Rmult_le_compat_r; [apply Rlt_le, Rinv_0_lt_compat; lra | lra]. }
  lra.
Qed.

Lemma tile_long_of_long_tile (lon : R) (zoom : N) :
  tile_long_real (long_tile_real lon zoom) zoom = lon.
Proof.
  unfold tile_long_real, long_tile_real. pose proof (pow2_pos zoom). field. lra.
Qed.

Lemma mercator_limit_lt_90 : mercator_limit < 90.
Proof.
  unfold mercator_limit. pose proof (atan_bound (sinh PI)) as [_ H].
  pose proof PI_RGT_0 as Hpi.
  replace 90 with (PI / 2 * (180 / PI)) by (field; lra).
  apply Rmult_lt_compat_r; [apply Rdiv_lt_0_compat; lra | exact H].
Qed.

Lemma tan_monotone (a b : R) :
  - (PI / 2) < a -> a <= b -> b < PI / 2 -> tan a <= tan b.
Proof.
  intros Ha [H | ->] Hb; [| lra].
  apply Rlt_le. apply tan_increasing; lra.
Qed.

Lemma mercator_le_PI (lat : R) :
  -90 < lat -> lat <= mercator_limit -> mercator (lat * (PI / 180)) <= PI.
Proof.
  intros H1 H2. pose proof mercator_limit_lt_90 as H3.
  assert (Hr : - (PI / 2) < lat * (PI / 180) < PI / 2) by (apply radians_in_range; lra).
  destruct (Rle_dec (mercator (lat * (PI / 180))) PI) as [| Hn]; [assumption | exfalso].
  apply Rnot_le_lt in Hn. apply sinh_lt in Hn.
  rewrite sinh_mercator in Hn by exact Hr.
  pose proof (atan_bound (sinh PI)) as Hb.
  assert (Hle : lat * (PI / 180) <= atan (sinh PI)).
  { unfold mercator_limit in H2. pose proof PI_RGT_0 as Hpi.
    replace (atan (sinh PI)) with (atan (sinh PI) * (180 / PI) * (PI / 180)) by (field; lra).
    apply Rmult_le_compat_r; [apply Rlt_le, Rdiv_lt_0_compat; lra | exact H2]. }
  pose proof (@tan_monotone (lat * (PI / 180)) (atan (sinh PI))) as Hm.
  rewrite tan_atan in Hm. lra.
Qed.

Lemma lat_tile_nonneg (lat : R) (zoom : N) :
  -90 < lat -> lat <= mercator_limit -> 0 <= lat_tile_real lat zoom.
Proof.
  intros H1 H2. pose proof (mercator_le_PI H1 H2) as Hm.
  unfold lat_tile_real. pose proof (pow2_pos zoom) as Hp. pose proof PI_RGT_0 as Hpi.
  apply Rmult_le_pos; [| lra].
  assert (mercator (lat * (PI / 180)) / PI <= 1).
  { apply Rmult_le_reg_r with PI; [lra |]. unfold Rdiv. rewrite Rmult_assoc, Rinv_l by lra. lra. }
  lra.
Qed.

Lemma lat2tile_in_range (lat : R) (zoom : N) :
  -90 < lat < 90 -> lat2tile lat zoom = Ok (Exact.trunc (lat_tile_real lat zoom)).
Proof.
  intros H. pose proof (@radians_in_range lat H) as Hr.
  apply lat2tile_exact.
  - apply Rgt_not_eq. apply cos_gt_0; lra.
  - apply sec_plus_tan_pos. exact Hr.
Qed.

Lemma tiles_bbox_exact (west south east north : R) (zoom : N) :
  -90 < south < 90 -> -90 < north < 90 ->
  tiles_bbox_of (west, south, east, north) zoom =
  Ok (tile_long_real (IZR (Exact.trunc (long_tile_real west zoom))) zoom,
      tile_lat_real (IZR (Exact.trunc (lat_tile_real south zoom) + 1)) zoom,
      tile_long_real (IZR (Exact.trunc (long_tile_real east zoom) + 1)) zoom,
      tile_lat_real (IZR (Exact.trunc (lat_tile_real north zoom))) zoom).
Proof.
  intros Hs Hn. unfold tiles_bbox_of, get_tiles_for_bbox.
  rewrite !long2tile_exact. cbn [bind].
  rewrite (lat2tile_in_range zoom Hn), (lat2tile_in_range zoom Hs). cbn [bind].
  rewrite !tile2long_exact. cbn [bind].
  rewrite !tile2lat_exact. cbn [bind].
  reflexivity.
Qed.

(** C2 (amended).  Mosaic coverage, in exact arithmetic: for a rectangle
    with west >= -180, south > -90, south < north and north at most the
    Mercator limit (about 85.0511 degrees), at any zoom, the bounding box of
    the covering tile grid is computed and contains the rectangle: tiles_west
    <= west, tiles_south <= south, east <= tiles_east, north <= tiles_north. *)
Theorem mosaic_coverage (west south east north : R) (zoom : N) :
  -180 <= west -> -90 < south -> south < north -> north <= mercator_limit ->
  exists tiles,
    tiles_bbox_of (west, south, east, north) zoom = Ok tiles /\
    contains tiles (west, south, east, north).
Proof.
  intros Hw Hs Hsn Hn. pose proof mercator_limit_lt_90 as Hlim.
  eexists. split; [apply tiles_bbox_exact; lra |].
  unfold contains. repeat split.
  - rewrite <- (tile_long_of_long_tile west zoom) at 2.
    apply tile_long_increasing. apply trunc_le.
    unfold long_tile_real. pose proof (pow2_pos zoom).
    apply Rmult_le_pos; lra.
  - rewrite <- (@tile_lat_of_lat_tile south zoom) at 2 by lra.
    apply tile_lat_decreasing. rewrite plus_IZR.
    apply Rlt_le, trunc_succ_gt.
  - rewrite <- (tile_long_of_long_tile east zoom) at 1.
    apply tile_long_increasing. rewrite plus_IZR.
    apply Rlt_le, trunc_succ_gt.
  - rewrite <- (@tile_lat_of_lat_tile north zoom) at 1 by lra.
    apply tile_lat_decreasing. apply trunc_le.
    apply lat_tile_nonneg; lra.
Qed.

Lemma trunc_negative (r : R) (z : Z) :
  (z <= 0)%Z -> IZR z - 1 < r <= IZR z -> Exact.trunc r = z.
Proof.
  intros Hz [H1 H2]. unfold Exact.trunc.
  assert (IZR z <= 0) by (apply IZR_le; exact Hz).
  destruct (Rle_dec 0 r).
  - assert (r = IZR z) by lra. subst r.
    symmetry. apply Int_part_spec. lra.
  - rewrite <- (Int_part_spec (- r) (- z)%Z); [lia |].
    rewrite opp_IZR. lra.
Qed.

(** C2 as stated fails west of -180 degrees: [int()] truncates toward zero,
    so tile column -455 of zoom 14 starts east of longitude -190. *)
Lemma coverage_fails_beyond_antimeridian :
  -190 < -189 /\ 0 < 1 /\
  exists tiles,
    tiles_bbox_of (-190, 0, -189, 1) 14 = Ok tiles /\
    ~ contains tiles (-190, 0, -189, 1).
Proof.
  split; [lra |]. split; [lra |].
  eexists. split; [apply tiles_bbox_exact; lra |].
  unfold contains. intros [H _]. revert H.
  assert (E : Exact.trunc (long_tile_real (-190) 14) = (-455)%Z).
  { apply trunc_negative; [lia |]. unfold long_tile_real.
    replace (2 ^ Z.of_N 14)%Z with 16384%Z by reflexivity. lra. }
  rewrite E. unfold tile_long_real.
  replace (2 ^ Z.of_N 14)%Z with 16384%Z by reflexivity. lra.
Qed.
Lemma mosaic_coverage_witness :
  exists tiles,
    tiles_bbox_of (-1, -1, 0, 0) 14 = Ok tiles /\
    contains tiles (-1, -1, 0, 0).
Proof.
  apply (@mosaic_coverage (-1) (-1) 0 0 14); try lra.
  unfold mercator_limit.
  apply Rmult_le_pos.
  - rewrite <- atan_0. left. apply atan_increasing.
    rewrite <- sinh_0. apply sinh_lt. apply PI_RGT_0.
  - pose proof PI_RGT_0. left. apply Rdiv_lt_0_compat; lra.
Defined.

End MosaicCoverage.

(** ** Binary64: the two paths of the conversions agree *)

Lemma small_conversions_agree :
  forallb (fun z => B64.same_double (B64.exact_of_Z z) (SF2Prim (B64.round_Z z)))
          [0; 1; -1; 2; 180; 360; 8800; -455; 65536; 6378137;
           2 ^ 49; 2 ^ 53 - 1; - (2 ^ 53 - 1)] = true.
Proof. vm_compute. reflexivity. Qed.

Lemma small_quotients_agree :
  forallb (fun ab =>
             B64.same_double
               (PrimFloat.div (B64.exact_of_Z (fst ab)) (B64.exact_of_Z (snd ab)))
               (SF2Prim (B64.round_quotient (fst ab) (snd ab))))
          [(1, 3); (1, 10); (-1, 10); (3, 10); (35, 10); (5, 1000); (0, -5);
           (8800, 16384); (-455, 16384); (1, 2 ^ 49); (2 ^ 53 - 1, 3);
           (7, 2 ^ 53 - 1)] = true.
Proof. vm_compute. reflexivity. Qed.

(** ** Binary64: the west edge of the tile grid *)

(** The counterexample to the coverage holds in binary64 as it does in exact
    arithmetic: the tile of longitude -190 at zoom 14 is -455, and it starts
    at -189.99755859375. *)
Lemma tiles_west_beyond_antimeridian :
  long2tile (F := float) (-190)%float 14 = Ok (-455) /\
  tile2long (F := float) (-455) 14 = Ok (-189.99755859375)%float.
Proof. split; vm_compute; reflexivity. Qed.

(** In binary64 the inequalities of the coverage hold up to rounding only: a
    longitude just below 0 is rounded into the tile that starts at 0. *)
Lemma tiles_west_rounded :
  long2tile (F := float) (-1e-20)%float 14 = Ok 8192 /\
  tile2long (F := float) 8192 14 = Ok 0%float /\
  fltb (-1e-20)%float 0%float = true.
Proof. repeat split; vm_compute; reflexivity. Qed.

(** ** Binary64: the longitude round trip *)





(** The zoom of the pipeline is 14, 15 or 16. *)
Lemma choose_zoom_range (F : Type) (PF : PyFloat F) (b : @bbox F) :
  (14 <= choose_zoom b <= 16)%N.
Proof.
  destruct b as [[[west south] east] north]. unfold choose_zoom.
  destruct (fgtb _ (flit (1 # 100))); [lia |].
  destruct (fgtb _ (flit (5 # 1000))); lia.
Qed.




(** ** The monad *)

Lemma bind_Ok (A B : Type) (m : result A) (k : A -> result B) (b : B) :
  bind m k = Ok b -> exists a, m = Ok a /\ k a = Ok b.
Proof.
  destruct m as [a | e]; simpl; intros H; [exists a; auto | discriminate].
Qed.

(** Splits a hypothesis [x <- m ;; k = Ok b] into [m = Ok x] and [k x = Ok b]. *)
Ltac bind_inv H :=
  let a := fresh "a" in
  let E := fresh "E" in
  apply bind_Ok in H; destruct H as [a [E H]].

(** ** Crop bounds *)

Lemma clamp_in_bounds (w h l t r b : Z) :
  0 < w -> 0 < h ->
  let crop_left := Z.max 0 (Z.min l (w - 1)) in
  let crop_right := Z.max (crop_left + 1) (Z.min r w) in
  let crop_top := Z.max 0 (Z.min t (h - 1)) in
  let crop_bottom := Z.max (crop_top + 1) (Z.min b h) in
  0 <= crop_left < crop_right /\ crop_right <= w /\
  0 <= crop_top < crop_bottom /\ crop_bottom <= h.
Proof. intros Hw Hh. cbv zeta. lia. Qed.

Lemma crop_result_in_bounds (F : Type) (PF : PyFloat F)
    (img : image_size) (user tiles : @bbox F) (box : Z * Z * Z * Z) :
  0 < width img -> 0 < height img ->
  crop_image_to_exact_bbox img user tiles = Ok box ->
  crop_in_bounds img box.
Proof.
  intros Hw Hh H.
  destruct user as [[[uw us] ue] un], tiles as [[[tw ts] te] tn].
  unfold crop_image_to_exact_bbox in H.
  do 8 bind_inv H. injection H as <-.
  unfold crop_in_bounds. apply clamp_in_bounds; assumption.
Qed.

Lemma exact_scale (ratio : R) (n : Z) :
  scale_to_pixels ratio n = Ok (Exact.trunc (ratio * IZR n)).
Proof. reflexivity. Qed.

Lemma crop_exact_returns (img : image_size) (user tiles : @bbox R) :
  let '(tiles_west, tiles_south, tiles_east, tiles_north) := tiles in
  (tiles_west < tiles_east)%R -> (tiles_south < tiles_north)%R ->
  exists box, crop_image_to_exact_bbox img user tiles = Ok box.
Proof.
  destruct user as [[[uw us] ue] un], tiles as [[[tw ts] te] tn].
  intros Hx Hy. unfold crop_image_to_exact_bbox.
  repeat (first [rewrite exact_div by (simpl; lra) | rewrite exact_scale]; cbn [bind]).
  eexists. reflexivity.
Qed.

(** C3.  Crop bounds: for an image of positive width and height, the crop
    box satisfies 0 <= crop_left < crop_right <= width and 0 <= crop_top <
    crop_bottom <= height.  In exact arithmetic the box is computed for
    every user rectangle and every tile rectangle with tiles_west <
    tiles_east and tiles_south < tiles_north; in binary64 every box the
    function returns satisfies the bounds. *)
Theorem crop_bounds (img : image_size) :
  0 < width img -> 0 < height img ->
  (forall (user : @bbox R) (tiles_west tiles_south tiles_east tiles_north : R),
      (tiles_west < tiles_east)%R -> (tiles_south < tiles_north)%R ->
      exists box,
        crop_image_to_exact_bbox img user
          (tiles_west, tiles_south, tiles_east, tiles_north) = Ok box /\
        crop_in_bounds img box) /\
  (forall (user tiles : @bbox float) (box : Z * Z * Z * Z),
      crop_image_to_exact_bbox img user tiles = Ok box ->
      crop_in_bounds img box).
Proof.
  intros Hw Hh. split.
  - intros user tw ts te tn Hx Hy.
    destruct (crop_exact_returns img user (tw, ts, te, tn) Hx Hy) as [box E].
    exists box. split; [exact E |].
    exact (@crop_result_in_bounds R exact img user (tw, ts, te, tn) box Hw Hh E).
  - intros user tiles box E.
    exact (@crop_result_in_bounds float binary64 img user tiles box Hw Hh E).
Qed.

Lemma crop_bounds_witness :
  (exists box,
      crop_image_to_exact_bbox {| width := 512; height := 256 |}
        (-1, -1, 0, 0)%R (-2, -3, 1, 2)%R = Ok box /\
      crop_in_bounds {| width := 512; height := 256 |} box) /\
  crop_in_bounds {| width := 512; height := 256 |} (156, 128, 249, 191).
Proof.
  destruct (@crop_bounds {| width := 512; height := 256 |}) as [He Hb];
    [reflexivity | reflexivity |].
  split.
  - apply He; lra.
  - apply (Hb berlin berlin_tiles). vm_compute. reflexivity.
Defined.

(** ** Ground plane *)

Section GroundPlane.
Context {F : Type} {PF : PyFloat F} {LM : Libm F}.

Lemma ground_plane_lines (west south east north : F) (path : string)
    (lines : list (obj_line F)) (n : Z) :
  create_perfect_ground_plane (west, south, east, north) path = Ok (lines, n) ->
  exists origin_lat origin_lon sw se ne nw,
    origin_of (west, south, east, north) = Ok (origin_lat, origin_lon) /\
    lat_lon_to_meters south west origin_lat origin_lon = Ok sw /\
    lat_lon_to_meters south east origin_lat origin_lon = Ok se /\
    lat_lon_to_meters north east origin_lat origin_lon = Ok ne /\
    lat_lon_to_meters north west origin_lat origin_lon = Ok nw /\
    vertices lines =
      [(fst sw, snd sw, flit (-1 # 10)); (fst se, snd se, flit (-1 # 10));
       (fst ne, snd ne, flit (-1 # 10)); (fst nw, snd nw, flit (-1 # 10))] /\
    uvs lines =
      [(flit 0, flit 0); (flit 1, flit 0); (flit 1, flit 1); (flit 0, flit 1)] /\
    faces lines =
      [[(1, Some 1); (2, Some 2); (3, Some 3)];
       [(1, Some 1); (3, Some 3); (4, Some 4)]] /\
    n = 4.
Proof.
  intros H. unfold create_perfect_ground_plane in H.
  bind_inv H. destruct a as [origin_lat origin_lon].
  bind_inv H. destruct a as [sw_x sw_y].
  bind_inv H. destruct a as [se_x se_y].
  bind_inv H. destruct a as [nw_x nw_y].
  bind_inv H. destruct a as [ne_x ne_y].
  injection H as <- <-.
  exists origin_lat, origin_lon, (sw_x, sw_y), (se_x, se_y), (ne_x, ne_y), (nw_x, nw_y).
  repeat split; assumption || reflexivity.
Qed.

Lemma ground_plane_shape (b : @bbox F) (path : string)
    (lines : list (obj_line F)) (n : Z) :
  create_perfect_ground_plane b path = Ok (lines, n) ->
  n = 4 /\ vertex_lines lines = 4 /\ uv_lines lines = 4 /\
  List.length (faces lines) = 2%nat /\ indices_valid lines.
Proof.
  destruct b as [[[west south] east] north]. intros H.
  unfold create_perfect_ground_plane in H.
  do 5 (bind_inv H; destruct a).
  injection H as <- <-.
  unfold indices_valid, face_in_range. simpl.
  repeat split; try reflexivity; repeat constructor; simpl; lia.
Qed.

End GroundPlane.

Lemma exact_origin (b : @bbox R) :
  exists origin_lat origin_lon, origin_of b = Ok (origin_lat, origin_lon).
Proof.
  destruct b as [[[west south] east] north]. unfold origin_of.
  assert (H2 : flit (F := R) 2 <> 0%R) by (simpl; rewrite Q2R_Z; lra).
  rewrite !exact_div by exact H2. simpl. eauto.
Qed.

Lemma exact_ground_plane (b : @bbox R) (path : string) :
  exists lines, create_perfect_ground_plane b path = Ok (lines, 4).
Proof.
  destruct (exact_origin b) as (olat & olon & E).
  destruct b as [[[west south] east] north].
  unfold create_perfect_ground_plane. rewrite E. simpl.
  eexists. reflexivity.
Qed.

(** C4.  Alignment: the ground plane is computed for every rectangle (in
    exact arithmetic), and whenever it is computed it has exactly four
    vertices, the corners SW, SE, NE, NW projected from the shared origin,
    at z = -0.1, the texture coordinates (0,0), (1,0), (1,1), (0,1) in the
    same order, and the two faces 1/1 2/2 3/3 and 1/1 3/3 4/4. *)
Theorem ground_plane_alignment :
  (forall (b : @bbox R) (path : string),
      exists lines, create_perfect_ground_plane b path = Ok (lines, 4)) /\
  (forall (F : Type) (PF : PyFloat F) (LM : Libm F)
          (west south east north : F) (path : string)
          (lines : list (obj_line F)) (n : Z),
      create_perfect_ground_plane (west, south, east, north) path = Ok (lines, n) ->
      exists origin_lat origin_lon sw se ne nw,
        origin_of (west, south, east, north) = Ok (origin_lat, origin_lon) /\
        lat_lon_to_meters south west origin_lat origin_lon = Ok sw /\
        lat_lon_to_meters south east origin_lat origin_lon = Ok se /\
        lat_lon_to_meters north east origin_lat origin_lon = Ok ne /\
        lat_lon_to_meters north west origin_lat origin_lon = Ok nw /\
        vertices lines =
          [(fst sw, snd sw, flit (-1 # 10)); (fst se, snd se, flit (-1 # 10));
           (fst ne, snd ne, flit (-1 # 10)); (fst nw, snd nw, flit (-1 # 10))] /\
        uvs lines =
          [(flit 0, flit 0); (flit 1, flit 0); (flit 1, flit 1); (flit 0, flit 1)] /\
        faces lines =
          [[(1, Some 1); (2, Some 2); (3, Some 3)];
           [(1, Some 1); (3, Some 3); (4, Some 4)]] /\
        n = 4).
Proof.
  split.
  - apply exact_ground_plane.
  - intros F PF LM west south east north path lines n H.
    eapply ground_plane_lines; exact H.
Qed.

Lemma ground_plane_alignment_witness :
  exists lines,
    create_perfect_ground_plane Sample.berlin "perfect_map.png" = Ok (lines, 4) /\
    faces lines =
      [[(1, Some 1); (2, Some 2); (3, Some 3)];
       [(1, Some 1); (3, Some 3); (4, Some 4)]] /\
    List.length (vertices lines) = 4%nat /\ List.length (uvs lines) = 4%nat.
Proof.
  assert (E : exists lines,
             create_perfect_ground_plane Sample.berlin "perfect_map.png" = Ok (lines, 4))
    by (eexists; vm_compute; reflexivity).
  destruct E as [lines E]. exists lines. split; [exact E |].
  destruct (proj2 ground_plane_alignment _ _ _ _ _ _ _ _ _ _ E)
    as (olat & olon & sw & se & ne & nw & _ & _ & _ & _ & _ & Hv & Hu & Hf & _).
  rewrite Hv, Hu, Hf. repeat split; reflexivity.
Defined.


(** ** Lines of a document *)

Section Lines.
Context {F : Type}.

Lemma vertices_app (l1 l2 : list (obj_line F)) :
  vertices (l1 ++ l2) = vertices l1 ++ vertices l2.
Proof. apply flat_map_app. Qed.


Lemma faces_app (l1 l2 : list (obj_line F)) : faces (l1 ++ l2) = faces l1 ++ faces l2.
Proof. apply flat_map_app. Qed.

Lemma vertex_lines_app (l1 l2 : list (obj_line F)) :
  vertex_lines (l1 ++ l2) = vertex_lines l1 + vertex_lines l2.
Proof. unfold vertex_lines. rewrite vertices_app, length_app. lia. Qed.




End Lines.

(** ** Extrusion *)

Section Extrusion.
Context {F : Type} {PF : PyFloat F}.

Lemma base_index_shift (count : Z) (i : nat) :
  base_index (count + 2) i = base_index count (S i).
Proof. unfold base_index. lia. Qed.

Lemma top_index_shift (count : Z) (i : nat) :
  top_index (count + 2) i = top_index count (S i).
Proof. unfold top_index. lia. Qed.

Lemma emit_vertices_fold (height : F) (ring : list (F * F)) :
  forall lines count base top,
    fold_left (emit_vertex height) ring (lines, count, base, top) =
    (lines ++ building_vertex_lines ring height,
     count + 2 * Z.of_nat (List.length ring),
     base ++ map (base_index count) (seq 0 (List.length ring)),
     top ++ map (top_index count) (seq 0 (List.length ring))).
Proof.
  induction ring as [| [x y] ring IH]; intros lines count base top.
  - simpl. rewrite !app_nil_r, Z.add_0_r. reflexivity.
  - cbn [fold_left emit_vertex]. rewrite IH.
    cbn [List.length seq map building_vertex_lines flat_map fst snd].
    rewrite <- seq_shift, !map_map.
    replace (count + 1 + 1) with (count + 2) by lia.
    rewrite (map_ext _ _ (base_index_shift count)).
    rewrite (map_ext _ _ (top_index_shift count)).
    rewrite <- !app_assoc. cbn [app].
    unfold building_vertex_lines.
    replace (count + 2 + 2 * Z.of_nat (List.length ring))
      with (count + 2 * Z.of_nat (S (List.length ring))) by lia.
    replace (base_index count 0) with (count + 1) by (unfold base_index; lia).
    replace (top_index count 0) with (count + 2) by (unfold top_index; lia).
    reflexivity.
Qed.

Lemma nth_map_seq (f : nat -> Z) (n i : nat) :
  (i < n)%nat -> nth i (map f (seq 0 n)) 0 = f i.
Proof.
  intros H. rewrite (nth_indep _ 0 (f 0%nat)) by (rewrite length_map, length_seq; exact H).
  rewrite map_nth, seq_nth by exact H. reflexivity.
Qed.

Lemma read_back (f : nat -> Z) (n : nat) (l : list nat) :
  Forall (fun i => (i < n)%nat) l ->
  map (fun i => nth i (map f (seq 0 n)) 0) l = map f l.
Proof.
  intros H. apply map_ext_in. intros i Hi.
  rewrite Forall_forall in H. apply nth_map_seq. apply H. exact Hi.
Qed.

Lemma seq_below (n : nat) : Forall (fun i => (i < n)%nat) (seq 0 n).
Proof. apply Forall_forall. intros i Hi. apply in_seq in Hi. lia. Qed.

Lemma wall_eq (count : Z) (n i : nat) :
  (i < n)%nat ->
  wall (F := F) n (map (base_index count) (seq 0 n)) (map (top_index count) (seq 0 n)) i =
  plain_face (wall_indices count n i).
Proof.
  intros H. unfold wall, wall_indices.
  assert (Hm : ((i + 1) mod n < n)%nat) by (apply Nat.mod_upper_bound; lia).
  rewrite !nth_map_seq by assumption. reflexivity.
Qed.

Lemma emit_building_lines (st : builder) (ring : list (F * F)) (height : F) :
  emit_building st ring height =
  {| obj_lines := obj_lines st
                  ++ building_lines (vertex_count st) (building_count st + 1) ring height;
     vertex_count := vertex_count st + 2 * Z.of_nat (List.length ring);
     building_count := building_count st + 1 |}.
Proof.
  unfold emit_building. rewrite emit_vertices_fold. cbn [app].
  f_equal. unfold building_lines, building_faces.
  rewrite <- !app_assoc. cbn [app map].
  rewrite !read_back by (try apply Forall_rev; apply seq_below).
  rewrite map_rev, map_map.
  rewrite (map_ext_in _ (fun i => plain_face (wall_indices (vertex_count st) (List.length ring) i))).
  - reflexivity.
  - intros i Hi. apply in_seq in Hi. apply wall_eq. lia.
Qed.

Lemma plain_faces_vertices (fs : list (list Z)) :
  vertices (map (@plain_face F) fs) = [].
Proof. induction fs; simpl; auto. Qed.


Lemma plain_faces_faces (fs : list (list Z)) :
  faces (map (@plain_face F) fs) = map (map (fun v => (v, None))) fs.
Proof. induction fs as [| f fs IH]; simpl; [reflexivity | f_equal; exact IH]. Qed.

Lemma vertex_lines_vertices (ring : list (F * F)) (height : F) :
  vertices (building_vertex_lines ring height) =
  flat_map (fun xy => [(fst xy, snd xy, flit 0); (fst xy, snd xy, height)]) ring.
Proof.
  unfold building_vertex_lines.
  induction ring as [| p ring IH]; simpl; [reflexivity | do 2 f_equal; exact IH].
Qed.


Lemma vertex_lines_faces (ring : list (F * F)) (height : F) :
  faces (building_vertex_lines ring height) = [].
Proof. unfold building_vertex_lines. induction ring; simpl; auto. Qed.

Lemma building_lines_vertices (count k : Z) (ring : list (F * F)) (height : F) :
  vertices (building_lines count k ring height) =
  flat_map (fun xy => [(fst xy, snd xy, flit 0); (fst xy, snd xy, height)]) ring.
Proof.
  unfold building_lines.
  rewrite !vertices_app, plain_faces_vertices, vertex_lines_vertices.
  simpl. apply app_nil_r.
Qed.


Lemma building_lines_faces (count k : Z) (ring : list (F * F)) (height : F) :
  faces (building_lines count k ring height) =
  map (map (fun v => (v, None))) (building_faces count (List.length ring)).
Proof.
  unfold building_lines. rewrite !faces_app, plain_faces_faces, vertex_lines_faces.
  reflexivity.
Qed.

Lemma building_lines_vertex_count (count k : Z) (ring : list (F * F)) (height : F) :
  vertex_lines (building_lines count k ring height) = 2 * Z.of_nat (List.length ring).
Proof.
  unfold vertex_lines. rewrite building_lines_vertices.
  induction ring as [| p ring IH]; simpl List.length; [reflexivity |].
  cbn [flat_map app List.length]. lia.
Qed.

Lemma building_faces_length (count : Z) (n : nat) :
  List.length (building_faces count n) = (2 + n)%nat.
Proof. unfold building_faces. simpl. rewrite length_map, length_seq. reflexivity. Qed.

End Extrusion.




(** ** Index validity *)

Section Indices.
Context {F : Type} {PF : PyFloat F}.







Lemma emit_all_counts (bs : list (list (F * F) * F)) :
  forall st,
    vertex_count (emit_all st bs) = vertex_count st + 2 * Z.of_nat (ring_sizes bs) /\
    building_count (emit_all st bs) = building_count st + Z.of_nat (List.length bs).
Proof.
  induction bs as [| b bs IH]; intros st.
  - unfold ring_sizes. simpl. lia.
  - unfold emit_all. cbn [fold_left]. fold (emit_all (emit_building st (fst b) (snd b)) bs).
    destruct (IH (emit_building st (fst b) (snd b))) as [H1 H2].
    rewrite H1, H2, emit_building_lines. unfold ring_sizes.
    cbn [vertex_count building_count map List.length].
    unfold list_sum. cbn [fold_right]. lia.
Qed.


End Indices.

(** ** The loop and the list of accepted buildings *)

Section Batch.
Context {F : Type} {PF : PyFloat F} {LM : Libm F} {BI : Builtins F} {SH : Shapely F}.

Lemma process_elements_accepted (olat olon bh : F) (q : string)
    (elements : list (pyval F)) :
  forall st,
    process_elements olat olon bh q elements st =
    (bs <- accepted_buildings olat olon bh q elements ;; Ok (emit_all st bs)).
Proof.
  induction elements as [| e rest IH]; intros st; [reflexivity |].
  cbn [process_elements accepted_buildings]. unfold process_element.
  destruct (footprint_coords e) as [[coords |] | ex]; cbn [bind].
  - destruct (building_of e coords olat olon bh q) as [[[ring h] |] | ex]; cbn [bind];
      rewrite IH; destruct (accepted_buildings olat olon bh q rest); reflexivity.
  - rewrite IH. destruct (accepted_buildings olat olon bh q rest); reflexivity.
  - reflexivity.
Qed.

Lemma create_building_geometry_accepted (olat olon bh : F) (q : string)
    (elements : list (pyval F)) :
  create_building_geometry elements olat olon bh q =
  (bs <- accepted_buildings olat olon bh q elements ;;
   let st := emit_all initial_builder bs in
   Ok (obj_lines st, vertex_count st, building_count st)).
Proof.
  unfold create_building_geometry. rewrite process_elements_accepted.
  destruct (accepted_buildings olat olon bh q elements); reflexivity.
Qed.

Lemma mesh_document_parts (b : @bbox F) (elements : list (pyval F)) (bh : F)
    (q : string) (doc : list (obj_line F)) :
  mesh_document b elements bh q = Ok doc ->
  exists olat olon ground bs,
    origin_of b = Ok (olat, olon) /\
    create_perfect_ground_plane b "perfect_map.png" = Ok (ground, 4) /\
    accepted_buildings olat olon bh q elements = Ok bs /\
    doc = [Comment "Perfect Aligned 3D Map"; BboxComment b;
           OriginComment olat olon; Blank; MtlLib "perfect_materials.mtl"; Blank]
          ++ ground ++ obj_lines (emit_all initial_builder bs).
Proof.
  intros H. unfold mesh_document in H.
  bind_inv H. destruct a as [olat olon].
  bind_inv H. destruct a as [ground gv].
  bind_inv H. destruct a as [[lines total] count].
  injection H as <-.
  rewrite create_building_geometry_accepted in E1.
  bind_inv E1. cbv zeta in E1. injection E1 as <- <- <-.
  destruct (ground_plane_shape _ _ E0) as [-> _].
  exists olat, olon, ground, a. auto.
Qed.

End Batch.


(** ** Height *)

Section Height.
Context {F : Type} {PF : PyFloat F} {BI : Builtins F}.

Lemma py_in_dict (k : string) (t : list (string * pyval F)) :
  py_in k (PDict t) =
  Ok (match dict_lookup k t with Some _ => true | None => false end).
Proof. reflexivity. Qed.

Lemma height_from_tag (e : pyval F) (t : list (string * pyval F)) (bh : F)
    (s : string) (v : F) :
  py_get e "tags" (PDict []) = Ok (PDict t) ->
  dict_lookup "building:height" t = Some (PStr s) ->
  float_of_str (str_remove " " (str_remove "m" s)) = Ok v ->
  resolve_height e bh = Ok (py_max v (flit 2)).
Proof.
  intros Ht Hh Hv. unfold resolve_height. rewrite Ht. cbn [bind].
  rewrite py_in_dict, Hh. cbn [bind py_getitem]. rewrite Hh.
  cbn [bind py_remove py_to_float]. rewrite Hv. reflexivity.
Qed.

Lemma height_from_levels (e : pyval F) (t : list (string * pyval F)) (bh : F)
    (l : pyval F) (n : Z) (nf : F) :
  py_get e "tags" (PDict []) = Ok (PDict t) ->
  dict_lookup "building:height" t = None ->
  dict_lookup "building:levels" t = Some l ->
  py_to_int l = Ok n ->
  float_of_int n = Ok nf ->
  resolve_height e bh = Ok (py_max (fmul nf (flit (35 # 10))) (flit 2)).
Proof.
  intros Ht Hh Hl Hn Hf. unfold resolve_height. rewrite Ht. cbn [bind].
  rewrite !py_in_dict, Hh. cbn [bind]. rewrite Hl. cbn [bind py_getitem].
  rewrite Hl. cbn [bind]. rewrite Hn. cbn [bind]. rewrite Hf. reflexivity.
Qed.

Lemma height_levels_unreadable (e : pyval F) (t : list (string * pyval F)) (bh : F)
    (l : pyval F) (ex : exn) :
  py_get e "tags" (PDict []) = Ok (PDict t) ->
  dict_lookup "building:height" t = None ->
  dict_lookup "building:levels" t = Some l ->
  py_to_int l = Raise ex ->
  resolve_height e bh = Ok bh.
Proof.
  intros Ht Hh Hl Hn. unfold resolve_height. rewrite Ht. cbn [bind].
  rewrite !py_in_dict, Hh. cbn [bind]. rewrite Hl. cbn [bind py_getitem].
  rewrite Hl. cbn [bind]. rewrite Hn. reflexivity.
Qed.

Lemma height_default (e : pyval F) (t : list (string * pyval F)) (bh : F) :
  py_get e "tags" (PDict []) = Ok (PDict t) ->
  dict_lookup "building:height" t = None ->
  dict_lookup "building:levels" t = None ->
  resolve_height e bh = Ok bh.
Proof.
  intros Ht Hh Hl. unfold resolve_height. rewrite Ht. cbn [bind].
  rewrite !py_in_dict, Hh. cbn [bind]. rewrite Hl. reflexivity.
Qed.

Lemma height_tag_unreadable (e : pyval F) (t : list (string * pyval F)) (bh : F)
    (v : pyval F) :
  py_get e "tags" (PDict []) = Ok (PDict t) ->
  dict_lookup "building:height" t = Some v ->
  (forall s, v = PStr s ->
             exists ex, float_of_str (str_remove " " (str_remove "m" s)) = Raise ex) ->
  resolve_height e bh = Ok bh.
Proof.
  intros Ht Hh Hv. unfold resolve_height. rewrite Ht. cbn [bind].
  rewrite py_in_dict, Hh. cbn [bind py_getitem]. rewrite Hh. cbn [bind].
  destruct v; try reflexivity.
  destruct (Hv s eq_refl) as [ex E].
  cbn [bind py_remove py_to_float]. rewrite E. reflexivity.
Qed.

Lemma py_max_not_below (v two : F) :
  fltb two two = false -> fltb (py_max v two) two = false.
Proof.
  intros H. unfold py_max, fgtb. destruct (fltb v two) eqn:E; assumption.
Qed.

End Height.

(** C7.  Height resolution: a height tag (all 'm' and spaces removed, read
    by [float]) gives max(value, 2.0); with no height tag, a level count
    read by [int] gives max(levels * 3.5, 2.0); with neither tag, or with a
    level count that [int] rejects, the job-wide height stands.  The
    maximum is never below 2.0.  The tags {"building:height": "12.5 m"}
    give 12.5, {"building:levels": "3"} give 10.5, and no tags give the
    job-wide height. *)
Theorem height_resolution :
  (forall (F : Type) (PF : PyFloat F) (BI : Builtins F)
          (e : pyval F) (t : list (string * pyval F)) (bh : F),
      py_get e "tags" (PDict []) = Ok (PDict t) ->
      (forall s v,
          dict_lookup "building:height" t = Some (PStr s) ->
          float_of_str (str_remove " " (str_remove "m" s)) = Ok v ->
          resolve_height e bh = Ok (py_max v (flit 2))) /\
      (forall l n nf,
          dict_lookup "building:height" t = None ->
          dict_lookup "building:levels" t = Some l ->
          py_to_int l = Ok n ->
          float_of_int n = Ok nf ->
          resolve_height e bh = Ok (py_max (fmul nf (flit (35 # 10))) (flit 2))) /\
      (dict_lookup "building:height" t = None ->
       (dict_lookup "building:levels" t = None \/
        exists l ex,
          dict_lookup "building:levels" t = Some l /\ py_to_int l = Raise ex) ->
       resolve_height e bh = Ok bh)) /\
  (forall v : float, fltb (py_max v (flit 2)) (flit 2) = false) /\
  (forall v : R, fltb (py_max v (flit 2)) (flit 2) = false) /\
  (forall (BI : Builtins float) (bh : float),
      float_of_str "12.5" = Ok 12.5%float ->
      int_of_str "3" = Ok 3 ->
      resolve_height (tagged [("building:height"%string, PStr "12.5 m")]) bh
        = Ok 12.5%float /\
      resolve_height (tagged [("building:levels"%string, PStr "3")]) bh
        = Ok 10.5%float /\
      resolve_height (tagged []) bh = Ok bh).
Proof.
  split; [| split; [| split]].
  - intros F PF BI e t bh Ht. split; [| split].
    + intros s v. apply height_from_tag. exact Ht.
    + intros l n nf. apply height_from_levels. exact Ht.
    + intros Hh [Hl | (l & ex & Hl & Hn)].
      * apply height_default with t; assumption.
      * apply height_levels_unreadable with t l ex; assumption.
  - intros v. apply py_max_not_below. vm_compute. reflexivity.
  - intros v. apply py_max_not_below. simpl. unfold Exact.ltb.
    destruct (Rlt_dec (Q2R 2) (Q2R 2)) as [H | _]; [lra | reflexivity].
  - intros BI bh Hf Hi. split; [| split].
    + rewrite (@height_from_tag _ _ _ _ [("building:height"%string, PStr "12.5 m")] bh "12.5 m" 12.5%float);
        [ vm_compute; reflexivity | reflexivity | reflexivity | exact Hf ].
    + rewrite (@height_from_levels _ _ _ _ [("building:levels"%string, PStr "3")] bh (PStr "3") 3 3%float);
        [ vm_compute; reflexivity | reflexivity | reflexivity | reflexivity | exact Hi | vm_compute; reflexivity ].
    + apply (@height_default _ _ _ _ []); reflexivity.
Qed.

Lemma height_resolution_witness :
  resolve_height (tagged [("building:height"%string, PStr "12.5 m")]) 10%float
    = Ok 12.5%float /\
  resolve_height (tagged [("building:levels"%string, PStr "3")]) 10%float
    = Ok 10.5%float /\
  resolve_height (tagged []) 10%float = Ok 10%float /\
  resolve_height Sample.square 10%float = Ok 9%float.
Proof.
  destruct height_resolution as (Hgen & _ & _ & Hex).
  pose proof (Hex Sample.builtins 10%float
                  ltac:(vm_compute; reflexivity) ltac:(vm_compute; reflexivity))
    as (H1 & H2 & H3).
  split; [exact H1 | split; [exact H2 | split; [exact H3 |]]].
  destruct (Hgen float binary64 Sample.builtins Sample.square
              [("building"%string, PStr "yes"); ("building:height"%string, PStr "9m")]
              10%float eq_refl) as (Htag & _ & _).
  rewrite (Htag "9m"%string 9%float); [vm_compute; reflexivity | reflexivity | vm_compute; reflexivity].
Defined.

(** C10.  A height tag that is present and cannot be read gives the
    job-wide height, whatever else the tags hold: a level count on the same
    footprint is not used, while the same level count alone gives
    levels * 3.5. *)
Theorem height_fallback_precedence :
  (forall (F : Type) (PF : PyFloat F) (BI : Builtins F)
          (e : pyval F) (t : list (string * pyval F)) (bh : F) (v : pyval F),
      py_get e "tags" (PDict []) = Ok (PDict t) ->
      dict_lookup "building:height" t = Some v ->
      (forall s, v = PStr s ->
                 exists ex, float_of_str (str_remove " " (str_remove "m" s)) = Raise ex) ->
      resolve_height e bh = Ok bh) /\
  (forall (BI : Builtins float) (bh : float) (ex : exn),
      float_of_str "tall" = Raise ex ->
      int_of_str "3" = Ok 3 ->
      resolve_height (tagged [("building:height"%string, PStr "tall");
                              ("building:levels"%string, PStr "3")]) bh = Ok bh /\
      resolve_height (tagged [("building:levels"%string, PStr "3")]) bh = Ok 10.5%float).
Proof.
  split.
  - intros F PF BI e t bh v. apply height_tag_unreadable.
  - intros BI bh ex Hf Hi. split.
    + apply (@height_tag_unreadable _ _ _ _
               [("building:height"%string, PStr "tall"); ("building:levels"%string, PStr "3")]
               bh (PStr "tall")); [reflexivity | reflexivity |].
      intros s E. injection E as <-. exists ex. exact Hf.
    + rewrite (@height_from_levels _ _ _ _ [("building:levels"%string, PStr "3")] bh (PStr "3") 3 3%float);
        [ vm_compute; reflexivity | reflexivity | reflexivity | reflexivity | exact Hi | vm_compute; reflexivity ].
Qed.

Lemma height_fallback_precedence_witness :
  resolve_height (tagged [("building:height"%string, PStr "tall");
                          ("building:levels"%string, PStr "3")]) 10%float = Ok 10%float /\
  resolve_height (tagged [("building:height"%string, PFloat 12.5%float);
                          ("building:levels"%string, PStr "3")]) 10%float = Ok 10%float.
Proof.
  destruct height_fallback_precedence as (Hgen & Hex).
  split.
  - apply (Hex Sample.builtins 10%float ValueError
                ltac:(vm_compute; reflexivity) ltac:(vm_compute; reflexivity)).
  - apply (Hgen float binary64 Sample.builtins _
             [("building:height"%string, PFloat 12.5%float);
              ("building:levels"%string, PStr "3")] 10%float (PFloat 12.5%float));
      [reflexivity | reflexivity | intros s E; discriminate].
Defined.


(** ** Extrusion of an accepted footprint *)

Section Accepted.
Context {F : Type} {PF : PyFloat F} {LM : Libm F} {BI : Builtins F} {SH : Shapely F}.

Lemma process_accepted (olat olon bh : F) (q : string) (st : builder)
    (e : pyval F) (coords : list (pyval F * pyval F)) (ring : list (F * F)) (h : F) :
  footprint_coords e = Ok (Some coords) ->
  building_of e coords olat olon bh q = Ok (Some (ring, h)) ->
  process_element olat olon bh q st e = Ok (emit_building st ring h).
Proof.
  intros Hc Hb. unfold process_element. rewrite Hc. cbn [bind]. rewrite Hb. reflexivity.
Qed.

Lemma single_building_document (b : @bbox F) (e : pyval F) (bh : F) (q : string)
    (olat olon : F) (coords : list (pyval F * pyval F)) (ring : list (F * F)) (h : F)
    (doc : list (obj_line F)) :
  origin_of b = Ok (olat, olon) ->
  footprint_coords e = Ok (Some coords) ->
  building_of e coords olat olon bh q = Ok (Some (ring, h)) ->
  mesh_document b [e] bh q = Ok doc ->
  exists ground,
    create_perfect_ground_plane b "perfect_map.png" = Ok (ground, 4) /\
    vertices doc = vertices ground ++ vertices (building_lines 4 1 ring h) /\
    faces doc = faces ground ++ faces (building_lines 4 1 ring h).
Proof.
  intros Ho Hc Hb H.
  destruct (mesh_document_parts _ _ _ _ H) as (olat' & olon' & ground & bs & Ho' & Hg & Ha & ->).
  rewrite Ho in Ho'. injection Ho' as <- <-.
  cbn [accepted_buildings] in Ha. rewrite Hc in Ha. cbn [bind] in Ha.
  rewrite Hb in Ha. injection Ha as <-.
  exists ground. split; [exact Hg |].
  unfold emit_all. cbn [fold_left fst snd]. rewrite emit_building_lines.
  cbn [obj_lines vertex_count building_count initial_builder].
  rewrite !vertices_app, !faces_app. split; reflexivity.
Qed.

End Accepted.

(** C5.  Extrusion: for a ring of n vertices the emitted lines hold a base
    vertex at z = 0 and a top vertex at z = height per ring vertex, the
    bottom face (the base ring reversed), the top face (the top ring
    forward) and n walls (base i, base i+1, top i+1, top i), cyclically.  A
    job with one accepted footprint whose ring has 4 vertices has 4 ground
    and 8 building vertices, 2 ground faces, 2 roof and floor faces and 4
    wall faces. *)
Theorem extrusion_emission :
  (forall (F : Type) (PF : PyFloat F) (st : @builder F) (ring : list (F * F)) (height : F),
      exists new_lines,
        obj_lines (emit_building st ring height) = obj_lines st ++ new_lines /\
        vertices new_lines =
          flat_map (fun xy => [(fst xy, snd xy, flit 0); (fst xy, snd xy, height)]) ring /\
        faces new_lines =
          map (map (fun v => (v, None)))
              (rev (map (base_index (vertex_count st)) (seq 0 (List.length ring)))
               :: map (top_index (vertex_count st)) (seq 0 (List.length ring))
               :: map (wall_indices (vertex_count st) (List.length ring))
                      (seq 0 (List.length ring))) /\
        List.length (faces new_lines) = (2 + List.length ring)%nat /\
        vertex_count (emit_building st ring height)
          = vertex_count st + 2 * Z.of_nat (List.length ring) /\
        building_count (emit_building st ring height) = building_count st + 1) /\
  (forall (F : Type) (PF : PyFloat F) (LM : Libm F) (BI : Builtins F) (SH : Shapely F)
          (b : @bbox F) (e : pyval F) (bh : F) (q : string) (olat olon : F)
          (coords : list (pyval F * pyval F)) (ring : list (F * F)) (h : F)
          (doc : list (obj_line F)),
      origin_of b = Ok (olat, olon) ->
      footprint_coords e = Ok (Some coords) ->
      building_of e coords olat olon bh q = Ok (Some (ring, h)) ->
      List.length ring = 4%nat ->
      mesh_document b [e] bh q = Ok doc ->
      (forall st, process_element olat olon bh q st e = Ok (emit_building st ring h)) /\
      exists ground,
        create_perfect_ground_plane b "perfect_map.png" = Ok (ground, 4) /\
        List.length (vertices ground) = 4%nat /\
        vertices doc =
          vertices ground
          ++ flat_map (fun xy => [(fst xy, snd xy, flit 0); (fst xy, snd xy, h)]) ring /\
        List.length (vertices doc) = 12%nat /\
        faces doc =
          [[(1, Some 1); (2, Some 2); (3, Some 3)];
           [(1, Some 1); (3, Some 3); (4, Some 4)]]
          ++ map (map (fun v => (v, None)))
                 [[11; 9; 7; 5]; [6; 8; 10; 12];
                  [5; 7; 8; 6]; [7; 9; 10; 8]; [9; 11; 12; 10]; [11; 5; 6; 12]]).
Proof.
  split.
  - intros F PF st ring height.
    exists (building_lines (vertex_count st) (building_count st + 1) ring height).
    rewrite emit_building_lines. cbn [obj_lines vertex_count building_count].
    rewrite building_lines_vertices, building_lines_faces.
    repeat split.
    rewrite length_map. fold (building_faces (vertex_count st) (List.length ring)).
    apply building_faces_length.
  - intros F PF LM BI SH b e bh q olat olon coords ring h doc Ho Hc Hb Hn H.
    split; [intros st; apply process_accepted with coords; assumption |].
    destruct (@single_building_document F PF LM BI SH b e bh q olat olon coords ring h doc Ho Hc Hb H) as (ground & Hg & Hv & Hf).
    exists ground. split; [exact Hg |].
    destruct b as [[[west south] east] north].
    destruct (@ground_plane_lines F PF LM west south east north _ ground 4 Hg)
      as (olat' & olon' & sw & se & ne & nw & _ & _ & _ & _ & _ & Hgv & _ & Hgf & _).
    rewrite building_lines_vertices in Hv. rewrite building_lines_faces, Hn in Hf.
    split; [rewrite Hgv; reflexivity |].
    split; [exact Hv |].
    split.
    + rewrite Hv, length_app, Hgv.
      destruct ring as [| p1 [| p2 [| p3 [| p4 [| p5 ring]]]]]; try discriminate.
      reflexivity.
    + rewrite Hf, Hgf. reflexivity.
Qed.

Lemma extrusion_emission_witness :
  exists doc,
    mesh_document Sample.berlin [Sample.square] 10%float "high" = Ok doc /\
    List.length (vertices doc) = 12%nat /\
    List.length (faces doc) = 8%nat.
Proof.
  assert (E : exists doc,
             mesh_document Sample.berlin [Sample.square] 10%float "high" = Ok doc)
    by (eexists; vm_compute; reflexivity).
  destruct E as [doc E]. exists doc. split; [exact E |].
  destruct extrusion_emission as [_ H].
  destruct (H float binary64 Sample.libm Sample.builtins Sample.shapely
              Sample.berlin Sample.square 10%float "high"%string
              berlin_lat berlin_lon
              [(PFloat 13.4052, PFloat 52.5202); (PFloat 13.4056, PFloat 52.5202);
               (PFloat 13.4056, PFloat 52.5206); (PFloat 13.4052, PFloat 52.5206)]%float
              _ 9%float doc
              ltac:(vm_compute; reflexivity) ltac:(vm_compute; reflexivity)
              ltac:(vm_compute; reflexivity) ltac:(reflexivity) E)
    as (_ & ground & _ & _ & _ & Hv & Hf).
  split; [exact Hv | rewrite Hf; reflexivity].
Defined.

(** ** Rejection *)

Section Rejection.
Context {F : Type} {PF : PyFloat F} {LM : Libm F} {BI : Builtins F} {SH : Shapely F}.
Variables (olat olon bh : F) (q : string).

Lemma process_skipped (st : builder) (e : pyval F) :
  footprint_coords e = Ok None -> process_element olat olon bh q st e = Ok st.
Proof. intros H. unfold process_element. rewrite H. reflexivity. Qed.

Lemma process_rejected (st : builder) (e : pyval F) (coords : list (pyval F * pyval F)) :
  footprint_coords e = Ok (Some coords) ->
  building_of e coords olat olon bh q = Ok None ->
  process_element olat olon bh q st e = Ok st.
Proof.
  intros Hc Hb. unfold process_element. rewrite Hc. cbn [bind]. rewrite Hb. reflexivity.
Qed.

Lemma too_few_raw (e : pyval F) (coords : list (pyval F * pyval F)) :
  is_building e = Ok true -> node_coords e = Ok coords ->
  (List.length coords < 4)%nat ->
  footprint_coords e = Ok None.
Proof.
  intros Hb Hc Hn. unfold footprint_coords. rewrite Hb. cbn [bind negb]. rewrite Hc.
  cbn [bind]. apply Nat.ltb_lt in Hn. rewrite Hn. reflexivity.
Qed.

Lemma too_few_unique (e : pyval F) (coords : list (pyval F * pyval F)) :
  is_building e = Ok true -> node_coords e = Ok coords ->
  (List.length (drop_closing coords) < 3)%nat ->
  footprint_coords e = Ok None.
Proof.
  intros Hb Hc Hn. unfold footprint_coords. rewrite Hb. cbn [bind negb]. rewrite Hc.
  cbn [bind]. destruct (List.length coords <? 4)%nat; [reflexivity |].
  apply Nat.ltb_lt in Hn. rewrite Hn. reflexivity.
Qed.

Lemma invalid_polygon (coords : list (pyval F * pyval F)) (lc : list (F * F))
    (p : geometry) :
  project coords olat olon = Ok lc -> Polygon lc = Ok p -> is_valid p = Ok false ->
  checked_polygon coords olat olon q = Ok None.
Proof.
  intros Hp Hg Hv. unfold checked_polygon. rewrite Hp. cbn [bind]. rewrite Hg.
  cbn [bind]. rewrite Hv. reflexivity.
Qed.

Lemma small_polygon (coords : list (pyval F * pyval F)) (lc : list (F * F))
    (p : geometry) (a : F) :
  project coords olat olon = Ok lc -> Polygon lc = Ok p -> is_valid p = Ok true ->
  area p = Ok a -> fltb a (min_area_threshold q) = true ->
  checked_polygon coords olat olon q = Ok None.
Proof.
  intros Hp Hg Hv Ha Hs. unfold checked_polygon. rewrite Hp. cbn [bind]. rewrite Hg.
  cbn [bind]. rewrite Hv. cbn [bind negb]. rewrite Ha. cbn [bind]. rewrite Hs. reflexivity.
Qed.

Lemma large_polygon (coords : list (pyval F * pyval F)) (lc : list (F * F))
    (p : geometry) (a : F) :
  project coords olat olon = Ok lc -> Polygon lc = Ok p -> is_valid p = Ok true ->
  area p = Ok a -> fltb a (min_area_threshold q) = false ->
  checked_polygon coords olat olon q = Ok (Some (lc, p)).
Proof.
  intros Hp Hg Hv Ha Hs. unfold checked_polygon. rewrite Hp. cbn [bind]. rewrite Hg.
  cbn [bind]. rewrite Hv. cbn [bind negb]. rewrite Ha. cbn [bind]. rewrite Hs. reflexivity.
Qed.

Lemma unchecked_not_built (e : pyval F) (coords : list (pyval F * pyval F)) :
  checked_polygon coords olat olon q = Ok None ->
  building_of e coords olat olon bh q = Ok None.
Proof. intros H. unfold building_of. rewrite H. reflexivity. Qed.

Lemma closed_triangle (e : pyval F) (a b c a' : pyval F * pyval F) :
  is_building e = Ok true -> node_coords e = Ok [a; b; c; a'] ->
  tuple_eq a a' = true ->
  footprint_coords e = Ok (Some [a; b; c]).
Proof.
  intros Hb Hc He. unfold footprint_coords. rewrite Hb. cbn [bind negb]. rewrite Hc.
  cbn [bind List.length Nat.ltb Nat.leb drop_closing last]. rewrite He. reflexivity.
Qed.

End Rejection.

(** C8.  Footprint rejection: a building record is left out when it has
    fewer than 4 raw vertices, when fewer than 3 remain after the closing
    duplicate is dropped, and when its polygon is invalid or its area is
    below the threshold of the quality (low 25, medium 10, high 5).  A
    closed ring of 3 distinct vertices whose polygon is valid and whose area
    is not below 5 passes these checks at quality high. *)
Theorem footprint_rejection
    (F : Type) (PF : PyFloat F) (LM : Libm F) (BI : Builtins F) (SH : Shapely F)
    (olat olon bh : F) (st : @builder F) (e : pyval F) :
  is_building e = Ok true ->
  (forall q coords,
      node_coords e = Ok coords -> (List.length coords < 4)%nat ->
      process_element olat olon bh q st e = Ok st) /\
  (forall q coords,
      node_coords e = Ok coords -> (List.length (drop_closing coords) < 3)%nat ->
      process_element olat olon bh q st e = Ok st) /\
  (forall q coords lc p,
      footprint_coords e = Ok (Some coords) ->
      project coords olat olon = Ok lc -> Polygon lc = Ok p ->
      (is_valid p = Ok false \/
       exists a, is_valid p = Ok true /\ area p = Ok a /\
                 fltb a (min_area_threshold q) = true) ->
      process_element olat olon bh q st e = Ok st) /\
  (min_area_threshold "low" = flit 25 /\
   min_area_threshold "medium" = flit 10 /\
   min_area_threshold "high" = flit 5) /\
  (forall a b c a' lc p ar,
      node_coords e = Ok [a; b; c; a'] -> tuple_eq a a' = true ->
      project [a; b; c] olat olon = Ok lc -> Polygon lc = Ok p ->
      is_valid p = Ok true -> area p = Ok ar -> fltb ar (flit 5) = false ->
      footprint_coords e = Ok (Some [a; b; c]) /\
      checked_polygon [a; b; c] olat olon "high" = Ok (Some (lc, p)) /\
      (forall ring h,
          building_of e [a; b; c] olat olon bh "high" = Ok (Some (ring, h)) ->
          process_element olat olon bh "high" st e = Ok (emit_building st ring h))).
Proof.
  intros Hb. split; [| split; [| split; [| split]]].
  - intros q coords Hc Hn. apply process_skipped. apply too_few_raw with coords; assumption.
  - intros q coords Hc Hn. apply process_skipped. apply too_few_unique with coords; assumption.
  - intros q coords lc p Hc Hp Hg [Hv | (a & Hv & Ha & Hs)];
      apply process_rejected with coords; try assumption; apply unchecked_not_built.
    + apply invalid_polygon with lc p; assumption.
    + apply small_polygon with lc p a; assumption.
  - repeat split.
  - intros a b c a' lc p ar Hc He Hp Hg Hv Ha Hs.
    assert (Hf : footprint_coords e = Ok (Some [a; b; c]))
      by (apply closed_triangle with a'; assumption).
    split; [exact Hf |]. split.
    + apply large_polygon with ar; assumption.
    + intros ring h Hbuild. apply process_accepted with [a; b; c]; assumption.
Qed.

Lemma footprint_rejection_witness :
  footprint_coords triangle =
    Ok (Some [(PFloat 13.4052, PFloat 52.5202); (PFloat 13.4056, PFloat 52.5202);
              (PFloat 13.4052, PFloat 52.5206)]%float) /\
  (exists checked,
      checked_polygon [(PFloat 13.4052, PFloat 52.5202); (PFloat 13.4056, PFloat 52.5202);
                       (PFloat 13.4052, PFloat 52.5206)]%float
                      berlin_lat berlin_lon "high" = Ok (Some checked)) /\
  process_element berlin_lat berlin_lon 10%float "high" initial_builder tiny_triangle
    = Ok initial_builder.
Proof.
  destruct (@footprint_rejection float binary64 Sample.libm Sample.builtins Sample.shapely
              berlin_lat berlin_lon 10%float initial_builder triangle
              ltac:(vm_compute; reflexivity)) as (_ & _ & _ & _ & Hkept).
  destruct (@footprint_rejection float binary64 Sample.libm Sample.builtins Sample.shapely
              berlin_lat berlin_lon 10%float initial_builder tiny_triangle
              ltac:(vm_compute; reflexivity)) as (_ & _ & Hsmall & _ & _).
  edestruct (Hkept (PFloat 13.4052, PFloat 52.5202)%float
                   (PFloat 13.4056, PFloat 52.5202)%float
                   (PFloat 13.4052, PFloat 52.5206)%float
                   (PFloat 13.4052, PFloat 52.5202)%float) as (H1 & H2 & _);
    try (vm_compute; reflexivity).
  split; [exact H1 |]. split; [eexists; exact H2 |].
  eapply (Hsmall "high"%string); try (vm_compute; reflexivity).
  right. eexists. split; [vm_compute; reflexivity |].
  split; vm_compute; reflexivity.
Defined.





(** ** Exceptions *)

Section Containment.
Context {F : Type} {PF : PyFloat F} {LM : Libm F} {BI : Builtins F} {SH : Shapely F}.
Variables (olat olon bh : F) (q : string).



End Containment.




(** ** The whole document *)

Section WholeDocument.
Context {F : Type} {PF : PyFloat F} {LM : Libm F} {BI : Builtins F} {SH : Shapely F}.



End WholeDocument.



(** * Further properties of the code *)

(** ** Tiles as intervals *)

Lemma mercator_limit_pos : (0 < mercator_limit)%R.
Proof.
  unfold mercator_limit. apply Rmult_lt_0_compat.
  - rewrite <- atan_0. apply atan_increasing.
    rewrite <- sinh_0. apply sinh_lt. apply PI_RGT_0.
  - pose proof PI_RGT_0. apply Rdiv_lt_0_compat; lra.
Qed.

Section TileIntervals.
Local Open Scope R_scope.


Lemma Int_part_monotone (a b : R) : a <= b -> (Int_part a <= Int_part b)%Z.
Proof.
  intros H. pose proof (Int_part_bounds a) as Ha. pose proof (Int_part_bounds b) as Hb.
  assert (IZR (Int_part a) < IZR (Int_part b + 1)) by (rewrite plus_IZR; lra).
  apply lt_IZR in H0. lia.
Qed.

Lemma trunc_monotone (a b : R) : a <= b -> (Exact.trunc a <= Exact.trunc b)%Z.
Proof.
  intros H. unfold Exact.trunc.
  destruct (Rle_dec 0 a) as [Ha | Ha], (Rle_dec 0 b) as [Hb | Hb].
  - apply Int_part_monotone. exact H.
  - lra.
  - assert (Int_part (- a) >= 0)%Z.
    { pose proof (Int_part_monotone (a := 0) (b := - a)) as Hm.
      replace (Int_part 0) with 0%Z in Hm by (apply Int_part_spec; lra).
      specialize (Hm ltac:(lra)). lia. }
    assert (0 <= Int_part b)%Z.
    { pose proof (Int_part_monotone (a := 0) (b := b) Hb) as Hm.
      replace (Int_part 0) with 0%Z in Hm by (apply Int_part_spec; lra). exact Hm. }
    lia.
  - pose proof (Int_part_monotone (a := - b) (b := - a)) as Hm.
    specialize (Hm ltac:(lra)). lia.
Qed.


Lemma long_tile_increasing (a b : R) (zoom : N) :
  a <= b -> long_tile_real a zoom <= long_tile_real b zoom.
Proof.
  intros H. unfold long_tile_real. pose proof (pow2_pos zoom).
  apply Rmult_le_compat_r; lra.
Qed.


Lemma tile_long_strict (t1 t2 : R) (zoom : N) :
  t1 < t2 -> tile_long_real t1 zoom < tile_long_real t2 zoom.
Proof.
  intros H. unfold tile_long_real. pose proof (pow2_pos zoom) as Hp.
  assert (t1 / IZR (2 ^ Z.of_N zoom) < t2 / IZR (2 ^ Z.of_N zoom)).
  { unfold Rdiv. apply Rmult_lt_compat_r; [apply Rinv_0_lt_compat; lra | lra]. }
  lra.
Qed.



Lemma gd_degrees_strict (a b : R) : a < b -> gd_degrees a < gd_degrees b.
Proof.
  intros H. unfold gd_degrees. apply Rmult_lt_compat_r.
  - pose proof PI_RGT_0. apply Rdiv_lt_0_compat; lra.
  - apply atan_increasing. apply sinh_lt. exact H.
Qed.

Lemma tile_lat_strict (t1 t2 : R) (zoom : N) :
  t1 < t2 -> tile_lat_real t2 zoom < tile_lat_real t1 zoom.
Proof.
  intros H. unfold tile_lat_real. apply gd_degrees_strict.
  pose proof (pow2_pos zoom) as Hp. pose proof PI_RGT_0 as Hpi.
  assert (2 * PI * t1 / IZR (2 ^ Z.of_N zoom) < 2 * PI * t2 / IZR (2 ^ Z.of_N zoom)).
  { unfold Rdiv. apply Rmult_lt_compat_r; [apply Rinv_0_lt_compat; lra | nra]. }
  lra.
Qed.




End TileIntervals.


Section TileAddresses.
Local Open Scope R_scope.

Lemma trunc_nonneg (r : R) : 0 <= r -> (0 <= Exact.trunc r)%Z.
Proof.
  intros H. pose proof (trunc_monotone H) as Hm.
  replace (Exact.trunc 0) with 0%Z in Hm by (symmetry; apply (trunc_IZR 0)).
  exact Hm.
Qed.

Lemma trunc_below (r : R) (z : Z) : 0 <= r -> r < IZR z -> (Exact.trunc r < z)%Z.
Proof.
  intros H0 H. pose proof (trunc_le H0) as Hle.
  apply lt_IZR. lra.
Qed.

Lemma sinh_opp (x : R) : sinh (- x) = - sinh x.
Proof. unfold sinh. rewrite Ropp_involutive. lra. Qed.






(** X5.  The zoom never grows with the rectangle: a rectangle at least as
    wide and as high as another gets a zoom that is not larger. *)
Theorem choose_zoom_monotone (w1 s1 e1 n1 w2 s2 e2 n2 : R) :
  e1 - w1 <= e2 - w2 -> n1 - s1 <= n2 - s2 ->
  (choose_zoom (w2, s2, e2, n2) <= choose_zoom (w1, s1, e1, n1))%N.
Proof.
  intros Hw Hh. unfold choose_zoom, py_max, fgtb. simpl.
  unfold Exact.ltb, Q2R. simpl.
  destruct (Rlt_dec (e1 - w1) (n1 - s1)), (Rlt_dec (e2 - w2) (n2 - s2));
  repeat match goal with
         | |- context [Rlt_dec ?a ?b] => destruct (Rlt_dec a b)
         end; try lia; exfalso; lra.
Qed.

Lemma choose_zoom_monotone_witness :
  (choose_zoom (0, 0, 1, 1)%R <= choose_zoom (0, 0, 0, 0)%R)%N.
Proof. apply (@choose_zoom_monotone 0%R 0%R 0%R 0%R 0%R 0%R 1%R 1%R); lra. Defined.

End TileAddresses.


Section GridEdges.
Local Open Scope R_scope.

Lemma tile_lat_of_zero (zoom : N) : tile_lat_real 0 zoom = mercator_limit.
Proof.
  unfold tile_lat_real, gd_degrees, mercator_limit.
  replace (PI - 2 * PI * 0 / IZR (2 ^ Z.of_N zoom)) with PI; [reflexivity |].
  unfold Rdiv. ring.
Qed.

Lemma tile_lat_of_last (zoom : N) :
  tile_lat_real (IZR (2 ^ Z.of_N zoom)) zoom = - mercator_limit.
Proof.
  unfold tile_lat_real, gd_degrees, mercator_limit. pose proof (pow2_pos zoom) as Hp.
  replace (PI - 2 * PI * IZR (2 ^ Z.of_N zoom) / IZR (2 ^ Z.of_N zoom)) with (- PI)
    by (field; lra).
  rewrite sinh_opp, atan_opp. ring.
Qed.


End GridEdges.

(** X6.  The edges of the tile grid: for 0 <= x <= 2^zoom and 0 <= y <=
    2^zoom the west edge of column x lies between -180 and 180 degrees and
    the north edge of row y between the two Mercator limits; column 0
    starts at -180, column 2^zoom at 180, row 0 at the Mercator limit and
    row 2^zoom at its negative. *)
Theorem tile_edges_in_range (x y : Z) (zoom : N) :
  0 <= x <= 2 ^ Z.of_N zoom -> 0 <= y <= 2 ^ Z.of_N zoom ->
  exists lon lat,
    tile2long x zoom = Ok lon /\ tile2lat y zoom = Ok lat /\
    (-180 <= lon <= 180)%R /\ (- mercator_limit <= lat <= mercator_limit)%R /\
    (x = 0 -> lon = (-180)%R) /\ (x = 2 ^ Z.of_N zoom -> lon = 180%R) /\
    (y = 0 -> lat = mercator_limit) /\ (y = 2 ^ Z.of_N zoom -> lat = (- mercator_limit)%R).
Proof.
  intros [Hx0 Hx1] [Hy0 Hy1]. pose proof (pow2_pos zoom) as Hp.
  exists (tile_long_real (IZR x) zoom), (tile_lat_real (IZR y) zoom).
  split; [apply tile2long_exact |]. split; [apply tile2lat_exact |].
  assert (Ex0 : tile_long_real 0 zoom = (-180)%R)
    by (unfold tile_long_real; field; lra).
  assert (Ex1 : tile_long_real (IZR (2 ^ Z.of_N zoom)) zoom = 180%R)
    by (unfold tile_long_real; field; lra).
  apply IZR_le in Hx0, Hx1, Hy0, Hy1.
  split.
  { split; [rewrite <- Ex0 | rewrite <- Ex1]; apply tile_long_increasing; assumption. }
  split.
  { split; [rewrite <- (tile_lat_of_last zoom) | rewrite <- (tile_lat_of_zero zoom)];
      apply tile_lat_decreasing; assumption. }
  split; [intros ->; exact Ex0 |]. split; [intros ->; exact Ex1 |].
  split; [intros ->; apply tile_lat_of_zero | intros ->; apply tile_lat_of_last].
Qed.

Lemma tile_edges_in_range_witness :
  exists lon lat,
    tile2long 0%Z 14%N = Ok lon /\ tile2lat 0%Z 14%N = Ok lat /\
    lon = (-180)%R /\ lat = mercator_limit.
Proof.
  destruct (@tile_edges_in_range 0%Z 0%Z 14%N) as (lon & lat & E1 & E2 & _ & _ & H1 & _ & H2 & _).
  - cbn. lia.
  - cbn. lia.
  - exists lon, lat. split; [exact E1 |]. split; [exact E2 |].
    split; [apply H1 | apply H2]; reflexivity.
Defined.




(** ** The mosaic *)


Section Ranges.

Lemma in_py_range (a b v : Z) : In v (py_range a b) <-> a <= v < b.
Proof.
  unfold py_range. rewrite in_map_iff. split.
  - intros (i & <- & Hi). apply in_seq in Hi. lia.
  - intros H. exists (Z.to_nat (v - a)). split; [lia |]. apply in_seq. lia.
Qed.

Lemma py_range_cons (a b : Z) : a < b -> py_range a b = a :: py_range (a + 1) b.
Proof.
  intros H. unfold py_range.
  replace (Z.to_nat (b - a)) with (S (Z.to_nat (b - (a + 1)))) by lia.
  cbn [seq map]. f_equal; [lia |].
  rewrite <- seq_shift, map_map. apply map_ext. intros i. lia.
Qed.

Lemma py_range_nil (a b : Z) : b <= a -> py_range a b = [].
Proof.
  intros H. unfold py_range. replace (Z.to_nat (b - a)) with 0%nat by lia. reflexivity.
Qed.

Lemma py_range_app (k : nat) :
  forall a t b, Z.to_nat (t - a) = k -> a <= t <= b ->
                py_range a b = py_range a t ++ py_range t b.
Proof.
  induction k as [| k IH]; intros a t b Hk H.
  - replace t with a by lia. rewrite (@py_range_nil a a) by lia. reflexivity.
  - rewrite (@py_range_cons a b) by lia. rewrite (@py_range_cons a t) by lia.
    cbn [app]. f_equal. apply IH; lia.
Qed.

Lemma py_range_split (a b t : Z) :
  a <= t < b -> py_range a b = py_range a t ++ t :: py_range (t + 1) b.
Proof.
  intros H. rewrite (@py_range_app (Z.to_nat (t - a)) a t b) by lia.
  rewrite (@py_range_cons t b) by lia. reflexivity.
Qed.

End Ranges.


Section Mosaic.
Variable fetch_tile : string -> result image.
Variables (min_x min_y : Z) (zoom : N) (tile_size : Z).
Hypothesis tile_size_pos : 0 < tile_size.

Lemma place_tile_pastes (img : image) (tile_x tile_y : Z) :
  place_tile fetch_tile min_x min_y zoom tile_size img tile_x tile_y =
  Ok (paste_cell fetch_tile min_x min_y zoom tile_size img (tile_x, tile_y)).
Proof.
  unfold place_tile, paste_cell, pasted. cbn [fst snd].
  destruct (fetch_tile (tile_url zoom tile_x tile_y)); [reflexivity |].
  unfold Image.new. replace (tile_size <? 0) with false by (symmetry; apply Z.ltb_ge; lia).
  reflexivity.
Qed.

Lemma foldM_pure (A B : Type) (f : A -> B -> result A) (g : A -> B -> A) (l : list B) :
  (forall a b, f a b = Ok (g a b)) ->
  forall a, foldM f l a = Ok (fold_left g l a).
Proof.
  intros H. induction l as [| b l IH]; intros a; [reflexivity |].
  cbn [foldM fold_left]. rewrite H. cbn [bind]. apply IH.
Qed.

Lemma fold_left_cells (A : Type) (g : A -> Z * Z -> A) (xs ys : list Z) :
  forall a,
    fold_left (fun a x => fold_left (fun a y => g a (x, y)) ys a) xs a =
    fold_left g (flat_map (fun x => map (pair x) ys) xs) a.
Proof.
  induction xs as [| x xs IH]; intros a; [reflexivity |].
  cbn [fold_left flat_map]. rewrite fold_left_app, IH. f_equal.
  clear. revert a. induction ys as [| y ys IH]; intros a; [reflexivity |].
  cbn [map fold_left]. apply IH.
Qed.

Lemma fold_paste_untouched (px py : Z) (cells : list (Z * Z)) :
  Forall (untouched fetch_tile min_x min_y zoom tile_size px py) cells ->
  forall img, pixel (fold_left (paste_cell fetch_tile min_x min_y zoom tile_size) cells img) px py = pixel img px py.
Proof.
  induction 1 as [| c cells Hc _ IH]; intros img; [reflexivity |].
  cbn [fold_left]. rewrite IH. unfold paste_cell, Image.paste. cbn [pixel].
  unfold untouched in Hc. rewrite Hc. reflexivity.
Qed.

Lemma fold_paste_size (cells : list (Z * Z)) :
  forall img, dims (fold_left (paste_cell fetch_tile min_x min_y zoom tile_size) cells img) = dims img.
Proof.
  induction cells as [| c cells IH]; intros img; [reflexivity |].
  cbn [fold_left]. rewrite IH. reflexivity.
Qed.

Lemma fold_paste_last (px py : Z) (before after : list (Z * Z)) (cell : Z * Z) (img : image) :
  Forall (untouched fetch_tile min_x min_y zoom tile_size px py) after ->
  pixel (fold_left (paste_cell fetch_tile min_x min_y zoom tile_size) (before ++ cell :: after) img) px py =
  pixel (paste_cell fetch_tile min_x min_y zoom tile_size (fold_left (paste_cell fetch_tile min_x min_y zoom tile_size) before img) cell) px py.
Proof.
  intros H. rewrite fold_left_app. cbn [fold_left]. apply fold_paste_untouched. exact H.
Qed.

Lemma later_column_untouched (px py tile_x x y : Z) :
  px < (tile_x - min_x + 1) * tile_size -> tile_x < x -> untouched fetch_tile min_x min_y zoom tile_size px py (x, y).
Proof.
  intros Hp Hx. unfold untouched, Image.inside. cbn [fst snd].
  assert ((tile_x - min_x + 1) * tile_size <= (x - min_x) * tile_size)
    by (apply Z.mul_le_mono_nonneg_r; lia).
  replace (0 <=? px - (x - min_x) * tile_size) with false
    by (symmetry; apply Z.leb_gt; lia).
  reflexivity.
Qed.

Lemma later_row_untouched (px py tile_y x y : Z) :
  py < (tile_y - min_y + 1) * tile_size -> tile_y < y -> untouched fetch_tile min_x min_y zoom tile_size px py (x, y).
Proof.
  intros Hp Hy. unfold untouched, Image.inside. cbn [fst snd].
  assert ((tile_y - min_y + 1) * tile_size <= (y - min_y) * tile_size)
    by (apply Z.mul_le_mono_nonneg_r; lia).
  replace (0 <=? py - (y - min_y) * tile_size) with false
    by (symmetry; apply Z.leb_gt; lia).
  rewrite andb_false_r. reflexivity.
Qed.

Lemma cell_of_pixel (p origin : Z) :
  0 <= p ->
  let t := origin + p / tile_size in
  (t - origin) * tile_size <= p < (t - origin + 1) * tile_size /\
  p - (t - origin) * tile_size = p mod tile_size.
Proof.
  intros Hp t. unfold t.
  replace (origin + p / tile_size - origin) with (p / tile_size) by lia.
  pose proof (Z.div_mod p tile_size ltac:(lia)).
  pose proof (Z.mod_pos_bound p tile_size tile_size_pos). lia.
Qed.

Lemma cells_split (xs1 xs2 ys1 ys2 : list Z) (tx ty : Z) :
  let ys := ys1 ++ ty :: ys2 in
  flat_map (fun x => map (pair x) ys) (xs1 ++ tx :: xs2) =
  (flat_map (fun x => map (pair x) ys) xs1 ++ map (pair tx) ys1)
  ++ (tx, ty) :: (map (pair tx) ys2 ++ flat_map (fun x => map (pair x) ys) xs2).
Proof.
  intros ys. rewrite flat_map_app. cbn [flat_map]. unfold ys at 2.
  rewrite map_app. cbn [map]. rewrite <- !app_assoc. reflexivity.
Qed.

Lemma cells_pixel (xs1 xs2 ys1 ys2 : list Z) (tx ty px py : Z) (img : image) :
  px < (tx - min_x + 1) * tile_size -> py < (ty - min_y + 1) * tile_size ->
  Forall (fun x => tx < x) xs2 -> Forall (fun y => ty < y) ys2 ->
  Image.inside (pasted fetch_tile zoom tile_size (tx, ty))
               (px - (tx - min_x) * tile_size) (py - (ty - min_y) * tile_size) = true ->
  pixel (fold_left (paste_cell fetch_tile min_x min_y zoom tile_size)
                   (flat_map (fun x => map (pair x) (ys1 ++ ty :: ys2)) (xs1 ++ tx :: xs2))
                   img) px py
  = pixel (pasted fetch_tile zoom tile_size (tx, ty)) (px - (tx - min_x) * tile_size) (py - (ty - min_y) * tile_size).
Proof.
  intros Hx Hy Hxs Hys Hin. rewrite cells_split. rewrite fold_paste_last.
  - unfold paste_cell at 1, Image.paste. cbn [pixel fst snd]. rewrite Hin. reflexivity.
  - apply Forall_app. split.
    + apply Forall_map. revert Hys. apply Forall_impl. intros y Hy'.
      apply later_row_untouched with (tile_y := ty); assumption.
    + apply Forall_forall. intros [x y] Hin'. apply in_flat_map in Hin'.
      destruct Hin' as (x' & Hx' & Hin'). apply in_map_iff in Hin'.
      destruct Hin' as (y' & E & _). injection E as <- <-.
      rewrite Forall_forall in Hxs.
      apply later_column_untouched with (tile_x := tx); [assumption | apply Hxs; assumption].
Qed.

Lemma mosaic_pixel (max_x max_y px py : Z) (img : image) :
  0 <= px < (max_x - min_x + 1) * tile_size ->
  0 <= py < (max_y - min_y + 1) * tile_size ->
  let cell := (min_x + px / tile_size, min_y + py / tile_size) in
  Image.inside (pasted fetch_tile zoom tile_size cell) (px mod tile_size) (py mod tile_size) = true ->
  pixel (fold_left (paste_cell fetch_tile min_x min_y zoom tile_size)
                   (flat_map (fun x => map (pair x) (py_range min_y (max_y + 1)))
                             (py_range min_x (max_x + 1))) img) px py
  = pixel (pasted fetch_tile zoom tile_size cell) (px mod tile_size) (py mod tile_size).
Proof.
  intros Hx Hy cell.
  destruct (@cell_of_pixel px min_x ltac:(lia)) as [Hcx Hmx].
  destruct (@cell_of_pixel py min_y ltac:(lia)) as [Hcy Hmy].
  unfold cell.
  set (tx := min_x + px / tile_size) in *. set (ty := min_y + py / tile_size) in *.
  assert (Htx : min_x <= tx < max_x + 1).
  { split; [unfold tx; pose proof (Z.div_pos px tile_size); lia |].
    assert (px / tile_size < max_x - min_x + 1); [| unfold tx; lia].
    apply Z.div_lt_upper_bound; lia. }
  assert (Hty : min_y <= ty < max_y + 1).
  { split; [unfold ty; pose proof (Z.div_pos py tile_size); lia |].
    assert (py / tile_size < max_y - min_y + 1); [| unfold ty; lia].
    apply Z.div_lt_upper_bound; lia. }
  rewrite (@py_range_split min_x (max_x + 1) tx Htx).
  rewrite (@py_range_split min_y (max_y + 1) ty Hty).
  rewrite <- Hmx, <- Hmy. intros Hin.
  apply cells_pixel; try lia; try exact Hin.
  - apply Forall_forall. intros x Hx'. apply in_py_range in Hx'. lia.
  - apply Forall_forall. intros y Hy'. apply in_py_range in Hy'. lia.
Qed.

End Mosaic.


Section MosaicReturns.
Variable fetch_tile : string -> result image.

Lemma stitched_is_fold (min_x min_y max_x max_y : Z) (zoom : N) (tile_size : Z) :
  0 < tile_size -> min_x <= max_x + 1 -> min_y <= max_y + 1 ->
  download_and_stitch_tiles fetch_tile min_x min_y max_x max_y zoom tile_size =
  Ok (fold_left (paste_cell fetch_tile min_x min_y zoom tile_size)
                (flat_map (fun x => map (pair x) (py_range min_y (max_y + 1)))
                          (py_range min_x (max_x + 1)))
                {| dims := {| width := (max_x - min_x + 1) * tile_size;
                              height := (max_y - min_y + 1) * tile_size |};
                   pixel := fun _ _ => (240, 240, 240) |}).
Proof.
  intros Hts Hx Hy. unfold download_and_stitch_tiles, Image.new.
  assert (Hw : 0 <= (max_x - min_x + 1) * tile_size) by (apply Z.mul_nonneg_nonneg; lia).
  assert (Hh : 0 <= (max_y - min_y + 1) * tile_size) by (apply Z.mul_nonneg_nonneg; lia).
  replace ((max_x - min_x + 1) * tile_size <? 0) with false by (symmetry; apply Z.ltb_ge; lia).
  replace ((max_y - min_y + 1) * tile_size <? 0) with false by (symmetry; apply Z.ltb_ge; lia).
  cbn [orb bind].
  rewrite (@foldM_pure _ _ _
             (fun img x => fold_left (fun img y => paste_cell fetch_tile min_x min_y zoom
                                                               tile_size img (x, y))
                                     (py_range min_y (max_y + 1)) img)).
  2: { intros img x. apply foldM_pure. intros a b. apply place_tile_pastes. exact Hts. }
  rewrite (fold_left_cells (paste_cell fetch_tile min_x min_y zoom tile_size)).
  reflexivity.
Qed.


End MosaicReturns.

(** X8.  The mosaic: for a positive tile size and a grid that is not
    negative, the mosaic is produced whatever the tile server does; it has
    one cell of tile_size x tile_size pixels per tile, and each pixel shows
    the tile of its cell at the same offset when that tile was received and
    covers the pixel, and light gray when it was not received. *)
Theorem mosaic_shows_tiles
    (fetch_tile : string -> result image)
    (min_x min_y max_x max_y : Z) (zoom : N) (tile_size : Z) :
  0 < tile_size -> min_x <= max_x + 1 -> min_y <= max_y + 1 ->
  exists img,
    download_and_stitch_tiles fetch_tile min_x min_y max_x max_y zoom tile_size = Ok img /\
    dims img = {| width := (max_x - min_x + 1) * tile_size;
                  height := (max_y - min_y + 1) * tile_size |} /\
    forall px py,
      0 <= px < width (dims img) -> 0 <= py < height (dims img) ->
      match fetch_tile (tile_url zoom (min_x + px / tile_size) (min_y + py / tile_size)) with
      | Ok tile_image =>
          Image.inside tile_image (px mod tile_size) (py mod tile_size) = true ->
          pixel img px py = pixel tile_image (px mod tile_size) (py mod tile_size)
      | Raise _ => pixel img px py = (220, 220, 220)
      end.
Proof.
  intros Hts Hx Hy. eexists. split; [apply stitched_is_fold; assumption |]. split.
  - rewrite fold_paste_size. reflexivity.
  - intros px py. rewrite fold_paste_size. cbn [dims width height]. intros Hpx Hpy.
    pose proof (@mosaic_pixel fetch_tile min_x min_y zoom tile_size Hts max_x max_y px py) as Hm.
    cbv zeta in Hm. unfold pasted in Hm. cbn [fst snd] in Hm.
    destruct (fetch_tile (tile_url zoom (min_x + px / tile_size) (min_y + py / tile_size)))
      as [tile_image | ex].
    + intros Hin. apply Hm; assumption.
    + rewrite Hm; [reflexivity | assumption | assumption |].
      unfold Image.inside, gray_tile. cbn [dims width height].
      pose proof (Z.mod_pos_bound px tile_size Hts).
      pose proof (Z.mod_pos_bound py tile_size Hts).
      repeat (apply andb_true_intro; split); first [apply Z.leb_le | apply Z.ltb_lt]; lia.
Qed.

Lemma mosaic_shows_tiles_witness :
  exists img,
    download_and_stitch_tiles SampleTiles.server 8191 8191 8192 8192 14%N 256 = Ok img /\
    dims img = {| width := 512; height := 512 |}.
Proof.
  destruct (@mosaic_shows_tiles SampleTiles.server 8191 8191 8192 8192 14%N 256)
    as (img & E & D & _).
  - lia.
  - lia.
  - lia.
  - exists img. split; [exact E | exact D].
Defined.

(** X9.  A grid whose maximum lies more than one below its minimum has a
    negative size: the canvas is refused and no tile is asked for. *)
Theorem mosaic_of_negative_grid
    (fetch_tile : string -> result image)
    (min_x min_y max_x max_y : Z) (zoom : N) (tile_size : Z) :
  0 < tile_size -> max_x + 1 < min_x \/ max_y + 1 < min_y ->
  download_and_stitch_tiles fetch_tile min_x min_y max_x max_y zoom tile_size
  = Raise ValueError.
Proof.
  intros Hts H. unfold download_and_stitch_tiles, Image.new.
  replace (((max_x - min_x + 1) * tile_size <? 0) || ((max_y - min_y + 1) * tile_size <? 0))
    with true; [reflexivity |].
  symmetry. apply orb_true_iff. rewrite !Z.ltb_lt.
  destruct H; [left | right]; apply Z.mul_neg_pos; lia.
Qed.

Lemma mosaic_of_negative_grid_witness :
  download_and_stitch_tiles SampleTiles.server 5 0 2 0 14%N 256 = Raise ValueError.
Proof. apply mosaic_of_negative_grid; lia. Defined.


(** ** The texture *)


Section CropImage.


End CropImage.




Section CropPositions.
Local Open Scope R_scope.

Lemma grid_contains_strictly (west south east north : R) (zoom : N) :
  -180 <= west -> -90 < south -> south <= north -> north <= mercator_limit ->
  tile_long_real (IZR (Exact.trunc (long_tile_real west zoom))) zoom <= west /\
  east < tile_long_real (IZR (Exact.trunc (long_tile_real east zoom) + 1)) zoom /\
  tile_lat_real (IZR (Exact.trunc (lat_tile_real south zoom) + 1)) zoom < south /\
  north <= tile_lat_real (IZR (Exact.trunc (lat_tile_real north zoom))) zoom.
Proof.
  intros Hw Hs Hsn Hn. pose proof mercator_limit_lt_90 as Hlim.
  repeat split.
  - rewrite <- (tile_long_of_long_tile west zoom) at 2.
    apply tile_long_increasing. apply trunc_le.
    unfold long_tile_real. pose proof (pow2_pos zoom).
    apply Rmult_le_pos; lra.
  - rewrite <- (tile_long_of_long_tile east zoom) at 1.
    apply tile_long_strict. rewrite plus_IZR. apply trunc_succ_gt.
  - rewrite <- (@tile_lat_of_lat_tile south zoom) at 2 by lra.
    apply tile_lat_strict. rewrite plus_IZR. apply trunc_succ_gt.
  - rewrite <- (@tile_lat_of_lat_tile north zoom) at 1 by lra.
    apply tile_lat_decreasing. apply trunc_le.
    apply lat_tile_nonneg; lra.
Qed.

Lemma position_in_image (lo hi v : R) (n : Z) :
  (0 < n)%Z -> lo <= v -> v < hi ->
  0 <= (v - lo) / (hi - lo) * IZR n < IZR n.
Proof.
  intros Hn H1 H2. assert (Hp : 0 < IZR n) by (apply IZR_lt; exact Hn).
  assert (Hd : 0 < hi - lo) by lra.
  assert (Hq : 0 <= (v - lo) / (hi - lo) < 1).
  { split.
    - apply Rmult_le_pos; [lra | apply Rlt_le, Rinv_0_lt_compat; exact Hd].
    - apply Rmult_lt_reg_r with (hi - lo); [exact Hd |].
      unfold Rdiv. rewrite Rmult_assoc, Rinv_l by lra. lra. }
  split; [apply Rmult_le_pos; lra |].
  rewrite <- (Rmult_1_l (IZR n)) at 2. apply Rmult_lt_compat_r; lra.
Qed.

Lemma position_monotone (lo hi a b : R) (n : Z) :
  (0 < n)%Z -> lo < hi -> a <= b ->
  (a - lo) / (hi - lo) * IZR n <= (b - lo) / (hi - lo) * IZR n.
Proof.
  intros Hn Hd H. assert (Hp : 0 < IZR n) by (apply IZR_lt; exact Hn).
  apply Rmult_le_compat_r; [lra |].
  unfold Rdiv. apply Rmult_le_compat_r; [apply Rlt_le, Rinv_0_lt_compat; lra | lra].
Qed.

End CropPositions.

(** X11.  In exact arithmetic, when the rectangle lies in the range of the
    tile grid (west >= -180, south > -90, north at most the Mercator
    limit), the clamps of the cropper change nothing but the minimal size:
    the left and upper edges of the box are the truncated positions of the
    west and north edges in the mosaic, the right and lower edges those of
    the east and south edges, or one pixel more than left and upper. *)
Theorem crop_follows_rectangle
    (img : image_size) (west south east north : R) (zoom : N) :
  0 < width img -> 0 < height img ->
  (-180 <= west)%R -> (west <= east)%R ->
  (-90 < south)%R -> (south <= north)%R -> (north <= mercator_limit)%R ->
  exists tiles_west tiles_south tiles_east tiles_north,
    tiles_bbox_of (west, south, east, north) zoom
    = Ok (tiles_west, tiles_south, tiles_east, tiles_north) /\
    let column lon :=
      Exact.trunc ((lon - tiles_west) / (tiles_east - tiles_west) * IZR (width img))%R in
    let row lat :=
      Exact.trunc ((tiles_north - lat) / (tiles_north - tiles_south) * IZR (height img))%R in
    crop_image_to_exact_bbox img (west, south, east, north)
                             (tiles_west, tiles_south, tiles_east, tiles_north)
    = Ok (column west, row north,
          Z.max (column west + 1) (column east), Z.max (row north + 1) (row south)) /\
    0 <= column west <= column east /\ column east < width img /\
    0 <= row north <= row south /\ row south < height img.
Proof.
  intros Hw Hh Hwest Hwe Hs Hsn Hn. pose proof mercator_limit_lt_90 as Hlim.
  destruct (@grid_contains_strictly west south east north zoom Hwest Hs Hsn Hn)
    as (Htw & Hte & Hts & Htn).
  eexists. eexists. eexists. eexists.
  split; [apply tiles_bbox_exact; lra |].
  set (tw := tile_long_real (IZR (Exact.trunc (long_tile_real west zoom))) zoom) in *.
  set (te := tile_long_real (IZR (Exact.trunc (long_tile_real east zoom) + 1)) zoom) in *.
  set (ts := tile_lat_real (IZR (Exact.trunc (lat_tile_real south zoom) + 1)) zoom) in *.
  set (tn := tile_lat_real (IZR (Exact.trunc (lat_tile_real north zoom))) zoom) in *.
  cbv zeta.
  pose proof (@position_in_image tw te west (width img) Hw Htw ltac:(lra)) as [Pw0 Pw1].
  pose proof (@position_in_image tw te east (width img) Hw ltac:(lra) Hte) as [Pe0 Pe1].
  pose proof (@position_monotone tw te west east (width img) Hw ltac:(lra) Hwe) as Pwe.
  assert (Qn : (0 <= (tn - north) / (tn - ts) * IZR (height img) < IZR (height img))%R).
  { replace ((tn - north) / (tn - ts))%R with ((- north - - tn) / (- ts - - tn))%R
      by (field; lra).
    apply position_in_image; [exact Hh | lra | lra]. }
  assert (Qs : (0 <= (tn - south) / (tn - ts) * IZR (height img) < IZR (height img))%R).
  { replace ((tn - south) / (tn - ts))%R with ((- south - - tn) / (- ts - - tn))%R
      by (field; lra).
    apply position_in_image; [exact Hh | lra | lra]. }
  assert (Qns : ((tn - north) / (tn - ts) * IZR (height img)
                 <= (tn - south) / (tn - ts) * IZR (height img))%R).
  { replace ((tn - north) / (tn - ts))%R with ((- north - - tn) / (- ts - - tn))%R
      by (field; lra).
    replace ((tn - south) / (tn - ts))%R with ((- south - - tn) / (- ts - - tn))%R
      by (field; lra).
    apply position_monotone; [exact Hh | lra | lra]. }
  destruct Qn as [Qn0 Qn1]. destruct Qs as [Qs0 Qs1].
  pose proof (trunc_nonneg Pw0) as A1. pose proof (@trunc_below _ _ Pe0 Pe1) as A2.
  pose proof (trunc_monotone Pwe) as A3.
  pose proof (trunc_nonneg Qn0) as B1. pose proof (@trunc_below _ _ Qs0 Qs1) as B2.
  pose proof (trunc_monotone Qns) as B3.
  split; [| lia].
  unfold crop_image_to_exact_bbox.
  repeat (first [rewrite exact_div by (simpl; lra) | rewrite exact_scale]; cbn [bind]).
  simpl fsub. f_equal.
  repeat match goal with
  | |- (_, _) = (_, _) => f_equal
  end; lia.
Qed.

Lemma crop_follows_rectangle_witness :
  exists tiles box,
    tiles_bbox_of (-1, -1, 0, 0)%R 14%N = Ok tiles /\
    crop_image_to_exact_bbox {| width := 512; height := 512 |} (-1, -1, 0, 0)%R tiles
    = Ok box.
Proof.
  pose proof mercator_limit_pos.
  destruct (@crop_follows_rectangle {| width := 512; height := 512 |}
              (-1)%R (-1)%R 0%R 0%R 14%N)
    as (tw & ts & te & tn & E & C & _).
  - reflexivity.
  - reflexivity.
  - lra.
  - lra.
  - lra.
  - lra.
  - lra.
  - eexists. eexists. split; [exact E | exact C].
Defined.

Section Columns.
Local Open Scope R_scope.

Lemma trunc_gap (a b : R) : a <= b -> IZR (Exact.trunc b - Exact.trunc a) < b - a + 1.
Proof.
  intros H. rewrite minus_IZR. unfold Exact.trunc.
  destruct (Rle_dec 0 a) as [Ha | Ha], (Rle_dec 0 b) as [Hb | Hb].
  - pose proof (Int_part_bounds a). pose proof (Int_part_bounds b). lra.
  - lra.
  - rewrite opp_IZR. pose proof (Int_part_bounds (- a)). pose proof (Int_part_bounds b). lra.
  - rewrite !opp_IZR. pose proof (Int_part_bounds (- a)). pose proof (Int_part_bounds (- b)).
    lra.
Qed.

End Columns.

(** X12.  In exact arithmetic, a rectangle at most 0.01 degrees wide and
    high gets a zoom at which its tiles lie in one column or in two
    neighbouring columns: the thresholds of the zoom keep the mosaic at
    most two tiles wide. *)
Theorem small_rectangle_two_columns (west south east north : R) :
  (0 <= east - west <= 1 / 100)%R -> (north - south <= 1 / 100)%R ->
  exists min_x max_x,
    long2tile west (choose_zoom (west, south, east, north)) = Ok min_x /\
    long2tile east (choose_zoom (west, south, east, north)) = Ok max_x /\
    (15 <= choose_zoom (west, south, east, north))%N /\
    0 <= max_x - min_x <= 1.
Proof.
  intros [Hw0 Hw1] Hh.
  set (zoom := choose_zoom (west, south, east, north)).
  exists (Exact.trunc (long_tile_real west zoom)), (Exact.trunc (long_tile_real east zoom)).
  split; [apply long2tile_exact |]. split; [apply long2tile_exact |].
  assert (Hle : (long_tile_real west zoom <= long_tile_real east zoom)%R)
    by (apply long_tile_increasing; lra).
  pose proof (trunc_monotone Hle) as Hm.
  pose proof (trunc_gap Hle) as Hg.
  assert (Hz : (15 <= zoom)%N /\
               (long_tile_real east zoom - long_tile_real west zoom < 1)%R).
  { unfold zoom, choose_zoom, py_max, fgtb. simpl. unfold Exact.ltb, Q2R. simpl.
    unfold long_tile_real.
    destruct (Rlt_dec (east - west) (north - south));
      repeat match goal with
             | |- context [Rlt_dec ?a ?b] => destruct (Rlt_dec a b)
             end; try (exfalso; lra); (split; [lia |]); simpl; lra. }
  destruct Hz as [Hz Hd]. split; [exact Hz |].
  split; [lia |].
  assert (IZR (Exact.trunc (long_tile_real east zoom)
               - Exact.trunc (long_tile_real west zoom)) < 2)%R by lra.
  apply lt_IZR in H. lia.
Qed.

Lemma small_rectangle_two_columns_witness :
  exists min_x max_x,
    long2tile 0%R (choose_zoom (0, 0, 1 / 100, 1 / 100)%R) = Ok min_x /\
    long2tile (1 / 100)%R (choose_zoom (0, 0, 1 / 100, 1 / 100)%R) = Ok max_x /\
    (15 <= choose_zoom (0, 0, 1 / 100, 1 / 100)%R)%N /\
    0 <= max_x - min_x <= 1.
Proof.
  apply (@small_rectangle_two_columns 0%R 0%R (1 / 100)%R (1 / 100)%R); lra.
Defined.


(** ** The ground rectangle *)

(** X13.  The ground is a rectangle with its sides along the axes: its
    four vertices are (x_west, y_south), (x_east, y_south), (x_east,
    y_north) and (x_west, y_north), all at z = -0.1. *)
Theorem ground_plane_axis_aligned
    (F : Type) (PF : PyFloat F) (LM : Libm F)
    (b : @bbox F) (path : string) (lines : list (obj_line F)) (n : Z) :
  create_perfect_ground_plane b path = Ok (lines, n) ->
  exists x_west x_east y_south y_north,
    vertices lines =
      [(x_west, y_south, flit (-1 # 10)); (x_east, y_south, flit (-1 # 10));
       (x_east, y_north, flit (-1 # 10)); (x_west, y_north, flit (-1 # 10))].
Proof.
  destruct b as [[[west south] east] north]. intros H.
  destruct (@ground_plane_lines F PF LM west south east north path lines n H)
    as (olat & olon & sw & se & ne & nw & _ & Hsw & Hse & Hne & Hnw & Hv & _).
  unfold lat_lon_to_meters in Hsw, Hse, Hne, Hnw.
  destruct (math_cos (math_radians olat)) as [c |]; [| discriminate].
  cbn [bind] in *.
  injection Hsw as <-. injection Hse as <-. injection Hne as <-. injection Hnw as <-.
  cbn [fst snd] in Hv. eauto.
Qed.

Lemma ground_plane_axis_aligned_witness :
  exists lines x_west x_east y_south y_north,
    create_perfect_ground_plane (0, 0, 1, 1)%R "perfect_map.png" = Ok (lines, 4) /\
    vertices lines =
      [(x_west, y_south, flit (-1 # 10)); (x_east, y_south, flit (-1 # 10));
       (x_east, y_north, flit (-1 # 10)); (x_west, y_north, flit (-1 # 10))].
Proof.
  destruct (exact_ground_plane (0, 0, 1, 1)%R "perfect_map.png") as [lines E].
  destruct (@ground_plane_axis_aligned R exact exact_libm _ _ _ _ E)
    as (xw & xe & ys & yn & V).
  exists lines, xw, xe, ys, yn. split; [exact E | exact V].
Defined.

Section GroundRectangle.
Local Open Scope R_scope.

Lemma exact_projection (lat lon olat olon : R) :
  lat_lon_to_meters lat lon olat olon =
  Ok (6378137 * ((lon - olon) * (PI / 180)) * cos (olat * (PI / 180)),
      6378137 * ((lat - olat) * (PI / 180))).
Proof.
  unfold lat_lon_to_meters, math_radians. simpl. rewrite !Q2R_Z.
  f_equal. f_equal; ring.
Qed.

Lemma exact_origin_of (west south east north : R) :
  origin_of (west, south, east, north) = Ok ((south + north) / 2, (west + east) / 2).
Proof.
  unfold origin_of.
  assert (H2 : flit (F := R) 2 <> 0) by (simpl; rewrite Q2R_Z; lra).
  rewrite !exact_div by exact H2. simpl. rewrite !Q2R_Z. reflexivity.
Qed.

(** X14.  In exact arithmetic, for a rectangle between the poles with west
    <= east and south <= north, the ground is centred on the origin: its
    vertices are (-hx, -hy), (hx, -hy), (hx, hy), (-hx, hy) with hx and hy
    not negative, the centre of the rectangle is projected to (0, 0), and
    every point of the rectangle is projected onto the ground. *)
Theorem footprints_on_ground (west south east north : R) (path : string) :
  west <= east -> -90 <= south -> south <= north -> north <= 90 ->
  let hx := half_width west south east north in
  let hy := half_height south north in
  0 <= hx /\ 0 <= hy /\
  exists lines olat olon,
    create_perfect_ground_plane (west, south, east, north) path = Ok (lines, 4%Z) /\
    origin_of (west, south, east, north) = Ok (olat, olon) /\
    vertices lines =
      [(- hx, - hy, flit (-1 # 10)); (hx, - hy, flit (-1 # 10));
       (hx, hy, flit (-1 # 10)); (- hx, hy, flit (-1 # 10))] /\
    lat_lon_to_meters olat olon olat olon = Ok (0, 0) /\
    forall lat lon,
      west <= lon <= east -> south <= lat <= north ->
      exists x y,
        lat_lon_to_meters lat lon olat olon = Ok (x, y) /\
        - hx <= x <= hx /\ - hy <= y <= hy.
Proof.
  intros Hwe Hs Hsn Hn hx hy. pose proof PI_RGT_0 as Hpi.
  assert (Hc : 0 <= cos ((south + north) / 2 * (PI / 180))).
  { apply cos_ge_0.
    - replace (- (PI / 2)) with (-90 * (PI / 180)) by field.
      apply Rmult_le_compat_r; [apply Rlt_le, Rdiv_lt_0_compat; lra | lra].
    - replace (PI / 2) with (90 * (PI / 180)) by field.
      apply Rmult_le_compat_r; [apply Rlt_le, Rdiv_lt_0_compat; lra | lra]. }
  assert (Hk : 0 < PI / 180) by (apply Rdiv_lt_0_compat; lra).
  assert (Hx : 0 <= hx).
  { unfold hx, half_width. apply Rmult_le_pos; [| exact Hc].
    apply Rmult_le_pos; [lra |]. apply Rmult_le_pos; lra. }
  assert (Hy : 0 <= hy).
  { unfold hy, half_height. apply Rmult_le_pos; [lra |]. apply Rmult_le_pos; lra. }
  split; [exact Hx |]. split; [exact Hy |].
  destruct (exact_ground_plane (west, south, east, north) path) as [lines Hg].
  exists lines, ((south + north) / 2), ((west + east) / 2).
  split; [exact Hg |]. split; [apply exact_origin_of |].
  destruct (@ground_plane_lines R exact exact_libm west south east north path lines 4%Z Hg)
    as (olat & olon & sw & se & ne & nw & Ho & Hsw & Hse & Hne & Hnw & Hv & _).
  rewrite exact_origin_of in Ho. injection Ho as <- <-.
  rewrite exact_projection in Hsw, Hse, Hne, Hnw.
  injection Hsw as <-. injection Hse as <-. injection Hne as <-. injection Hnw as <-.
  cbn [fst snd] in Hv.
  split.
  { rewrite Hv. unfold hx, hy, half_width, half_height.
    replace (west - (west + east) / 2) with (- ((east - west) / 2)) by field.
    replace (east - (west + east) / 2) with ((east - west) / 2) by field.
    replace (south - (south + north) / 2) with (- ((north - south) / 2)) by field.
    replace (north - (south + north) / 2) with ((north - south) / 2) by field.
    repeat match goal with
    | |- context [6378137 * (- ?a * ?k) * ?c] =>
        replace (6378137 * (- a * k) * c) with (- (6378137 * (a * k) * c)) by ring
    | |- context [6378137 * (- ?a * ?k)] =>
        replace (6378137 * (- a * k)) with (- (6378137 * (a * k))) by ring
    end.
    reflexivity. }
  split.
  { rewrite exact_projection. f_equal. f_equal; ring. }
  intros lat lon [Hl1 Hl2] [Ha1 Ha2].
  eexists. eexists. split; [apply exact_projection |].
  unfold hx, hy, half_width, half_height.
  set (c := cos ((south + north) / 2 * (PI / 180))) in *.
  set (k := PI / 180) in *.
  assert (Hm : 0 <= 6378137 * k * c).
  { apply Rmult_le_pos; [| exact Hc]. apply Rmult_le_pos; lra. }
  assert (Hm' : 0 <= 6378137 * k) by (apply Rmult_le_pos; lra).
  assert (Hd1 : - ((east - west) / 2) <= lon - (west + east) / 2) by lra.
  assert (Hd2 : lon - (west + east) / 2 <= (east - west) / 2) by lra.
  assert (He1 : - ((north - south) / 2) <= lat - (south + north) / 2) by lra.
  assert (He2 : lat - (south + north) / 2 <= (north - south) / 2) by lra.
  pose proof (Rmult_le_compat_r _ _ _ Hm Hd1).
  pose proof (Rmult_le_compat_r _ _ _ Hm Hd2).
  pose proof (Rmult_le_compat_r _ _ _ Hm' He1).
  pose proof (Rmult_le_compat_r _ _ _ Hm' He2).
  split; split; lra.
Qed.

Lemma footprints_on_ground_witness :
  (0 <= half_width 0 0 1 1)%R /\ (0 <= half_height 0 1)%R.
Proof.
  destruct (@footprints_on_ground 0%R 0%R 1%R 1%R "perfect_map.png"%string)
    as (H1 & H2 & _).
  - lra.
  - lra.
  - lra.
  - lra.
  - split; assumption.
Defined.

End GroundRectangle.

Section GroundFaces.
Local Open Scope R_scope.

Lemma half_sizes_pos (west south east north : R) :
  west < east -> -90 < south -> south < north -> north < 90 ->
  0 < half_width west south east north /\ 0 < half_height south north.
Proof.
  intros Hwe Hs Hsn Hn. pose proof PI_RGT_0 as Hpi.
  assert (Hk : 0 < PI / 180) by (apply Rdiv_lt_0_compat; lra).
  assert (Hc : 0 < cos ((south + north) / 2 * (PI / 180))).
  { apply cos_gt_0.
    - replace (- (PI / 2)) with (-90 * (PI / 180)) by field.
      apply Rmult_lt_compat_r; lra.
    - replace (PI / 2) with (90 * (PI / 180)) by field.
      apply Rmult_lt_compat_r; lra. }
  unfold half_width, half_height. split.
  - apply Rmult_lt_0_compat; [| exact Hc].
    apply Rmult_lt_0_compat; [lra |]. apply Rmult_lt_0_compat; lra.
  - apply Rmult_lt_0_compat; [lra |]. apply Rmult_lt_0_compat; lra.
Qed.

End GroundFaces.

(** X15.  In exact arithmetic, for a rectangle with west < east and south <
    north between the poles, both triangles of the ground turn
    counter-clockwise seen from above: the textured side of the ground
    faces up. *)
Theorem ground_faces_upward (west south east north : R) (path : string) :
  (west < east)%R -> (-90 < south)%R -> (south < north)%R -> (north < 90)%R ->
  exists lines v1 v2 v3 v4,
    create_perfect_ground_plane (west, south, east, north) path = Ok (lines, 4) /\
    map fst (vertices lines) = [v1; v2; v3; v4] /\
    map corner_vertices (faces lines) = [[1; 2; 3]; [1; 3; 4]] /\
    (0 < turn v1 v2 v3)%R /\ (0 < turn v1 v3 v4)%R.
Proof.
  intros Hwe Hs Hsn Hn.
  destruct (@half_sizes_pos west south east north Hwe Hs Hsn Hn) as [Hx Hy].
  destruct (exact_ground_plane (west, south, east, north) path) as [lines Hg].
  destruct (@ground_plane_lines R exact exact_libm west south east north path lines 4%Z Hg)
    as (olat & olon & sw & se & ne & nw & Ho & Hsw & Hse & Hne & Hnw & Hv & _ & Hf & _).
  rewrite exact_origin_of in Ho. injection Ho as <- <-.
  rewrite exact_projection in Hsw, Hse, Hne, Hnw.
  injection Hsw as <-. injection Hse as <-. injection Hne as <-. injection Hnw as <-.
  cbn [fst snd] in Hv.
  eexists lines, _, _, _, _. split; [exact Hg |].
  split; [rewrite Hv; reflexivity |]. split; [rewrite Hf; reflexivity |].
  unfold turn, half_width, half_height in *. cbn [fst snd].
  set (c := cos ((south + north) / 2 * (PI / 180))) in *.
  set (k := (PI / 180)%R) in *.
  replace ((6378137 * ((east - (west + east) / 2) * k) * c -
            6378137 * ((west - (west + east) / 2) * k) * c) *
           (6378137 * ((north - (south + north) / 2) * k) -
            6378137 * ((south - (south + north) / 2) * k)) -
           (6378137 * ((east - (west + east) / 2) * k) * c -
            6378137 * ((west - (west + east) / 2) * k) * c) *
           (6378137 * ((south - (south + north) / 2) * k) -
            6378137 * ((south - (south + north) / 2) * k)))%R
    with (4 * (6378137 * ((east - west) / 2 * k) * c)
            * (6378137 * ((north - south) / 2 * k)))%R by field.
  replace ((6378137 * ((east - (west + east) / 2) * k) * c -
            6378137 * ((west - (west + east) / 2) * k) * c) *
           (6378137 * ((north - (south + north) / 2) * k) -
            6378137 * ((south - (south + north) / 2) * k)) -
           (6378137 * ((west - (west + east) / 2) * k) * c -
            6378137 * ((west - (west + east) / 2) * k) * c) *
           (6378137 * ((north - (south + north) / 2) * k) -
            6378137 * ((south - (south + north) / 2) * k)))%R
    with (4 * (6378137 * ((east - west) / 2 * k) * c)
            * (6378137 * ((north - south) / 2 * k)))%R by field.
  assert (0 < 4 * (6378137 * ((east - west) / 2 * k) * c)
                * (6378137 * ((north - south) / 2 * k)))%R.
  { apply Rmult_lt_0_compat; [| exact Hy]. apply Rmult_lt_0_compat; [lra | exact Hx]. }
  split; assumption.
Qed.

Lemma ground_faces_upward_witness :
  exists lines v1 v2 v3 v4,
    create_perfect_ground_plane (0, 0, 1, 1)%R "perfect_map.png" = Ok (lines, 4) /\
    map fst (vertices lines) = [v1; v2; v3; v4] /\
    map corner_vertices (faces lines) = [[1; 2; 3]; [1; 3; 4]] /\
    (0 < turn v1 v2 v3)%R /\ (0 < turn v1 v3 v4)%R.
Proof. apply (@ground_faces_upward 0%R 0%R 1%R 1%R "perfect_map.png"%string); lra. Defined.


(** ** The surface of a building *)


Section Orientation.

Lemma in_cyclic_edges (l : list Z) (a b : Z) :
  In (a, b) (cyclic_edges l) <->
  exists i, (i < List.length l)%nat /\
            a = nth i l 0 /\ b = nth ((i + 1) mod List.length l) l 0.
Proof.
  unfold cyclic_edges. rewrite in_map_iff. split.
  - intros (i & E & Hi). apply in_seq in Hi. injection E as <- <-.
    exists i. split; [lia | auto].
  - intros (i & Hi & -> & ->). exists i. split; [reflexivity |].
    apply in_seq. lia.
Qed.

Lemma succ_mod (n i : nat) :
  (i < n)%nat -> ((i + 1) mod n = if (i + 1 =? n)%nat then 0 else i + 1)%nat.
Proof.
  intros H. destruct (Nat.eqb_spec (i + 1) n) as [E | E].
  - rewrite E. apply Nat.Div0.mod_same.
  - apply Nat.mod_small. lia.
Qed.

Lemma nth_rev_map_seq (f : nat -> Z) (n i : nat) :
  (i < n)%nat -> nth i (rev (map f (seq 0 n))) 0 = f (n - 1 - i)%nat.
Proof.
  intros H. rewrite rev_nth by (rewrite length_map, length_seq; exact H).
  rewrite length_map, length_seq. rewrite nth_map_seq by lia. f_equal. lia.
Qed.

Lemma edges_forward (f : nat -> Z) (n : nat) (a b : Z) :
  In (a, b) (cyclic_edges (map f (seq 0 n))) <->
  exists i, (i < n)%nat /\ a = f i /\ b = f ((i + 1) mod n)%nat.
Proof.
  rewrite in_cyclic_edges, length_map, length_seq. split.
  - intros (i & Hi & -> & ->). exists i. split; [exact Hi |].
    assert (Hm : ((i + 1) mod n < n)%nat) by (apply Nat.mod_upper_bound; lia).
    rewrite !nth_map_seq by assumption. auto.
  - intros (i & Hi & -> & ->). exists i. split; [exact Hi |].
    assert (Hm : ((i + 1) mod n < n)%nat) by (apply Nat.mod_upper_bound; lia).
    rewrite !nth_map_seq by assumption. auto.
Qed.

Lemma edges_backward (f : nat -> Z) (n : nat) (a b : Z) :
  In (a, b) (cyclic_edges (rev (map f (seq 0 n)))) <->
  exists i, (i < n)%nat /\ a = f ((i + 1) mod n)%nat /\ b = f i.
Proof.
  rewrite in_cyclic_edges, length_rev, length_map, length_seq. split.
  - intros (i & Hi & -> & ->).
    assert (Hm : ((i + 1) mod n < n)%nat) by (apply Nat.mod_upper_bound; lia).
    rewrite !nth_rev_map_seq by assumption.
    exists (n - 1 - (i + 1) mod n)%nat. split; [lia |].
    split; [| reflexivity]. f_equal.
    rewrite (succ_mod Hi) in *.
    destruct (Nat.eqb_spec (i + 1) n) as [E | E].
    + rewrite succ_mod by lia. replace (n - 1 - 0 + 1 =? n)%nat with true
        by (symmetry; apply Nat.eqb_eq; lia). lia.
    + rewrite succ_mod by lia. replace (n - 1 - (i + 1) + 1 =? n)%nat with false
        by (symmetry; apply Nat.eqb_neq; lia). lia.
  - intros (i & Hi & -> & ->).
    assert (Hm : ((i + 1) mod n < n)%nat) by (apply Nat.mod_upper_bound; lia).
    exists (n - 1 - (i + 1) mod n)%nat.
    assert (Hk : (n - 1 - (i + 1) mod n < n)%nat) by lia.
    split; [exact Hk |].
    assert (Hm' : (((n - 1 - (i + 1) mod n) + 1) mod n < n)%nat)
      by (apply Nat.mod_upper_bound; lia).
    rewrite !nth_rev_map_seq by assumption.
    split; f_equal; [lia |].
    rewrite (succ_mod Hi) in *.
    destruct (Nat.eqb_spec (i + 1) n) as [E | E].
    + rewrite succ_mod by lia. replace (n - 1 - 0 + 1 =? n)%nat with true
        by (symmetry; apply Nat.eqb_eq; lia). lia.
    + rewrite succ_mod by lia. replace (n - 1 - (i + 1) + 1 =? n)%nat with false
        by (symmetry; apply Nat.eqb_neq; lia). lia.
Qed.

Lemma edges_wall (count : Z) (n j : nat) (a b : Z) :
  In (a, b) (cyclic_edges (wall_indices count n j)) <->
  (a, b) = (base_index count j, base_index count ((j + 1) mod n)) \/
  (a, b) = (base_index count ((j + 1) mod n), top_index count ((j + 1) mod n)) \/
  (a, b) = (top_index count ((j + 1) mod n), top_index count j) \/
  (a, b) = (top_index count j, base_index count j).
Proof.
  unfold cyclic_edges, wall_indices. cbn [List.length seq map In].
  change ((0 + 1) mod 4)%nat with 1%nat. change ((1 + 1) mod 4)%nat with 2%nat.
  change ((2 + 1) mod 4)%nat with 3%nat. change ((3 + 1) mod 4)%nat with 0%nat.
  cbn [nth]. intuition congruence.
Qed.

Lemma pred_mod (n j : nat) :
  (j < n)%nat ->
  exists m, (m < n)%nat /\ ((m + 1) mod n)%nat = j.
Proof.
  intros H. destruct j as [| j].
  - exists (n - 1)%nat. split; [lia |].
    replace (n - 1 + 1)%nat with n by lia. apply Nat.Div0.mod_same.
  - exists j. split; [lia |]. rewrite Nat.mod_small; lia.
Qed.

Lemma building_faces_closed (count : Z) (n : nat) (f : list Z) (a b : Z) :
  In f (building_faces count n) -> In (a, b) (cyclic_edges f) ->
  exists g, In g (building_faces count n) /\ In (b, a) (cyclic_edges g).
Proof.
  unfold building_faces. intros [<- | [<- | Hf]] He.
  - (* an edge of the bottom face lies on a wall *)
    apply edges_backward in He.
    destruct He as (i & Hi & -> & ->).
    exists (wall_indices count n i). split.
    + right. right. apply in_map. apply in_seq. lia.
    + apply edges_wall. left. reflexivity.
  - (* an edge of the top face lies on a wall *)
    apply edges_forward in He. destruct He as (i & Hi & -> & ->).
    exists (wall_indices count n i). split.
    + right. right. apply in_map. apply in_seq. lia.
    + apply edges_wall. right. right. left. reflexivity.
  - apply in_map_iff in Hf. destruct Hf as (j & <- & Hj). apply in_seq in Hj.
    assert (Hjn : (j < n)%nat) by lia.
    assert (Hm : ((j + 1) mod n < n)%nat) by (apply Nat.mod_upper_bound; lia).
    apply edges_wall in He.
    destruct He as [E | [E | [E | E]]]; injection E as -> ->.
    + eexists. split; [left; reflexivity |].
      apply edges_backward. exists j. auto.
    + exists (wall_indices count n ((j + 1) mod n)). split.
      * right. right. apply in_map. apply in_seq. lia.
      * apply edges_wall. right. right. right. reflexivity.
    + eexists. split; [right; left; reflexivity |].
      apply edges_forward. exists j. auto.
    + destruct (pred_mod Hjn) as (m & Hmn & Em).
      exists (wall_indices count n m). split.
      * right. right. apply in_map. apply in_seq. lia.
      * apply edges_wall. right. left. rewrite Em. reflexivity.
Qed.

End Orientation.

Section Prism.
Context {F : Type} {PF : PyFloat F}.

Lemma corner_vertices_plain (l : list Z) :
  corner_vertices (map (fun v => (v, @None Z)) l) = l.
Proof.
  unfold corner_vertices. rewrite map_map. cbn [fst]. apply map_id.
Qed.

Lemma emitted_faces (st : @builder F) (ring : list (F * F)) (height : F) :
  exists new_lines,
    obj_lines (emit_building st ring height) = obj_lines st ++ new_lines /\
    map corner_vertices (faces new_lines) =
      building_faces (vertex_count st) (List.length ring).
Proof.
  exists (building_lines (vertex_count st) (building_count st + 1) ring height).
  split; [rewrite emit_building_lines; reflexivity |].
  rewrite building_lines_faces, map_map.
  rewrite (map_ext _ (fun l => l) corner_vertices_plain). apply map_id.
Qed.

Lemma base_index_inj (count : Z) : Injective (base_index count).
Proof. intros i j H. unfold base_index in H. lia. Qed.

Lemma top_index_inj (count : Z) : Injective (top_index count).
Proof. intros i j H. unfold top_index in H. lia. Qed.

Lemma building_faces_distinct (count : Z) (n : nat) :
  (2 <= n)%nat -> Forall (@NoDup Z) (building_faces count n).
Proof.
  intros Hn. unfold building_faces. repeat apply Forall_cons.
  - apply NoDup_rev. apply Injective_map_NoDup; [apply base_index_inj | apply seq_NoDup].
  - apply Injective_map_NoDup; [apply top_index_inj | apply seq_NoDup].
  - apply Forall_map. apply Forall_forall. intros i Hi. apply in_seq in Hi.
    assert (Hm : ((i + 1) mod n <> i)%nat).
    { rewrite succ_mod by lia. destruct (Nat.eqb_spec (i + 1) n); lia. }
    unfold wall_indices, base_index, top_index.
    repeat constructor; cbn [In]; lia.
Qed.

Lemma building_faces_own (count : Z) (n : nat) :
  Forall (Forall (fun v => count < v <= count + 2 * Z.of_nat n)) (building_faces count n).
Proof.
  unfold building_faces.
  assert (Hb : forall i, (i < n)%nat -> count < base_index count i <= count + 2 * Z.of_nat n)
    by (intros i Hi; unfold base_index; lia).
  assert (Ht : forall i, (i < n)%nat -> count < top_index count i <= count + 2 * Z.of_nat n)
    by (intros i Hi; unfold top_index; lia).
  repeat apply Forall_cons.
  - apply Forall_rev. apply Forall_map. apply Forall_forall.
    intros i Hi. apply in_seq in Hi. apply Hb. lia.
  - apply Forall_map. apply Forall_forall.
    intros i Hi. apply in_seq in Hi. apply Ht. lia.
  - apply Forall_map. apply Forall_forall.
    intros i Hi. apply in_seq in Hi.
    assert (Hm : ((i + 1) mod n < n)%nat) by (apply Nat.mod_upper_bound; lia).
    unfold wall_indices. repeat apply Forall_cons; auto; try (apply Hb; lia); apply Ht; lia.
Qed.

Lemma building_faces_use (count : Z) (n : nat) (v : Z) :
  count < v <= count + 2 * Z.of_nat n ->
  exists f, In f (building_faces count n) /\ In v f.
Proof.
  intros Hv. unfold building_faces.
  destruct (Z.even (v - count)) eqn:E.
  - apply Z.even_spec in E. destruct E as [k Hk].
    exists (map (top_index count) (seq 0 n)). split; [right; left; reflexivity |].
    apply in_map_iff. exists (Z.to_nat (k - 1)). split.
    + unfold top_index. lia.
    + apply in_seq. lia.
  - assert (O : Z.odd (v - count) = true) by (rewrite <- Z.negb_even, E; reflexivity).
    apply Z.odd_spec in O. destruct O as [k Hk].
    exists (rev (map (base_index count) (seq 0 n))). split; [left; reflexivity |].
    apply in_rev. rewrite rev_involutive.
    apply in_map_iff. exists (Z.to_nat k). split.
    + unfold base_index. lia.
    + apply in_seq. lia.
Qed.

End Prism.

(** X16.  Every building is a closed, consistently oriented surface: each
    edge of each of its faces is run through in the opposite direction by
    a face of the same building (a wall against the floor, the roof or the
    next wall). *)
Theorem building_surface_closed
    (F : Type) (PF : PyFloat F) (st : @builder F) (ring : list (F * F)) (height : F) :
  exists new_lines,
    obj_lines (emit_building st ring height) = obj_lines st ++ new_lines /\
    forall f a b,
      In f (faces new_lines) -> In (a, b) (cyclic_edges (corner_vertices f)) ->
      exists g, In g (faces new_lines) /\ In (b, a) (cyclic_edges (corner_vertices g)).
Proof.
  destruct (emitted_faces st ring height) as (new_lines & Hl & Hf).
  exists new_lines. split; [exact Hl |].
  intros f a b Hin He.
  assert (Hin' : In (corner_vertices f) (building_faces (vertex_count st) (List.length ring)))
    by (rewrite <- Hf; apply in_map; exact Hin).
  destruct (@building_faces_closed _ _ _ _ _ Hin' He) as (g & Hg & Hge).
  rewrite <- Hf in Hg. apply in_map_iff in Hg. destruct Hg as (g' & <- & Hg').
  exists g'. auto.
Qed.

(** X17.  The faces of a building of at least two ring vertices have
    pairwise distinct corners; they refer to the 2n vertices of that
    building only, and to every one of them. *)
Theorem building_faces_own_vertices
    (F : Type) (PF : PyFloat F) (st : @builder F) (ring : list (F * F)) (height : F) :
  (2 <= List.length ring)%nat ->
  exists new_lines,
    obj_lines (emit_building st ring height) = obj_lines st ++ new_lines /\
    Forall (fun f =>
              NoDup (corner_vertices f) /\
              Forall (fun v => vertex_count st < v
                               <= vertex_count st + 2 * Z.of_nat (List.length ring))
                     (corner_vertices f))
           (faces new_lines) /\
    forall v,
      vertex_count st < v <= vertex_count st + 2 * Z.of_nat (List.length ring) ->
      exists f, In f (faces new_lines) /\ In v (corner_vertices f).
Proof.
  intros Hn. destruct (emitted_faces st ring height) as (new_lines & Hl & Hf).
  exists new_lines. split; [exact Hl |]. split.
  - pose proof (@building_faces_distinct (vertex_count st) _ Hn) as Hd.
    pose proof (building_faces_own (vertex_count st) (List.length ring)) as Ho.
    rewrite <- Hf in Hd, Ho. rewrite Forall_map in Hd, Ho.
    rewrite Forall_forall in *. intros f Hin. split; [apply Hd | apply Ho]; exact Hin.
  - intros v Hv. destruct (@building_faces_use _ _ _ Hv) as (f & Hin & Hvf).
    rewrite <- Hf in Hin. apply in_map_iff in Hin. destruct Hin as (f' & <- & Hin).
    exists f'. auto.
Qed.

Lemma building_faces_own_vertices_witness :
  exists new_lines,
    obj_lines (emit_building (@initial_builder R) [(0, 0); (4, 0); (0, 3)]%R 10%R)
    = obj_lines (@initial_builder R) ++ new_lines /\
    Forall (fun f => NoDup (corner_vertices f)) (faces new_lines).
Proof.
  destruct (@building_faces_own_vertices R exact (@initial_builder R)
              [(0, 0); (4, 0); (0, 3)]%R 10%R) as (new_lines & E & H & _).
  - cbn [List.length]. lia.
  - exists new_lines. split; [exact E |].
    revert H. apply Forall_impl. intros f [Hf _]. exact Hf.
Defined.


Section Manifold.

Lemma succ_mod_cases (n i : nat) :
  (i < n)%nat ->
  exists s, ((i + 1) mod n)%nat = s /\
            ((s = 0 /\ i + 1 = n) \/ (s = i + 1 /\ i + 1 < n))%nat.
Proof.
  intros H. exists ((i + 1) mod n)%nat. split; [reflexivity |].
  rewrite succ_mod by exact H. destruct (Nat.eqb_spec (i + 1) n); lia.
Qed.

Lemma NoDup_flat_map (A B : Type) (g : A -> list B) (l : list A) :
  NoDup l -> (forall x, In x l -> NoDup (g x)) ->
  (forall x y b, In x l -> In y l -> x <> y -> In b (g x) -> ~ In b (g y)) ->
  NoDup (flat_map g l).
Proof.
  induction 1 as [| x l Hx Hl IH]; intros Hg Hd; [constructor |].
  cbn [flat_map]. apply NoDup_app.
  - apply Hg. left. reflexivity.
  - apply IH.
    + intros y Hy. apply Hg. right. exact Hy.
    + intros y z b Hy Hz. apply Hd; right; assumption.
  - intros b Hb Hb'. apply in_flat_map in Hb'. destruct Hb' as (y & Hy & Hby).
    apply (Hd x y b); [left; reflexivity | right; exact Hy | | exact Hb | exact Hby].
    intros ->. contradiction.
Qed.

Lemma cyclic_edges_NoDup (l : list Z) : NoDup l -> NoDup (cyclic_edges l).
Proof.
  intros H. unfold cyclic_edges. apply Injective_map_NoDup_in; [| apply seq_NoDup].
  intros i j Hi Hj E. apply in_seq in Hi, Hj. injection E as E _.
  rewrite (NoDup_nth l 0) in H. apply H; [lia | lia | exact E].
Qed.

Ltac index_cases :=
  repeat match goal with
  | H : (?i < ?n)%nat |- context [((?i + 1) mod ?n)%nat] =>
      let s := fresh "s" in let E := fresh "E" in let C := fresh "C" in
      destruct (succ_mod_cases H) as (s & E & C); rewrite E in *; clear E
  | H : (?i < ?n)%nat, H' : context [((?i + 1) mod ?n)%nat] |- _ =>
      let s := fresh "s" in let E := fresh "E" in let C := fresh "C" in
      destruct (succ_mod_cases H) as (s & E & C); rewrite E in *; clear E
  end.

Lemma building_edges_once (count : Z) (n : nat) :
  (3 <= n)%nat -> NoDup (flat_map cyclic_edges (building_faces count n)).
Proof.
  intros Hn. unfold building_faces. cbn [flat_map].
  rewrite flat_map_concat_map, map_map, <- flat_map_concat_map.
  apply NoDup_app; [| apply NoDup_app |].
  - apply cyclic_edges_NoDup, NoDup_rev.
    apply Injective_map_NoDup; [apply base_index_inj | apply seq_NoDup].
  - apply cyclic_edges_NoDup.
    apply Injective_map_NoDup; [apply top_index_inj | apply seq_NoDup].
  - apply NoDup_flat_map; [apply seq_NoDup | |].
    + intros j Hj. apply in_seq in Hj. assert (Hjn : (j < n)%nat) by lia.
      unfold cyclic_edges, wall_indices. cbn [List.length seq map].
      change ((0 + 1) mod 4)%nat with 1%nat. change ((1 + 1) mod 4)%nat with 2%nat.
      change ((2 + 1) mod 4)%nat with 3%nat. change ((3 + 1) mod 4)%nat with 0%nat.
      cbn [nth]. unfold base_index, top_index.
      repeat constructor; cbn [In]; intros H;
        repeat match goal with
        | H : _ \/ _ |- _ => destruct H
        | H : (_, _) = (_, _) |- _ => apply pair_equal_spec in H; destruct H
        | H : False |- _ => contradiction
        end; lia.
    + intros j k [a b] Hj Hk Hjk Ha Hb. apply in_seq in Hj, Hk.
      assert (Hjn : (j < n)%nat) by lia. assert (Hkn : (k < n)%nat) by lia.
      apply edges_wall in Ha, Hb. index_cases.
      unfold base_index, top_index in *.
      repeat match goal with
      | H : _ \/ _ |- _ => destruct H
      | H : (_, _) = (_, _) |- _ => apply pair_equal_spec in H; destruct H
      end; subst; lia.
  - intros [a b] Ha Hb. apply edges_forward in Ha. apply in_flat_map in Hb.
    destruct Ha as (i & Hi & -> & ->). destruct Hb as (j & Hj & Hb).
    apply in_seq in Hj. assert (Hjn : (j < n)%nat) by lia.
    apply edges_wall in Hb. index_cases.
    unfold base_index, top_index in *.
    repeat match goal with
    | H : _ \/ _ |- _ => destruct H
    | H : (_, _) = (_, _) |- _ => apply pair_equal_spec in H; destruct H
    end; lia.
  - intros [a b] Ha Hb. apply edges_backward in Ha. apply in_app_or in Hb.
    destruct Ha as (i & Hi & -> & ->). destruct Hb as [Hb | Hb].
    + apply edges_forward in Hb. destruct Hb as (j & Hj & Hb1 & Hb2).
      unfold base_index, top_index in *. lia.
    + apply in_flat_map in Hb. destruct Hb as (j & Hj & Hb).
      apply in_seq in Hj. assert (Hjn : (j < n)%nat) by lia.
      apply edges_wall in Hb. index_cases.
      unfold base_index, top_index in *.
      repeat match goal with
      | H : _ \/ _ |- _ => destruct H
      | H : (_, _) = (_, _) |- _ => apply pair_equal_spec in H; destruct H
      end; lia.
Qed.

End Manifold.

(** X18.  In a building of at least three ring vertices no directed edge is
    run through twice, so no two faces of the building pass along the
    same edge in the same direction. *)
Theorem building_edges_used_once
    (F : Type) (PF : PyFloat F) (st : @builder F) (ring : list (F * F)) (height : F) :
  (3 <= List.length ring)%nat ->
  exists new_lines,
    obj_lines (emit_building st ring height) = obj_lines st ++ new_lines /\
    NoDup (mesh_edges (faces new_lines)).
Proof.
  intros Hn. destruct (emitted_faces st ring height) as (new_lines & Hl & Hf).
  exists new_lines. split; [exact Hl |].
  pose proof (@building_edges_once (vertex_count st) _ Hn) as Hd.
  rewrite <- Hf in Hd. unfold mesh_edges.
  rewrite flat_map_concat_map in Hd. rewrite map_map in Hd.
  rewrite <- flat_map_concat_map in Hd. exact Hd.
Qed.

Lemma building_edges_used_once_witness :
  exists new_lines,
    obj_lines (emit_building (@initial_builder R) [(0, 0); (4, 0); (0, 3)]%R 10%R)
    = obj_lines (@initial_builder R) ++ new_lines /\
    NoDup (mesh_edges (faces new_lines)).
Proof.
  apply (@building_edges_used_once R exact). cbn [List.length]. lia.
Defined.


(** ** Names, acceptance and the filter *)


Section Names.

Lemma of_string_of_int (d : Decimal.signed_int) :
  option_map Z.of_int (NilZero.int_of_string (NilZero.string_of_int d)) = Some (Z.of_int d).
Proof.
  destruct d as [u | u]; destruct u;
    try (rewrite NilZero.isi by discriminate; reflexivity); reflexivity.
Qed.

Lemma str_of_int_inj : Injective str_of_int.
Proof.
  intros a b H. unfold str_of_int in H.
  pose proof (of_string_of_int (Z.to_int a)) as Ha.
  pose proof (of_string_of_int (Z.to_int b)) as Hb.
  rewrite H, Hb in Ha. rewrite !DecimalZ.of_to in Ha. congruence.
Qed.

Lemma append_inj (p a b : string) : (p ++ a = p ++ b)%string -> a = b.
Proof.
  induction p as [| c p IH]; cbn [String.append]; intros H; [exact H |].
  apply IH. congruence.
Qed.

Lemma building_name_inj :
  Injective (fun k : nat => ("building_" ++ str_of_int (Z.of_nat k))%string).
Proof.
  intros a b H. apply append_inj in H. apply str_of_int_inj in H. lia.
Qed.

End Names.

Section Naming.
Context {F : Type} {PF : PyFloat F}.

Lemma groups_app (a b : list (obj_line F)) : groups (a ++ b) = groups a ++ groups b.
Proof. apply flat_map_app. Qed.

Lemma materials_app (a b : list (obj_line F)) :
  materials (a ++ b) = materials a ++ materials b.
Proof. apply flat_map_app. Qed.

Lemma plain_faces_groups (fs : list (list Z)) : groups (map (@plain_face F) fs) = [].
Proof. induction fs; simpl; auto. Qed.

Lemma plain_faces_materials (fs : list (list Z)) : materials (map (@plain_face F) fs) = [].
Proof. induction fs; simpl; auto. Qed.

Lemma vertex_lines_groups (ring : list (F * F)) (height : F) :
  groups (building_vertex_lines ring height) = [].
Proof. unfold building_vertex_lines. induction ring; simpl; auto. Qed.

Lemma vertex_lines_materials (ring : list (F * F)) (height : F) :
  materials (building_vertex_lines ring height) = [].
Proof. unfold building_vertex_lines. induction ring; simpl; auto. Qed.

Lemma building_lines_groups (count k : Z) (ring : list (F * F)) (height : F) :
  groups (building_lines count k ring height) = [("building_" ++ str_of_int k)%string].
Proof.
  unfold building_lines.
  rewrite !groups_app, plain_faces_groups, vertex_lines_groups. reflexivity.
Qed.

Lemma building_lines_materials (count k : Z) (ring : list (F * F)) (height : F) :
  materials (building_lines count k ring height) = ["building_material"%string].
Proof.
  unfold building_lines.
  rewrite !materials_app, plain_faces_materials, vertex_lines_materials. reflexivity.
Qed.

Lemma emit_all_names (bs : list (list (F * F) * F)) :
  forall st,
    0 <= building_count st ->
    groups (obj_lines (emit_all st bs)) =
      groups (obj_lines st)
      ++ map (fun k => ("building_" ++ str_of_int (Z.of_nat k))%string)
             (seq (S (Z.to_nat (building_count st))) (List.length bs)) /\
    materials (obj_lines (emit_all st bs)) =
      materials (obj_lines st) ++ repeat "building_material"%string (List.length bs).
Proof.
  induction bs as [| b bs IH]; intros st Hc.
  - cbn [emit_all fold_left List.length seq map repeat]. rewrite !app_nil_r. auto.
  - unfold emit_all. cbn [fold_left]. fold (emit_all (emit_building st (fst b) (snd b)) bs).
    destruct (IH (emit_building st (fst b) (snd b))) as [Hg Hm].
    { rewrite emit_building_lines. cbn [building_count]. lia. }
    rewrite Hg, Hm, emit_building_lines. cbn [obj_lines building_count].
    rewrite groups_app, materials_app, building_lines_groups, building_lines_materials.
    rewrite <- !app_assoc. cbn [List.length seq map repeat app].
    replace (Z.of_nat (S (Z.to_nat (building_count st)))) with (building_count st + 1) by lia.
    replace (Z.to_nat (building_count st + 1)) with (S (Z.to_nat (building_count st))) by lia.
    auto.
Qed.

End Naming.

Section Acceptance.
Context {F : Type} {PF : PyFloat F} {LM : Libm F} {BI : Builtins F} {SH : Shapely F}.
Variables (olat olon bh : F) (q : string).

Lemma accepted_at_most (elements : list (pyval F)) :
  forall bs,
    accepted_buildings olat olon bh q elements = Ok bs ->
    (List.length bs <= List.length elements)%nat.
Proof.
  induction elements as [| e rest IH]; intros bs H.
  - injection H as <-. simpl. lia.
  - cbn [accepted_buildings] in H. bind_inv H. bind_inv H.
    specialize (IH _ E0). cbn [List.length].
    destruct a as [coords |]; [| injection H as <-; lia].
    destruct (building_of e coords olat olon bh q) as [[b |] | ex];
      injection H as <-; cbn [List.length]; lia.
Qed.

Lemma built_ring_size (e : pyval F) (coords : list (pyval F * pyval F))
    (ring : list (F * F)) (h : F) :
  building_of e coords olat olon bh q = Ok (Some (ring, h)) ->
  (3 <= List.length ring)%nat.
Proof.
  unfold building_of. intros H. bind_inv H.
  destruct a as [[lc p] |]; [| discriminate].
  bind_inv H. destruct (Nat.ltb_spec (List.length a) 3) as [Hl | Hl]; [discriminate |].
  bind_inv H. injection H as <- <-. exact Hl.
Qed.

Lemma accepted_ring_sizes (elements : list (pyval F)) :
  forall bs,
    accepted_buildings olat olon bh q elements = Ok bs ->
    Forall (fun b => (3 <= List.length (fst b))%nat) bs.
Proof.
  induction elements as [| e rest IH]; intros bs H.
  - injection H as <-. constructor.
  - cbn [accepted_buildings] in H. bind_inv H. bind_inv H.
    specialize (IH _ E0).
    destruct a as [coords |]; [| injection H as <-; exact IH].
    destruct (building_of e coords olat olon bh q) as [[[ring h] |] | ex] eqn:Eb;
      injection H as <-; try exact IH.
    constructor; [| exact IH]. cbn [fst]. eapply built_ring_size. exact Eb.
Qed.




End Acceptance.

(** X19.  The groups of the building lines are building_1, ..., building_k in
    this order, k being the returned building count; the names are
    pairwise distinct, every group uses the building material, and k is at
    most the number of records. *)
Theorem building_groups_numbered
    (F : Type) (PF : PyFloat F) (LM : Libm F) (BI : Builtins F) (SH : Shapely F)
    (elements : list (pyval F)) (olat olon bh : F) (q : string)
    (lines : list (obj_line F)) (total count : Z) :
  create_building_geometry elements olat olon bh q = Ok (lines, total, count) ->
  groups lines =
    map (fun k => ("building_" ++ str_of_int (Z.of_nat k))%string)
        (seq 1 (Z.to_nat count)) /\
  NoDup (groups lines) /\
  materials lines = repeat "building_material"%string (Z.to_nat count) /\
  0 <= count <= Z.of_nat (List.length elements).
Proof.
  intros H. rewrite create_building_geometry_accepted in H.
  bind_inv H. cbv zeta in H. injection H as <- <- <-.
  destruct (emit_all_names a (@initial_builder F)) as [Hg Hm]; [simpl; lia |].
  destruct (emit_all_counts a (@initial_builder F)) as [_ Hc].
  cbn [initial_builder building_count obj_lines] in *.
  rewrite Hc. replace (Z.to_nat (0 + Z.of_nat (List.length a))) with (List.length a) by lia.
  assert (Hgr : groups (obj_lines (emit_all initial_builder a)) =
                map (fun k => ("building_" ++ str_of_int (Z.of_nat k))%string)
                    (seq 1 (List.length a))) by (rewrite Hg; reflexivity).
  split; [exact Hgr |]. split.
  - rewrite Hgr. apply Injective_map_NoDup; [apply building_name_inj | apply seq_NoDup].
  - split; [rewrite Hm; reflexivity |].
    apply accepted_at_most in E. lia.
Qed.

Lemma building_groups_numbered_witness :
  exists lines total,
    create_building_geometry [square; triangle] berlin_lat berlin_lon 10%float "high"
    = Ok (lines, total, 2) /\
    groups lines = ["building_1"; "building_2"]%string.
Proof.
  assert (E : exists lines total count,
             create_building_geometry [square; triangle] berlin_lat berlin_lon
                                      10%float "high" = Ok (lines, total, count))
    by (do 3 eexists; vm_compute; reflexivity).
  destruct E as (lines & total & count & E).
  assert (Hc : count = 2)
    by (revert E; vm_compute; intros E; injection E as _ _ <-; reflexivity).
  subst count.
  destruct (@building_groups_numbered float binary64 Sample.libm Sample.builtins
              Sample.shapely _ _ _ _ _ _ _ _ E) as (Hg & _).
  exists lines, total. split; [exact E | exact Hg].
Defined.




Section Filtering.
Context {F : Type} {PF : PyFloat F} {LM : Libm F} {BI : Builtins F} {SH : Shapely F}.
Variables (olat olon bh : F) (q : string).

Lemma untagged_skipped (e : pyval F) :
  has_building_tag e = Ok false -> footprint_coords e = Ok None.
Proof.
  unfold has_building_tag, footprint_coords, is_building. intros H.
  bind_inv H. bind_inv H. injection H as H.
  rewrite E. cbn [bind]. rewrite E0. cbn [bind]. rewrite H. reflexivity.
Qed.

Lemma accepted_of_kept (elements : list (pyval F)) :
  forall kept,
    building_elements elements = Ok kept ->
    accepted_buildings olat olon bh q kept = accepted_buildings olat olon bh q elements.
Proof.
  induction elements as [| e rest IH]; intros kept H.
  - injection H as <-. reflexivity.
  - cbn [building_elements] in H. bind_inv H. bind_inv H. injection H as <-.
    specialize (IH _ E0). destruct a.
    + cbn [accepted_buildings]. rewrite IH. reflexivity.
    + cbn [accepted_buildings]. rewrite (untagged_skipped _ E). cbn [bind].
      rewrite IH. destruct (accepted_buildings olat olon bh q rest); reflexivity.
Qed.

Lemma kept_tagged (elements : list (pyval F)) :
  forall kept,
    building_elements elements = Ok kept ->
    Forall (fun e => has_building_tag e = Ok true) kept /\
    (kept = [] <-> Forall (fun e => has_building_tag e = Ok false) elements).
Proof.
  induction elements as [| e rest IH]; intros kept H.
  - injection H as <-. split; [constructor |]. split; auto.
  - cbn [building_elements] in H. bind_inv H. bind_inv H. injection H as <-.
    destruct (IH _ E0) as [Hk He]. destruct a.
    + split; [constructor; assumption |]. split; [discriminate |].
      intros Hf. inversion Hf; subst. congruence.
    + split; [exact Hk |]. split.
      * intros Hn. constructor; [exact E | apply He; exact Hn].
      * intros Hf. inversion Hf; subst. apply He. assumption.
Qed.

Lemma accepted_app (l1 l2 : list (pyval F)) :
  forall bs1 bs,
    accepted_buildings olat olon bh q l1 = Ok bs1 ->
    accepted_buildings olat olon bh q (l1 ++ l2) = Ok bs ->
    exists bs2, accepted_buildings olat olon bh q l2 = Ok bs2 /\ bs = bs1 ++ bs2.
Proof.
  induction l1 as [| e rest IH]; intros bs1 bs H1 H.
  - injection H1 as <-. exists bs. auto.
  - cbn [app accepted_buildings] in H1, H.
    bind_inv H1. bind_inv H1. bind_inv H. bind_inv H.
    rewrite E in E1. injection E1 as <-.
    destruct (IH _ _ E0 E2) as (bs2 & Hb & ->).
    exists bs2. split; [exact Hb |].
    destruct a as [coords |]; [| congruence].
    destruct (building_of e coords olat olon bh q) as [[b |] | ex];
      injection H1 as <-; injection H as <-; reflexivity.
Qed.

End Filtering.

Section Growth.
Context {F : Type} {PF : PyFloat F}.

Lemma emit_all_app (bs1 bs2 : list (list (F * F) * F)) (st : @builder F) :
  emit_all st (bs1 ++ bs2) = emit_all (emit_all st bs1) bs2.
Proof. unfold emit_all. apply fold_left_app. Qed.

Lemma emit_all_grows (bs : list (list (F * F) * F)) :
  forall st, exists more,
    obj_lines (emit_all st bs) = obj_lines st ++ more /\
    vertex_count (emit_all st bs) = vertex_count st + vertex_lines more.
Proof.
  induction bs as [| b bs IH]; intros st.
  - exists []. cbn [emit_all fold_left]. rewrite app_nil_r.
    unfold vertex_lines. simpl. split; [reflexivity | lia].
  - unfold emit_all. cbn [fold_left]. fold (emit_all (emit_building st (fst b) (snd b)) bs).
    destruct (IH (emit_building st (fst b) (snd b))) as (more & Hl & Hv).
    rewrite Hl, Hv, emit_building_lines. cbn [obj_lines vertex_count].
    eexists. split; [rewrite <- app_assoc; reflexivity |].
    rewrite vertex_lines_app, building_lines_vertex_count. lia.
Qed.

End Growth.

(** X21.  The filter of [export_obj] (the records with a true building tag)
    does not change the mesh: the building lines of the kept records are
    those of all the records.  Nothing is kept exactly when no record has
    a true building tag. *)
Theorem prefilter_keeps_mesh
    (F : Type) (PF : PyFloat F) (LM : Libm F) (BI : Builtins F) (SH : Shapely F)
    (elements kept : list (pyval F)) :
  building_elements elements = Ok kept ->
  (forall olat olon bh q,
      create_building_geometry kept olat olon bh q =
      create_building_geometry elements olat olon bh q) /\
  Forall (fun e => has_building_tag e = Ok true) kept /\
  (kept = [] <-> Forall (fun e => has_building_tag e = Ok false) elements).
Proof.
  intros H. split.
  - intros olat olon bh q. rewrite !create_building_geometry_accepted.
    rewrite (accepted_of_kept olat olon bh q _ H). reflexivity.
  - apply kept_tagged. exact H.
Qed.

Lemma prefilter_keeps_mesh_witness :
  create_building_geometry [square; triangle] berlin_lat berlin_lon 10%float "high" =
  create_building_geometry [square; PDict []; triangle] berlin_lat berlin_lon
                           10%float "high".
Proof.
  apply (@prefilter_keeps_mesh float binary64 Sample.libm Sample.builtins Sample.shapely
           [square; PDict []; triangle] [square; triangle]).
  vm_compute. reflexivity.
Defined.

(** X22.  Records appended to a batch leave its lines as they are: the
    building lines of the longer batch start with those of the shorter
    one, and the counters only grow. *)
Theorem batch_output_grows
    (F : Type) (PF : PyFloat F) (LM : Libm F) (BI : Builtins F) (SH : Shapely F)
    (l1 l2 : list (pyval F)) (olat olon bh : F) (q : string)
    (lines1 lines : list (obj_line F)) (total1 total count1 count : Z) :
  create_building_geometry l1 olat olon bh q = Ok (lines1, total1, count1) ->
  create_building_geometry (l1 ++ l2) olat olon bh q = Ok (lines, total, count) ->
  exists more,
    lines = lines1 ++ more /\
    total = total1 + vertex_lines more /\
    count1 <= count <= count1 + Z.of_nat (List.length l2).
Proof.
  intros H1 H. rewrite create_building_geometry_accepted in H1, H.
  bind_inv H1. bind_inv H. cbv zeta in H1, H.
  injection H1 as <- <- <-. injection H as <- <- <-.
  destruct (accepted_app _ _ _ _ _ _ E E0) as (bs2 & Hb & ->).
  rewrite emit_all_app.
  destruct (emit_all_grows bs2 (emit_all initial_builder a)) as (more & Hl & Hv).
  exists more. split; [exact Hl |]. split; [exact Hv |].
  destruct (emit_all_counts bs2 (emit_all initial_builder a)) as [_ Hc].
  rewrite Hc. apply accepted_at_most in Hb. lia.
Qed.

Lemma batch_output_grows_witness :
  exists lines1 total1 count1 lines total count more,
    create_building_geometry [square] berlin_lat berlin_lon 10%float "high"
    = Ok (lines1, total1, count1) /\
    create_building_geometry ([square] ++ [triangle]) berlin_lat berlin_lon 10%float "high"
    = Ok (lines, total, count) /\
    lines = lines1 ++ more /\ count1 <= count.
Proof.
  assert (E1 : exists lines1 total1 count1,
             create_building_geometry [square] berlin_lat berlin_lon 10%float "high"
             = Ok (lines1, total1, count1))
    by (do 3 eexists; vm_compute; reflexivity).
  assert (E2 : exists lines total count,
             create_building_geometry ([square] ++ [triangle]) berlin_lat berlin_lon
                                      10%float "high" = Ok (lines, total, count))
    by (do 3 eexists; vm_compute; reflexivity).
  destruct E1 as (lines1 & total1 & count1 & E1).
  destruct E2 as (lines & total & count & E2).
  destruct (@batch_output_grows float binary64 Sample.libm Sample.builtins Sample.shapely
              _ _ _ _ _ _ _ _ _ _ _ _ E1 E2) as (more & Hl & _ & Hc & _).
  exists lines1, total1, count1, lines, total, count, more.
  split; [exact E1 |]. split; [exact E2 |]. split; [exact Hl | exact Hc].
Defined.


(** ** The material file *)


Section MaterialFile.

Lemma split_lines_app (a b : string) :
  split_lines (a ++ LF ++ b) = split_lines a ++ split_lines b.
Proof.
  induction a as [| c a IH].
  - reflexivity.
  - cbn [String.append split_lines]. rewrite IH.
    destruct (Ascii.eqb c (ascii_of_nat 10)); [reflexivity |].
    destruct (split_lines a) as [| l ls] eqn:E; [| reflexivity].
    destruct a; cbn [split_lines] in E; [discriminate |].
    destruct (Ascii.eqb a (ascii_of_nat 10)); [discriminate |].
    destruct (split_lines a0); discriminate.
Qed.

Lemma split_one_line (s : string) : one_line s = true -> split_lines s = [s].
Proof.
  induction s as [| c s IH]; [reflexivity |].
  cbn [one_line split_lines]. intros H. apply andb_true_iff in H. destruct H as [Hc Hs].
  apply negb_true_iff in Hc. rewrite Hc, (IH Hs). reflexivity.
Qed.

Lemma material_file_lines (texture_filename : string) :
  split_lines (create_material_file texture_filename) =
  ["# Perfect Aligned Materials"; ""; "newmtl ground_texture"; "Ka 1.0 1.0 1.0";
   "Kd 1.0 1.0 1.0"; "Ks 0.0 0.0 0.0"]%string
  ++ split_lines ("map_Kd " ++ texture_filename)
  ++ [""; "newmtl building_material"; "Ka 0.7 0.7 0.7"; "Kd 0.8 0.8 0.8";
      "Ks 0.2 0.2 0.2"; "Ns 20.0"; ""]%string.
Proof.
  change (create_material_file texture_filename)
    with (("# Perfect Aligned Materials" ++ LF ++ LF ++ "newmtl ground_texture" ++ LF
           ++ "Ka 1.0 1.0 1.0" ++ LF ++ "Kd 1.0 1.0 1.0" ++ LF ++ "Ks 0.0 0.0 0.0")
          ++ LF
          ++ (("map_Kd " ++ texture_filename)
              ++ LF
              ++ (LF ++ "newmtl building_material" ++ LF ++ "Ka 0.7 0.7 0.7" ++ LF
                  ++ "Kd 0.8 0.8 0.8" ++ LF ++ "Ks 0.2 0.2 0.2" ++ LF ++ "Ns 20.0" ++ LF)))%string.
  rewrite !split_lines_app. reflexivity.
Qed.

End MaterialFile.

Section DocumentNames.
Context {F : Type} {PF : PyFloat F} {LM : Libm F}.

Lemma ground_plane_names (b : @bbox F) (path : string) (lines : list (obj_line F)) (n : Z) :
  create_perfect_ground_plane b path = Ok (lines, n) ->
  materials lines = ["ground_texture"%string] /\ groups lines = ["ground_plane"%string].
Proof.
  destruct b as [[[west south] east] north]. intros H.
  unfold create_perfect_ground_plane in H.
  do 5 (bind_inv H; destruct a).
  injection H as <- <-. split; reflexivity.
Qed.

End DocumentNames.

(** X23.  No material is missing: every material the document uses (the
    ground texture once, the building material once per building) is
    defined by a newmtl line of the material file, whatever the texture
    file is called; and the file maps the ground texture to the texture
    file when its name holds no line feed. *)
Theorem materials_are_defined
    (F : Type) (PF : PyFloat F) (LM : Libm F) (BI : Builtins F) (SH : Shapely F)
    (b : @bbox F) (elements : list (pyval F)) (bh : F) (q : string)
    (doc : list (obj_line F)) (texture_filename : string) :
  mesh_document b elements bh q = Ok doc ->
  let mtl := split_lines (create_material_file texture_filename) in
  (exists k, materials doc = "ground_texture"%string :: repeat "building_material"%string k) /\
  Forall (fun m => In ("newmtl " ++ m)%string mtl) (materials doc) /\
  (one_line texture_filename = true -> In ("map_Kd " ++ texture_filename)%string mtl).
Proof.
  intros H mtl.
  destruct (mesh_document_parts _ _ _ _ H) as (olat & olon & ground & bs & _ & Hg & _ & ->).
  destruct (ground_plane_names _ _ Hg) as [Hm _].
  destruct (emit_all_names bs (@initial_builder F)) as [_ Hb]; [simpl; lia |].
  assert (Hd : materials ([Comment "Perfect Aligned 3D Map"; BboxComment b;
                           OriginComment olat olon; Blank;
                           MtlLib "perfect_materials.mtl"; Blank]
                          ++ ground ++ obj_lines (emit_all initial_builder bs))
               = "ground_texture"%string
                 :: repeat "building_material"%string (List.length bs)).
  { rewrite !materials_app, Hm, Hb. reflexivity. }
  assert (Hg1 : In "newmtl ground_texture"%string mtl)
    by (unfold mtl; rewrite material_file_lines; cbn [app In]; auto).
  assert (Hg2 : In "newmtl building_material"%string mtl).
  { unfold mtl. rewrite material_file_lines. apply in_or_app. right.
    apply in_or_app. right. cbn [In]. auto. }
  split; [exists (List.length bs); exact Hd |]. split.
  - rewrite Hd. constructor; [exact Hg1 |].
    apply Forall_forall. intros m Hin. apply repeat_spec in Hin. subst m. exact Hg2.
  - intros Hone. unfold mtl. rewrite material_file_lines.
    apply in_or_app. right. apply in_or_app. left.
    rewrite split_one_line; [left; reflexivity |]. exact Hone.
Qed.

Lemma materials_are_defined_witness :
  exists doc,
    mesh_document berlin [square] 10%float "high" = Ok doc /\
    Forall (fun m => In ("newmtl " ++ m)%string
                        (split_lines (create_material_file "perfect_map.png")))
           (materials doc) /\
    In "map_Kd perfect_map.png"%string
       (split_lines (create_material_file "perfect_map.png")).
Proof.
  assert (E : exists doc, mesh_document berlin [square] 10%float "high" = Ok doc)
    by (eexists; vm_compute; reflexivity).
  destruct E as (doc & E). exists doc. split; [exact E |].
  destruct (@materials_are_defined float binary64 Sample.libm Sample.builtins Sample.shapely
              _ _ _ _ _ "perfect_map.png"%string E) as (_ & Hm & Ht).
  split; [exact Hm | apply Ht; reflexivity].
Defined.
